(** * django_spanner.creation: the test-database lifecycle

    A shallow embedding of [src/django_spanner/creation.py]
    (class [DatabaseCreation]) and the properties of its control flow.

    The Python methods are effectful: they talk to the Spanner service,
    read the console, write to the log, and mutate Django's settings, the
    connection object and the test-case classes.  They are embedded in a
    state-and-outcome monad [M]: a computation takes the interpreter state
    and gives back an outcome (a value, a raised exception, or a process
    exit) together with the new state.  Every call to a collaborator is
    appended, with its result, to a chronological trace kept in the state,
    so that "is called", "is never called" and "before" are statements on
    that trace. *)

From Stdlib Require Import ZArith String Ascii List Lia.
From stdpp Require Import base gmap strings list fin_maps.

Open Scope string_scope.
Open Scope Z_scope.

(** ** Exceptions and outcomes *)

(** The exception classes the module can meet.  All of them derive from
    Python's [Exception], so an [except Exception] clause catches every
    [Raise]; [SystemExit] (raised by [sys.exit]) does not, and is the
    separate outcome [Exit]. *)
Inductive exn_class : Type :=
| ServiceError
| ImportError
| AttributeError
| KeyError
| UnboundLocalError
| OtherError.

Record exn : Type := Exn { exn_kind : exn_class; exn_str : string }.

Inductive outcome (A : Type) : Type :=
| Ret (a : A)
| Raise (e : exn)
| Exit (code : Z).

Arguments Ret {A} a.
Arguments Raise {A} e.
Arguments Exit {A} code.

(** ** Test methods and [unittest.skip] *)

(** A class attribute holding a test method: either the function written
    in the test module, or the [skip_wrapper] closure that
    [unittest.skip(reason)] builds around a function ([functools.wraps]
    keeps the wrapped function in [__wrapped__]). *)
Inductive method : Type :=
| Original (body : string)
| SkipWrapper (reason : string) (wrapped : method).

(** What a test runner observes when it invokes a test method. *)
Inductive call_result : Type :=
| Executed (body : string)
| SkipTest (reason : string).

Definition call_method (m : method) : call_result :=
  match m with
  | Original b => Executed b
  | SkipWrapper reason _ => SkipTest reason
  end.

(** [unittest.skip(reason)(test_item)] for a function [test_item]. *)
Definition skip (reason : string) (test_item : method) : method :=
  SkipWrapper reason test_item.

(** Number of [skip_wrapper] layers around the original function. *)
Fixpoint wrap_depth (m : method) : nat :=
  match m with
  | Original _ => O
  | SkipWrapper _ m' => S (wrap_depth m')
  end.

(** ** Events *)

Inductive event : Type :=
| EvLog (msg : string)
| EvCreate (dbname : string) (r : option exn)
| EvDrop (dbname : string) (r : option exn)
| EvInput (prompt : string) (answer : string)
| EvClose (r : option exn)
| EvSetDatabasesName (alias : string) (name : string)
| EvSetSettingsDictName (name : string)
| EvSerialize (r : exn + string)
| EvSetSerializedContents (contents : string)
| EvCallCommand (command : string) (database : string) (r : option exn)
| EvEnsureConnection (r : option exn)
| EvSetattr (test_case : string) (method_name : string) (m : method).

Definition is_drop (e : event) : bool :=
  match e with EvDrop _ _ => true | _ => false end.
Definition is_create (e : event) : bool :=
  match e with EvCreate _ _ => true | _ => false end.
Definition is_input (e : event) : bool :=
  match e with EvInput _ _ => true | _ => false end.
Definition is_log (e : event) : bool :=
  match e with EvLog _ => true | _ => false end.
Definition is_serialize (e : event) : bool :=
  match e with EvSerialize _ => true | _ => false end.
Definition is_set_serialized (e : event) : bool :=
  match e with EvSetSerializedContents _ => true | _ => false end.
Definition is_setattr (e : event) : bool :=
  match e with EvSetattr _ _ _ => true | _ => false end.
Definition is_set_name (e : event) : bool :=
  match e with
  | EvSetDatabasesName _ _ | EvSetSettingsDictName _ => true
  | _ => false
  end.

(** How many events of a trace satisfy [p]. *)
Definition count (p : event -> bool) (tr : list event) : nat :=
  length (List.filter p tr).

(** ** The world outside the module *)

(** The collaborators answer as a function of everything that happened so
    far, which covers any deterministic service, console and Django
    runtime. *)
Record World : Type := {
  (* instance.database(name).create(): [None], or the exception raised *)
  svc_create : list event -> string -> option exn;
  (* instance.database(name).drop() *)
  svc_drop : list event -> string -> option exn;
  (* the line typed at the prompt *)
  console_input : list event -> string -> string;
  (* connection.close() *)
  conn_close : list event -> option exn;
  (* BaseDatabaseCreation.serialize_db_to_string() *)
  serializer : list event -> exn + string;
  (* django.core.management.call_command(command, database=...) *)
  command_runner : list event -> string -> string -> option exn;
  (* connection.ensure_connection() *)
  conn_ensure : list event -> option exn
}.

(** ** Interpreter state *)

(** [settings.DATABASES[alias]] and [connection.settings_dict] are kept as
    two dictionaries: [create_test_db] assigns the name to each of them,
    after its last reading of either, so nothing below depends on whether
    Django made them one object. *)
Record State : Type := {
  (* os.environ *)
  environ : gmap string string;
  (* settings.INSTALLED_APPS *)
  INSTALLED_APPS : list string;
  (* settings.DATABASES *)
  DATABASES : gmap string (gmap string string);
  (* connection.alias *)
  alias : string;
  (* connection.settings_dict *)
  settings_dict : gmap string string;
  (* connection.features.skip_tests *)
  skip_tests : list string;
  (* connection._test_serialized_contents; [None] while the attribute is unset *)
  _test_serialized_contents : option string;
  (* the importable test-case classes, by dotted path: name -> attribute *)
  test_cases : gmap string (gmap string method);
  (* what happened so far, oldest first *)
  trace : list event
}.

Definition with_trace (s : State) (tr : list event) : State :=
  {| environ := environ s; INSTALLED_APPS := INSTALLED_APPS s;
     DATABASES := DATABASES s; alias := alias s;
     settings_dict := settings_dict s; skip_tests := skip_tests s;
     _test_serialized_contents := _test_serialized_contents s;
     test_cases := test_cases s; trace := tr |}.

Definition with_DATABASES (s : State) (d : gmap string (gmap string string)) : State :=
  {| environ := environ s; INSTALLED_APPS := INSTALLED_APPS s;
     DATABASES := d; alias := alias s;
     settings_dict := settings_dict s; skip_tests := skip_tests s;
     _test_serialized_contents := _test_serialized_contents s;
     test_cases := test_cases s; trace := trace s |}.

Definition with_settings_dict (s : State) (d : gmap string string) : State :=
  {| environ := environ s; INSTALLED_APPS := INSTALLED_APPS s;
     DATABASES := DATABASES s; alias := alias s;
     settings_dict := d; skip_tests := skip_tests s;
     _test_serialized_contents := _test_serialized_contents s;
     test_cases := test_cases s; trace := trace s |}.

Definition with_serialized (s : State) (c : option string) : State :=
  {| environ := environ s; INSTALLED_APPS := INSTALLED_APPS s;
     DATABASES := DATABASES s; alias := alias s;
     settings_dict := settings_dict s; skip_tests := skip_tests s;
     _test_serialized_contents := c;
     test_cases := test_cases s; trace := trace s |}.

Definition with_test_cases (s : State) (t : gmap string (gmap string method)) : State :=
  {| environ := environ s; INSTALLED_APPS := INSTALLED_APPS s;
     DATABASES := DATABASES s; alias := alias s;
     settings_dict := settings_dict s; skip_tests := skip_tests s;
     _test_serialized_contents := _test_serialized_contents s;
     test_cases := t; trace := trace s |}.

(** ** The monad *)

Definition M (A : Type) : Type := State -> outcome A * State.

Definition ret {A : Type} (a : A) : M A := fun s => (Ret a, s).
Definition raise {A : Type} (e : exn) : M A := fun s => (Raise e, s).
Definition sys_exit {A : Type} (code : Z) : M A := fun s => (Exit code, s).

Definition bind {A B : Type} (m : M A) (k : A -> M B) : M B :=
  fun s =>
    match m s with
    | (Ret a, s') => k a s'
    | (Raise e, s') => (Raise e, s')
    | (Exit c, s') => (Exit c, s')
    end.

(** [try: body / except Exception as e: handler e]. *)
Definition try_except {A : Type} (body : M A) (handler : exn -> M A) : M A :=
  fun s =>
    match body s with
    | (Raise e, s') => handler e s'
    | r => r
    end.

Definition get : M State := fun s => (Ret s, s).
Definition emit (e : event) : M unit :=
  fun s => (Ret tt, with_trace s (trace s ++ [e])).

(** A mutation of the interpreter state, recorded in the trace. *)
Definition update (f : State -> State) (e : event) : M unit :=
  fun s => emit e (f s).

Notation "x <- m ;; k" := (bind m (fun x => k))
  (at level 100, m at next level, right associativity).
Notation "m ;; k" := (bind m (fun _ => k))
  (at level 100, right associativity).

(** A collaborator call that returns nothing or raises. *)
Definition of_result (r : option exn) : M unit :=
  match r with
  | None => ret tt
  | Some e => raise e
  end.

(** ** Strings *)

(** [s.split(".")[0]]: the part before the first dot, the whole string
    when there is none. *)
Fixpoint split_dot_head (s : string) : string :=
  match s with
  | EmptyString => EmptyString
  | String c s' =>
      if Ascii.eqb c "."%char then EmptyString
      else String c (split_dot_head s')
  end.

(** The two sides of the last dot of [s], when it has one. *)
Fixpoint rsplit_dot (s : string) : option (string * string) :=
  match s with
  | EmptyString => None
  | String c s' =>
      match rsplit_dot s' with
      | Some (h, t) => Some (String c h, t)
      | None => if Ascii.eqb c "."%char then Some (EmptyString, s') else None
      end
  end.

(** [s.rpartition(".")]. *)
Definition rpartition_dot (s : string) : string * string * string :=
  match rsplit_dot s with
  | Some (h, t) => (h, ".", t)
  | None => ("", "", s)
  end.

(** ** The class [DatabaseCreation] *)

Section DatabaseCreation.

(** The service, the console and the Django runtime. *)
Variable w : World.

(** Two methods inherited from Django's [BaseDatabaseCreation], whose
    code is not part of this repository: the test database name is a
    function of the connection's settings, the display string a function
    of the alias, the verbosity and the name. *)
Variable _get_test_db_name : gmap string string -> string.
Variable _get_database_display_str : string -> Z -> string -> string.

(** [self.log(msg)] writes one line to the error stream. *)
Definition log (msg : string) : M unit := emit (EvLog msg).

(** *** Django's [import_string], and attributes of a test case *)

(** [import_string(dotted_path)] raises [ImportError] when the path has
    no dot or names nothing importable.  (When the import of the module
    itself fails, Django lets that exception through, whatever its class;
    it is an [ImportError] here, and no property below depends on the
    class.)  A class is a shared object: it is referred to by its dotted
    path, and its attributes live in [test_cases].  Each class has its
    own table: an attribute found on a class is taken to be the class's
    own, not one inherited from a base class. *)
Definition import_string (dotted_path : string) : M string :=
  s <- get ;;
  match rsplit_dot dotted_path with
  | None =>
      raise (Exn ImportError (dotted_path ++ " doesn't look like a module path"))
  | Some _ =>
      match test_cases s !! dotted_path with
      | Some _ => ret dotted_path
      | None => raise (Exn ImportError ("cannot import " ++ dotted_path))
      end
  end.

Definition getattr (test_case method_name : string) : M method :=
  s <- get ;;
  match test_cases s !! test_case ≫= (fun cls : gmap string method => cls !! method_name) with
  | Some m => ret m
  | None =>
      raise (Exn AttributeError
               ("type object '" ++ (rpartition_dot test_case).2
                ++ "' has no attribute '" ++ method_name ++ "'"))
  end.

Definition setattr (test_case method_name : string) (m : method) : M unit :=
  update
    (fun s =>
       with_test_cases s
         (alter (fun cls : gmap string method => <[method_name := m]> cls)
                test_case (test_cases s)))
    (EvSetattr test_case method_name m).

(** *** [mark_skips] *)

(** The body of the loop of [mark_skips], for one entry of
    [skip_tests]. *)
Definition mark_skip (test_name : string) : M unit :=
  let '(test_case_name, _, method_name) := rpartition_dot test_name in
  let test_app := split_dot_head test_name in
  s <- get ;;
  if decide (test_app ∈ INSTALLED_APPS s) then
    test_case <- import_string test_case_name ;;
    method <- getattr test_case method_name ;;
    setattr test_case method_name (skip "unsupported by Spanner" method)
  else ret tt.

Fixpoint for_each {A : Type} (l : list A) (body : A -> M unit) : M unit :=
  match l with
  | [] => ret tt
  | x :: l' => body x ;; for_each l' body
  end.

Definition mark_skips : M unit :=
  s <- get ;;
  for_each (skip_tests s) mark_skip.

(** *** The service calls *)

(** [self.connection.instance.database(parameters["dbname"]).create()] *)
Definition _execute_create_test_db
    (parameters : gmap string string) (keepdb : bool) : M unit :=
  match parameters !! "dbname" with
  | None => raise (Exn KeyError "'dbname'")
  | Some dbname =>
      s <- get ;;
      let r := svc_create w (trace s) dbname in
      emit (EvCreate dbname r) ;;
      of_result r
  end.

(** [self.connection.instance.database(test_database_name).drop()] *)
Definition _destroy_test_db (test_database_name : string) (verbosity : Z) : M unit :=
  s <- get ;;
  let r := svc_drop w (trace s) test_database_name in
  emit (EvDrop test_database_name r) ;;
  of_result r.

(** The builtin [input(prompt)], on a console that delivers a line.  (At
    the end of the input stream Python raises [EOFError] instead.) *)
Definition input (prompt : string) : M string :=
  s <- get ;;
  let answer := console_input w (trace s) prompt in
  emit (EvInput prompt answer) ;;
  ret answer.

(** *** [_create_test_db] *)

Definition clobber_prompt (test_database_name : string) : string :=
  "Type 'yes' if you would like to try deleting the test "
  ++ "database '" ++ test_database_name ++ "', or 'no' to cancel: ".

(** Lines 102-106: the local [confirm] is bound only when the prompt
    runs; [None] is the unbound local. *)
Definition ask_confirm (autoclobber : bool) (test_database_name : string)
  : M (option string) :=
  if negb autoclobber then
    confirm <- input (clobber_prompt test_database_name) ;;
    ret (Some confirm)
  else ret None.

(** Line 107: [autoclobber or confirm == "yes"].  [or] evaluates its
    right operand only when the left one is false; reading an unbound
    local raises [UnboundLocalError]. *)
Definition disposition (autoclobber : bool) (confirm : option string) : M bool :=
  if autoclobber then ret true
  else
    match confirm with
    | Some c => ret (String.eqb c "yes")
    | None =>
        raise (Exn UnboundLocalError
                 "local variable 'confirm' referenced before assignment")
    end.

(** Lines 108-124: destroy, then create again; any error is fatal. *)
Definition clobber (verbosity : Z) (keepdb : bool)
    (test_database_name : string) (test_db_params : gmap string string) : M unit :=
  try_except
    ((if verbosity >=? 1 then
        s <- get ;;
        log ("Destroying old test database for alias "
             ++ _get_database_display_str (alias s) verbosity test_database_name
             ++ "...")
      else ret tt) ;;
     _destroy_test_db test_database_name verbosity ;;
     _execute_create_test_db test_db_params keepdb)
    (fun e =>
       log ("Got an error recreating the test database: " ++ exn_str e) ;;
       sys_exit 2).

(** The [except Exception as e] clause of lines 96-127.  It yields
    [Some v] when the clause executes [return v], and [None] when
    control falls out of the [try] statement. *)
Definition create_failed (verbosity : Z) (autoclobber keepdb : bool)
    (test_database_name : string) (test_db_params : gmap string string)
    (e : exn) : M (option string) :=
  if keepdb then ret (Some test_database_name)
  else
    log ("Got an error creating the test database: " ++ exn_str e) ;;
    confirm <- ask_confirm autoclobber test_database_name ;;
    go <- disposition autoclobber confirm ;;
    if go then
      clobber verbosity keepdb test_database_name test_db_params ;;
      ret None
    else
      log "Tests cancelled." ;;
      sys_exit 1.

Definition _create_test_db (verbosity : Z) (autoclobber keepdb : bool) : M string :=
  s <- get ;;
  let test_database_name := _get_test_db_name (settings_dict s) in
  let test_db_params : gmap string string := {[ "dbname" := test_database_name ]} in
  returned <-
    try_except
      (_execute_create_test_db test_db_params keepdb ;; ret None)
      (create_failed verbosity autoclobber keepdb
         test_database_name test_db_params) ;;
  match returned with
  | Some v => ret v
  | None => ret test_database_name
  end.

(** *** [create_test_db] *)

Definition connection_close : M unit :=
  s <- get ;;
  let r := conn_close w (trace s) in
  emit (EvClose r) ;;
  of_result r.

(** [settings.DATABASES[alias]["NAME"] = name]; the subscript raises
    [KeyError] for an unknown alias, whose text is the alias between
    quotes. *)
Definition set_DATABASES_NAME (name : string) : M unit :=
  s <- get ;;
  match DATABASES s !! alias s with
  | None => raise (Exn KeyError ("'" ++ alias s ++ "'"))
  | Some d =>
      update
        (fun s' =>
           with_DATABASES s' (<[alias s := <["NAME" := name]> d]> (DATABASES s')))
        (EvSetDatabasesName (alias s) name)
  end.

(** [self.connection.settings_dict["NAME"] = name] *)
Definition set_settings_dict_NAME (name : string) : M unit :=
  update
    (fun s => with_settings_dict s (<["NAME" := name]> (settings_dict s)))
    (EvSetSettingsDictName name).

Definition serialize_db_to_string : M string :=
  s <- get ;;
  let r := serializer w (trace s) in
  emit (EvSerialize r) ;;
  match r with
  | inl e => raise e
  | inr contents => ret contents
  end.

Definition set_test_serialized_contents (contents : string) : M unit :=
  update (fun s => with_serialized s (Some contents))
    (EvSetSerializedContents contents).

(** [call_command(command, database=database)] *)
Definition call_command (command database : string) : M unit :=
  s <- get ;;
  let r := command_runner w (trace s) command database in
  emit (EvCallCommand command database r) ;;
  of_result r.

Definition ensure_connection : M unit :=
  s <- get ;;
  let r := conn_ensure w (trace s) in
  emit (EvEnsureConnection r) ;;
  of_result r.

Definition announce (verbosity : Z) (keepdb : bool) (test_database_name : string)
  : M unit :=
  if verbosity >=? 1 then
    let action := if keepdb then "Using existing" else "Creating" in
    s <- get ;;
    log (action ++ " test database for alias "
         ++ _get_database_display_str (alias s) verbosity test_database_name
         ++ "...")
  else ret tt.

Definition create_test_db (verbosity : Z) (autoclobber serialize keepdb : bool)
  : M string :=
  s <- get ;;
  (if decide (environ s !! "RUNNING_SPANNER_BACKEND_TESTS" = Some "1")
   then mark_skips else ret tt) ;;
  s <- get ;;
  let test_database_name := _get_test_db_name (settings_dict s) in
  announce verbosity keepdb test_database_name ;;
  _create_test_db verbosity autoclobber keepdb ;;
  connection_close ;;
  set_DATABASES_NAME test_database_name ;;
  set_settings_dict_NAME test_database_name ;;
  (if serialize then
     contents <- serialize_db_to_string ;;
     set_test_serialized_contents contents
   else ret tt) ;;
  s <- get ;;
  call_command "createcachetable" (alias s) ;;
  ensure_connection ;;
  ret test_database_name.

End DatabaseCreation.

(** ** Observing a run *)

Definition result_of {A : Type} (m : M A) (s : State) : outcome A := fst (m s).
Definition state_after {A : Type} (m : M A) (s : State) : State := snd (m s).

(** The events a run appends to the trace. *)
Definition events_of {A : Type} (m : M A) (s : State) : list event :=
  drop (length (trace s)) (trace (snd (m s))).

(** The calls to the database service, in order. *)
Definition service_calls (tr : list event) : list event :=
  List.filter (fun e => is_create e || is_drop e) tr.

Definition is_call_command (e : event) : bool :=
  match e with EvCallCommand _ _ _ => true | _ => false end.

(** Every event of the kind [p] comes before every event of the kind
    [q]. *)
Definition precedes (p q : event -> bool) (tr : list event) : Prop :=
  forall (i j : nat) (e1 e2 : event),
    tr !! i = Some e1 -> tr !! j = Some e2 ->
    p e1 = true -> q e2 = true -> (i < j)%nat.

(** The events of the creation-or-reuse step: log lines, service calls
    and the prompt. *)
Definition is_creation (e : event) : bool :=
  is_log e || is_create e || is_drop e || is_input e.

(** The attribute [method_name] of the test case at [test_case]. *)
Definition attribute (s : State) (test_case method_name : string) : option method :=
  test_cases s !! test_case ≫= (fun cls : gmap string method => cls !! method_name).

(** ** The paths through [_create_test_db] *)

Section Paths.

Variable w : World.
Variable _get_database_display_str : string -> Z -> string -> string.
Variables (verbosity : Z) (autoclobber keepdb : bool).
(** The connection alias, the test database name, and the trace at the
    moment of the call. *)
Variables (al n : string) (tr0 : list event).

Definition create_error_log (e : exn) : event :=
  EvLog ("Got an error creating the test database: " ++ exn_str e).
Definition recreate_error_log (e : exn) : event :=
  EvLog ("Got an error recreating the test database: " ++ exn_str e).

Definition destroying_log : list event :=
  if verbosity >=? 1 then
    [EvLog ("Destroying old test database for alias "
            ++ _get_database_display_str al verbosity n ++ "...")]
  else [].

(** The conflict was detected and reported. *)
Definition conflict (e : exn) : list event :=
  [EvCreate n (Some e); create_error_log e].

(** The events up to the moment the old database is dropped, on the
    prompted and on the autoclobber route. *)
Definition confirmed (e : exn) : list event :=
  conflict e
  ++ (if autoclobber then [] else [EvInput (clobber_prompt n) "yes"])
  ++ destroying_log.

(** The disposition is affirmative: autoclobber, or the console
    answered [yes] to the prompt. *)
Definition affirmative (e : exn) : Prop :=
  autoclobber = true
  \/ console_input w (tr0 ++ conflict e) (clobber_prompt n) = "yes".

Inductive create_path : outcome string -> list event -> Prop :=
| path_created :
    svc_create w tr0 n = None ->
    create_path (Ret n) [EvCreate n None]
| path_kept e :
    svc_create w tr0 n = Some e ->
    keepdb = true ->
    create_path (Ret n) [EvCreate n (Some e)]
| path_cancelled e answer :
    svc_create w tr0 n = Some e ->
    keepdb = false ->
    autoclobber = false ->
    console_input w (tr0 ++ conflict e) (clobber_prompt n) = answer ->
    answer <> "yes" ->
    create_path (Exit 1)
      (conflict e ++ [EvInput (clobber_prompt n) answer; EvLog "Tests cancelled."])
| path_drop_failed e ed :
    svc_create w tr0 n = Some e ->
    keepdb = false ->
    affirmative e ->
    svc_drop w (tr0 ++ confirmed e) n = Some ed ->
    create_path (Exit 2)
      (confirmed e ++ [EvDrop n (Some ed); recreate_error_log ed])
| path_recreate_failed e ec :
    svc_create w tr0 n = Some e ->
    keepdb = false ->
    affirmative e ->
    svc_drop w (tr0 ++ confirmed e) n = None ->
    svc_create w ((tr0 ++ confirmed e) ++ [EvDrop n None]) n = Some ec ->
    create_path (Exit 2)
      (confirmed e ++ [EvDrop n None; EvCreate n (Some ec); recreate_error_log ec])
| path_recreated e :
    svc_create w tr0 n = Some e ->
    keepdb = false ->
    affirmative e ->
    svc_drop w (tr0 ++ confirmed e) n = None ->
    svc_create w ((tr0 ++ confirmed e) ++ [EvDrop n None]) n = None ->
    create_path (Ret n) (confirmed e ++ [EvDrop n None; EvCreate n None]).

End Paths.

(** ** The parts of a skip entry *)

(** [test_case_name] and [method_name] of line 25, [test_app] of line 26. *)
Definition test_case_of (test_name : string) : string :=
  (rpartition_dot test_name).1.1.
Definition method_of (test_name : string) : string :=
  (rpartition_dot test_name).2.
Definition app_of (test_name : string) : string :=
  split_dot_head test_name.

(** The class [c] after [setattr(c, mn, m)]. *)
Definition registered (s : State) (c mn : string) (m : method) : State :=
  with_trace
    (with_test_cases s
       (alter (fun cls : gmap string method => <[mn := m]> cls) c (test_cases s)))
    (trace s ++ [EvSetattr c mn m]).

(** ** What a computation may emit *)

(** Whatever the state and the outcome, [m] only extends the trace, and
    only with events satisfying [P]. *)
Definition emits_only {A : Type} (P : event -> Prop) (m : M A) : Prop :=
  forall s, exists evs, trace (snd (m s)) = (trace s ++ evs)%list /\ Forall P evs.

(** [m] never performs an event of the kind [p]. *)
Definition never {A : Type} (p : event -> bool) (m : M A) : Prop :=
  emits_only (fun e => p e = false) m.

(** ** The phases of [create_test_db] *)

Definition announce_events (disp : string -> Z -> string -> string)
    (verbosity : Z) (keepdb : bool) (al n : string) : list event :=
  if verbosity >=? 1 then
    [EvLog ((if keepdb then "Using existing" else "Creating")
            ++ " test database for alias " ++ disp al verbosity n ++ "...")]
  else [].

(** The connection is closed, then both settings get the new name. *)
Definition rename_events (al n : string) : list event :=
  [EvClose None; EvSetDatabasesName al n; EvSetSettingsDictName n].

Definition snapshot_events (serialize : bool) (contents : string) : list event :=
  if serialize then [EvSerialize (inr contents); EvSetSerializedContents contents]
  else [].

Definition finishing_events (al : string) : list event :=
  [EvCallCommand "createcachetable" al None; EvEnsureConnection None].

(** ** A concrete service, console and configuration

    Used to run the methods on explicit inputs. *)

(** Does the database [name] exist after the service calls of [tr], when
    it did ([stale]) or did not exist before them? *)
Fixpoint db_exists (stale : bool) (name : string) (tr : list event) : bool :=
  match tr with
  | [] => stale
  | EvCreate d None :: tr' =>
      if String.eqb d name then db_exists true name tr' else db_exists stale name tr'
  | EvDrop d None :: tr' =>
      if String.eqb d name then db_exists false name tr' else db_exists stale name tr'
  | _ :: tr' => db_exists stale name tr'
  end.

Definition already_exists : exn := Exn ServiceError "409 Database already exists.".
Definition not_found : exn := Exn ServiceError "404 Database not found.".
Definition unavailable : exn := Exn ServiceError "503 Service unavailable.".

(** A well-behaved service: creation conflicts with an existing database,
    a drop needs one; the console gives [answer]. *)
Definition spanner (stale : bool) (answer : string) : World :=
  {| svc_create := fun tr name =>
       if db_exists stale name tr then Some already_exists else None;
     svc_drop := fun tr name =>
       if db_exists stale name tr then None else Some not_found;
     console_input := fun _ _ => answer;
     conn_close := fun _ => None;
     serializer := fun _ => inr "[]";
     command_runner := fun _ _ _ => None;
     conn_ensure := fun _ => None |}.

(** A service on which every creation fails, and every drop succeeds. *)
Definition flaky (answer : string) : World :=
  {| svc_create := fun _ _ => Some unavailable;
     svc_drop := fun _ _ => None;
     console_input := fun _ _ => answer;
     conn_close := fun _ => None;
     serializer := fun _ => inr "[]";
     command_runner := fun _ _ _ => None;
     conn_ensure := fun _ => None |}.

(** Django's [_get_test_db_name] when no [TEST] name is configured, and
    its [_get_database_display_str]. *)
Definition django_test_db_name (settings_dict : gmap string string) : string :=
  "test_" ++ default "" (settings_dict !! "NAME").

Definition django_display_str (al : string) (verbosity : Z) (name : string) : string :=
  "'" ++ al ++ "'" ++ (if verbosity >=? 2 then " ('" ++ name ++ "')" else "").

Definition sample_state : State :=
  {| environ := {[ "RUNNING_SPANNER_BACKEND_TESTS" := "1" ]};
     INSTALLED_APPS := ["django.contrib.auth"; "queries"];
     DATABASES := {[ "default" := {[ "NAME" := "db" ]} ]};
     alias := "default";
     settings_dict := {[ "NAME" := "db" ]};
     skip_tests :=
       ["queries.tests.Queries1Tests.test_ticket9411";
        "admin_views.tests.AdminViewBasicTest.test_date_hierarchy"];
     _test_serialized_contents := None;
     test_cases :=
       {[ "queries.tests.Queries1Tests" :=
            {[ "test_ticket9411" := Original "test_ticket9411";
               "test_ticket2306" := Original "test_ticket2306" ]} ]};
     trace := [] |}.

(** ** Further observations on runs *)

(** The function at the bottom of the wrappers ([__wrapped__], followed to
    the end). *)
Fixpoint original_of (m : method) : string :=
  match m with
  | Original body => body
  | SkipWrapper _ m' => original_of m'
  end.

Fixpoint contains_dot (s : string) : bool :=
  match s with
  | EmptyString => false
  | String c s' => Ascii.eqb c "."%char || contains_dot s'
  end.

(** The separator [s.rpartition(".")] reports. *)
Definition separator_of (test_name : string) : string :=
  (rpartition_dot test_name).1.2.

(** [m] ends the process, if at all, with a code satisfying [P]. *)
Definition exits_within {A : Type} (P : Z -> Prop) (m : M A) : Prop :=
  forall s c, fst (m s) = Exit c -> P c.

(** [m] leaves the component [f] of the state as it was, whatever the
    outcome. *)
Definition keeps {A X : Type} (f : State -> X) (m : M A) : Prop :=
  forall s, f (snd (m s)) = f s.

(** [m] only extends the trace, with at most [k] events of the kind [p]. *)
Definition emits_at_most {A : Type} (p : event -> bool) (k : nat) (m : M A) : Prop :=
  forall s, exists evs,
    trace (snd (m s)) = (trace s ++ evs)%list /\ (count p evs <= k)%nat.

(** The database an event names, for the events that name one. *)
Definition database_of (e : event) : option string :=
  match e with
  | EvCreate d _ | EvDrop d _ | EvSetDatabasesName _ d | EvSetSettingsDictName d =>
      Some d
  | _ => None
  end.

(** A service on which the test database can be neither created nor
    dropped. *)
Definition forbidden : exn := Exn ServiceError "403 Permission denied.".

Definition locked (answer : string) : World :=
  {| svc_create := fun _ _ => Some already_exists;
     svc_drop := fun _ _ => Some forbidden;
     console_input := fun _ _ => answer;
     conn_close := fun _ => None;
     serializer := fun _ => inr "[]";
     command_runner := fun _ _ _ => None;
     conn_ensure := fun _ => None |}.

(** A healthy service behind a Django runtime whose serializer fails. *)
Definition unserializable : exn := Exn OtherError "cannot serialize".

Definition broken_serializer : World :=
  {| svc_create := fun _ _ => None;
     svc_drop := fun _ _ => None;
     console_input := fun _ _ => "";
     conn_close := fun _ => None;
     serializer := fun _ => inl unserializable;
     command_runner := fun _ _ _ => None;
     conn_ensure := fun _ => None |}.

(** The event [e] concerns no database but [n]: a service call or an
    assignment names [n], a prompt asks about [n]. *)
Definition concerns (n : string) (e : event) : Prop :=
  (forall d, database_of e = Some d -> d = n)
  /\ (forall q a, e = EvInput q a -> q = clobber_prompt n).

(** [sample_state] outside the Spanner test run: the environment flag is
    not set. *)
Definition unflagged_state : State :=
  {| environ := ∅;
     INSTALLED_APPS := INSTALLED_APPS sample_state;
     DATABASES := DATABASES sample_state;
     alias := alias sample_state;
     settings_dict := settings_dict sample_state;
     skip_tests := skip_tests sample_state;
     _test_serialized_contents := None;
     test_cases := test_cases sample_state;
     trace := [] |}.

(** [sample_state] with one of its entries listed twice in
    [skip_tests]. *)
Definition twice_listed_state : State :=
  {| environ := environ sample_state;
     INSTALLED_APPS := INSTALLED_APPS sample_state;
     DATABASES := DATABASES sample_state;
     alias := alias sample_state;
     settings_dict := settings_dict sample_state;
     skip_tests :=
       ["queries.tests.Queries1Tests.test_ticket9411";
        "queries.tests.Queries1Tests.test_ticket9411"];
     _test_serialized_contents := None;
     test_cases := test_cases sample_state;
     trace := [] |}.

(** The state once lines 68 and 69 have assigned the name [n], [d] being
    the dictionary found at [settings.DATABASES[alias]]. *)
Definition renamed (s : State) (d : gmap string string) (n : string) : State :=
  with_settings_dict
    (with_DATABASES s (<[alias s := <["NAME" := n]> d]> (DATABASES s)))
    (<["NAME" := n]> (settings_dict s)).

(** * Properties *)

Example rpartition_dot_ex :
  rpartition_dot "queries.tests.Queries1Tests.test_x"
  = ("queries.tests.Queries1Tests", ".", "test_x").
Proof. reflexivity. Qed.

Example rpartition_dot_nodot : rpartition_dot "abc" = ("", "", "abc").
Proof. reflexivity. Qed.

Example split_dot_head_ex :
  split_dot_head "queries.tests.Queries1Tests.test_x" = "queries".
Proof. reflexivity. Qed.


(** The scenario of a stale test database and the answer [yes]: the
    creation conflicts, the prompt is shown, the old database is dropped
    and created again, the snapshot is taken, and the name is returned. *)
Example stale_database_answer_yes :
  create_test_db (spanner true "yes") django_test_db_name django_display_str
    1 false true false sample_state
  = (Ret "test_db",
     with_trace
       (with_serialized
          (with_settings_dict
             (with_DATABASES
                (with_test_cases sample_state
                   {[ "queries.tests.Queries1Tests" :=
                        {[ "test_ticket9411" :=
                             SkipWrapper "unsupported by Spanner"
                               (Original "test_ticket9411");
                           "test_ticket2306" := Original "test_ticket2306" ]} ]})
                {[ "default" := {[ "NAME" := "test_db" ]} ]})
             {[ "NAME" := "test_db" ]})
          (Some "[]"))
       [EvSetattr "queries.tests.Queries1Tests" "test_ticket9411"
          (SkipWrapper "unsupported by Spanner" (Original "test_ticket9411"));
        EvLog "Creating test database for alias 'default'...";
        EvCreate "test_db" (Some already_exists);
        EvLog "Got an error creating the test database: 409 Database already exists.";
        EvInput
          "Type 'yes' if you would like to try deleting the test database 'test_db', or 'no' to cancel: "
          "yes";
        EvLog "Destroying old test database for alias 'default'...";
        EvDrop "test_db" None;
        EvCreate "test_db" None;
        EvClose None;
        EvSetDatabasesName "default" "test_db";
        EvSetSettingsDictName "test_db";
        EvSerialize (inr "[]");
        EvSetSerializedContents "[]";
        EvCallCommand "createcachetable" "default" None;
        EvEnsureConnection None]).
Proof. vm_compute. reflexivity. Qed.

(** The same database, and the answer [no]. *)
Example stale_database_answer_no :
  result_of
    (create_test_db (spanner true "no") django_test_db_name django_display_str
       1 false true false) sample_state
  = Exit 1.
Proof. vm_compute. reflexivity. Qed.

(** ** Bookkeeping on states and traces *)

Lemma with_trace_id (s : State) : with_trace s (trace s) = s.
Proof. destruct s; reflexivity. Qed.

Lemma with_serialized_frame (s : State) (c : option string) (tr : list event) :
  _test_serialized_contents s = c ->
  with_trace (with_serialized s c) tr = with_trace s tr.
Proof. intros <-. destruct s; reflexivity. Qed.

Lemma events_of_run {A : Type} (m : M A) (s : State) (out : outcome A)
    (evs : list event) :
  m s = (out, with_trace s (trace s ++ evs)) ->
  result_of m s = out /\ events_of m s = evs
  /\ state_after m s = with_trace s (trace s ++ evs).
Proof.
  intros H. unfold result_of, events_of, state_after. rewrite H. simpl.
  rewrite drop_app_length. auto.
Qed.

Lemma run_pair {A : Type} (m : M A) (s : State) :
  m s = (result_of m s, state_after m s).
Proof. unfold result_of, state_after. destruct (m s); reflexivity. Qed.

Lemma count_app (p : event -> bool) (l1 l2 : list event) :
  count p (l1 ++ l2) = (count p l1 + count p l2)%nat.
Proof. unfold count. rewrite List.filter_app, length_app. reflexivity. Qed.

Lemma count_pos (p : event -> bool) (e : event) (l : list event) :
  In e l -> p e = true -> (0 < count p l)%nat.
Proof.
  intros Hin Hp. unfold count.
  assert (Hf : In e (List.filter p l)) by (by apply List.filter_In).
  destruct (List.filter p l); [destruct Hf | simpl; lia].
Qed.

(** ** Composing [emits_only] *)

Section EmitsOnly.

Context {A B : Type} (P : event -> Prop).

Lemma emits_only_ret (a : A) : emits_only P (ret a).
Proof. intros s. exists []. by rewrite app_nil_r. Qed.

Lemma emits_only_raise (e : exn) : emits_only P (@raise A e).
Proof. intros s. exists []. by rewrite app_nil_r. Qed.

Lemma emits_only_exit (c : Z) : emits_only P (@sys_exit A c).
Proof. intros s. exists []. by rewrite app_nil_r. Qed.

Lemma emits_only_emit (e : event) : P e -> emits_only P (emit e).
Proof. intros He s. exists [e]. split; [done|]. by constructor. Qed.

Lemma emits_only_bind (m : M A) (k : A -> M B) :
  emits_only P m -> (forall a, emits_only P (k a)) -> emits_only P (bind m k).
Proof.
  intros Hm Hk s. unfold bind. destruct (Hm s) as (evs & Htr & Hall).
  destruct (m s) as [[a|e|c] s1]; simpl in Htr.
  - destruct (Hk a s1) as (evs' & Htr' & Hall'). exists (evs ++ evs')%list.
    rewrite Htr', Htr, <- app_assoc. split; [done|]. by apply Forall_app.
  - by exists evs.
  - by exists evs.
Qed.

Lemma emits_only_get (k : State -> M B) :
  (forall s, emits_only P (k s)) -> emits_only P (bind get k).
Proof. intros Hk s. unfold bind, get. apply Hk. Qed.

Lemma emits_only_try_except (body : M A) (handler : exn -> M A) :
  emits_only P body -> (forall e, emits_only P (handler e)) ->
  emits_only P (try_except body handler).
Proof.
  intros Hm Hh s. unfold try_except. destruct (Hm s) as (evs & Htr & Hall).
  destruct (body s) as [[a|e|c] s1]; simpl in Htr.
  - by exists evs.
  - destruct (Hh e s1) as (evs' & Htr' & Hall'). exists (evs ++ evs')%list.
    rewrite Htr', Htr, <- app_assoc. split; [done|]. by apply Forall_app.
  - by exists evs.
Qed.

Lemma emits_only_of_result (r : option exn) : emits_only P (of_result r).
Proof. intros s. exists []. rewrite app_nil_r. by destruct r. Qed.

Lemma emits_only_for_each (l : list A) (body : A -> M unit) :
  (forall x, emits_only P (body x)) -> emits_only P (for_each l body).
Proof.
  intros Hbody. induction l as [|x l IH]; simpl.
  - intros s. exists []. by rewrite app_nil_r.
  - intros s. unfold bind. destruct (Hbody x s) as (evs & Htr & Hall).
    destruct (body x s) as [[a|e|c] s1]; simpl in Htr.
    + destruct (IH s1) as (evs' & Htr' & Hall'). exists (evs ++ evs')%list.
      rewrite Htr', Htr, <- app_assoc. split; [done|]. by apply Forall_app.
    + by exists evs.
    + by exists evs.
Qed.

End EmitsOnly.

Lemma emits_only_update (P : event -> Prop) (f : State -> State) (e : event) :
  (forall s, trace (f s) = trace s) -> P e ->
  emits_only P (update f e).
Proof.
  intros Hf He s. exists [e]. simpl. rewrite Hf. split; [done|]. by constructor.
Qed.

Ltac emits_step :=
  lazymatch goal with
  | |- emits_only _ (ret _) => apply emits_only_ret
  | |- emits_only _ (raise _) => apply emits_only_raise
  | |- emits_only _ (sys_exit _) => apply emits_only_exit
  | |- emits_only _ (of_result _) => apply emits_only_of_result
  | |- emits_only _ (emit _) => apply emits_only_emit; reflexivity
  | |- emits_only _ (bind get _) => apply emits_only_get; intros ?
  | |- emits_only _ (bind _ _) => apply emits_only_bind; [|intros ?]
  | |- emits_only _ (try_except _ _) => apply emits_only_try_except; [|intros ?]
  | |- emits_only _ (for_each _ _) => apply emits_only_for_each; intros ?
  | |- emits_only _ (update _ _) =>
      apply emits_only_update; [intros ?; reflexivity | reflexivity]
  | |- emits_only _ (if negb true then _ else _) => cbn [negb]; cbv iota
  | |- emits_only _ (if true then _ else _) => cbv iota
  | |- emits_only _ (if ?b then _ else _) => destruct b
  | |- emits_only _ (match ?x with _ => _ end) => destruct x
  end.

Ltac emits := repeat emits_step.

Lemma never_count {A : Type} (p : event -> bool) (m : M A) (s : State) :
  never p m -> count p (events_of m s) = 0%nat.
Proof.
  intros Hm. destruct (Hm s) as (evs & Htr & Hall).
  unfold events_of. rewrite Htr, drop_app_length. unfold count. clear Htr.
  induction Hall as [|e evs He _ IH]; simpl; [done|]. rewrite He. exact IH.
Qed.

(** ** Symbolic execution of [_create_test_db] *)

Section CreateTestDb.

Variable w : World.
Variable gname : gmap string string -> string.
Variable disp : string -> Z -> string -> string.

Lemma run_create (n : string) (kd : bool) (s : State) :
  _execute_create_test_db w {[ "dbname" := n ]} kd s
  = (match svc_create w (trace s) n with None => Ret tt | Some e => Raise e end,
     with_trace s (trace s ++ [EvCreate n (svc_create w (trace s) n)])).
Proof.
  unfold _execute_create_test_db. rewrite lookup_singleton_eq.
  unfold bind, get, emit, of_result, ret, raise. simpl.
  destruct (svc_create w (trace s) n); reflexivity.
Qed.

Lemma run_destroy (n : string) (v : Z) (s : State) :
  _destroy_test_db w n v s
  = (match svc_drop w (trace s) n with None => Ret tt | Some e => Raise e end,
     with_trace s (trace s ++ [EvDrop n (svc_drop w (trace s) n)])).
Proof.
  unfold _destroy_test_db, bind, get, emit, of_result, ret, raise. simpl.
  destruct (svc_drop w (trace s) n); reflexivity.
Qed.

Lemma run_destroying_log (v : Z) (n : string) (s : State) :
  (if v >=? 1 then
     s0 <- get ;;
     log ("Destroying old test database for alias "
          ++ disp (alias s0) v n ++ "...")
   else ret tt) s
  = (Ret tt, with_trace s (trace s ++ destroying_log disp v (alias s) n)).
Proof.
  unfold destroying_log. destruct (v >=? 1).
  - reflexivity.
  - unfold ret. rewrite app_nil_r, with_trace_id. reflexivity.
Qed.

Lemma run_clobber (v : Z) (kd : bool) (n : string) (s : State) :
  let tr1 := (trace s ++ destroying_log disp v (alias s) n)%list in
  clobber w disp v kd n {[ "dbname" := n ]} s =
    match svc_drop w tr1 n with
    | Some ed =>
        (Exit 2, with_trace s (tr1 ++ [EvDrop n (Some ed); recreate_error_log ed]))
    | None =>
        match svc_create w (tr1 ++ [EvDrop n None]) n with
        | Some ec =>
            (Exit 2,
             with_trace s
               (tr1 ++ [EvDrop n None; EvCreate n (Some ec); recreate_error_log ec]))
        | None =>
            (Ret tt, with_trace s (tr1 ++ [EvDrop n None; EvCreate n None]))
        end
    end.
Proof.
  intros tr1. unfold clobber, try_except, bind at 1.
  rewrite run_destroying_log. unfold bind. rewrite run_destroy. simpl.
  fold tr1. destruct (svc_drop w tr1 n) as [ed|].
  - unfold log, emit, sys_exit, recreate_error_log. simpl.
    rewrite <- !app_assoc. reflexivity.
  - rewrite run_create. simpl.
    destruct (svc_create w (tr1 ++ [EvDrop n None]) n) as [ec|].
    + unfold log, emit, sys_exit, recreate_error_log. simpl.
      rewrite <- !app_assoc. reflexivity.
    + rewrite <- !app_assoc. reflexivity.
Qed.

Lemma confirmed_autoclobber (v : Z) (al n : string) (e : exn) (tr : list event) :
  (((tr ++ [EvCreate n (Some e)]) ++ [create_error_log e])
     ++ destroying_log disp v al n)%list
  = (tr ++ confirmed disp v true al n e)%list.
Proof. unfold confirmed, conflict. rewrite <- !app_assoc. reflexivity. Qed.

Lemma confirmed_prompted (v : Z) (al n : string) (e : exn) (tr : list event) :
  ((((tr ++ [EvCreate n (Some e)]) ++ [create_error_log e])
      ++ [EvInput (clobber_prompt n) "yes"])
     ++ destroying_log disp v al n)%list
  = (tr ++ confirmed disp v false al n e)%list.
Proof. unfold confirmed, conflict. rewrite <- !app_assoc. reflexivity. Qed.

(** Every run of [_create_test_db] follows one of the six paths, and
    changes nothing in the state but the trace. *)
Lemma _create_test_db_run (v : Z) (ac kd : bool) (s : State) :
  exists out evs,
    _create_test_db w gname disp v ac kd s
    = (out, with_trace s (trace s ++ evs))
    /\ create_path w disp v ac kd (alias s) (gname (settings_dict s))
         (trace s) out evs.
Proof.
  set (n := gname (settings_dict s)).
  unfold _create_test_db, bind at 1, get. cbv beta iota. fold n.
  unfold bind at 1, try_except, bind at 1. rewrite run_create.
  destruct (svc_create w (trace s) n) as [e|] eqn:Hc1; cbv beta iota.
  2:{ exists (Ret n), [EvCreate n None]. split; [reflexivity|].
      by apply path_created. }
  unfold create_failed. destruct kd.
  { exists (Ret n), [EvCreate n (Some e)]. split; [reflexivity|].
    by apply path_kept with (e := e). }
  unfold bind at 1, log, emit. cbv beta iota.
  unfold bind at 1, ask_confirm. destruct ac; cbn [negb].
  - (* autoclobber *)
    unfold ret at 1. cbv beta iota. unfold bind at 1, disposition, ret at 1.
    cbv beta iota. unfold bind at 1. rewrite run_clobber.
    cbn [trace alias with_trace]. fold (create_error_log e).
    rewrite confirmed_autoclobber.
    destruct (svc_drop w _ n) as [ed|] eqn:Hd;
      [|destruct (svc_create w (_ ++ [EvDrop n None]) n) as [ec|] eqn:Hc2].
    + exists (Exit 2),
        (confirmed disp v true (alias s) n e
           ++ [EvDrop n (Some ed); recreate_error_log ed])%list.
      split; [unfold ret; cbv beta iota; rewrite app_assoc; reflexivity|].
      apply path_drop_failed; [done | done | by left | done].
    + exists (Exit 2),
        (confirmed disp v true (alias s) n e
           ++ [EvDrop n None; EvCreate n (Some ec); recreate_error_log ec])%list.
      split; [unfold ret; cbv beta iota; rewrite app_assoc; reflexivity|].
      apply path_recreate_failed; [done | done | by left | done | done].
    + exists (Ret n),
        (confirmed disp v true (alias s) n e
           ++ [EvDrop n None; EvCreate n None])%list.
      split; [unfold ret; cbv beta iota; rewrite app_assoc; reflexivity|].
      apply path_recreated; [done | done | by left | done | done].
  - (* prompt *)
    unfold bind at 1, input, bind at 1, get. cbv beta iota.
    unfold bind at 1, emit, ret at 1. cbv beta iota. unfold ret at 1.
    cbn [trace alias with_trace]. fold (create_error_log e).
    assert (Htr : ((trace s ++ [EvCreate n (Some e)]) ++ [create_error_log e])%list
                  = (trace s ++ conflict n e)%list)
      by (unfold conflict; rewrite <- app_assoc; reflexivity).
    rewrite Htr.
    set (answer := console_input w (trace s ++ conflict n e) (clobber_prompt n)).
    unfold bind at 1, disposition. 
    destruct (String.eqb_spec answer "yes") as [Hyes|Hno].
    + unfold ret at 1. cbv beta iota. unfold bind at 1. rewrite run_clobber.
      cbn [trace alias with_trace]. rewrite <- Htr, Hyes.
      rewrite confirmed_prompted.
      destruct (svc_drop w _ n) as [ed|] eqn:Hd;
        [|destruct (svc_create w (_ ++ [EvDrop n None]) n) as [ec|] eqn:Hc2].
      * exists (Exit 2),
          (confirmed disp v false (alias s) n e
             ++ [EvDrop n (Some ed); recreate_error_log ed])%list.
        split; [unfold ret; cbv beta iota; rewrite app_assoc; reflexivity|].
        apply path_drop_failed; [done | done | by right | done].
      * exists (Exit 2),
          (confirmed disp v false (alias s) n e
             ++ [EvDrop n None; EvCreate n (Some ec); recreate_error_log ec])%list.
        split; [unfold ret; cbv beta iota; rewrite app_assoc; reflexivity|].
        apply path_recreate_failed; [done | done | by right | done | done].
      * exists (Ret n),
          (confirmed disp v false (alias s) n e
             ++ [EvDrop n None; EvCreate n None])%list.
        split; [unfold ret; cbv beta iota; rewrite app_assoc; reflexivity|].
        apply path_recreated; [done | done | by right | done | done].
    + unfold ret at 1. cbv beta iota. 
      exists (Exit 1),
        (conflict n e ++ [EvInput (clobber_prompt n) answer; EvLog "Tests cancelled."])%list.
      split.
      * cbn. rewrite <- Htr, <- !app_assoc. reflexivity.
      * by apply path_cancelled.
Qed.

Lemma _create_test_db_path (v : Z) (ac kd : bool) (s : State) :
  create_path w disp v ac kd (alias s) (gname (settings_dict s)) (trace s)
    (result_of (_create_test_db w gname disp v ac kd) s)
    (events_of (_create_test_db w gname disp v ac kd) s)
  /\ state_after (_create_test_db w gname disp v ac kd) s
     = with_trace s
         (trace s ++ events_of (_create_test_db w gname disp v ac kd) s).
Proof.
  destruct (_create_test_db_run v ac kd s) as (out & evs & Hrun & Hpath).
  apply events_of_run in Hrun as (-> & -> & ->). auto.
Qed.

Lemma destroying_log_quiet (p : event -> bool) (v : Z) (al n : string) :
  (forall msg, p (EvLog msg) = false) ->
  List.filter p (destroying_log disp v al n) = [].
Proof.
  intros Hp. unfold destroying_log. destruct (v >=? 1); simpl; [|done].
  by rewrite Hp.
Qed.

Lemma service_calls_confirmed (v : Z) (ac : bool) (al n : string) (e : exn)
    (l : list event) :
  service_calls (confirmed disp v ac al n e ++ l)
  = EvCreate n (Some e) :: service_calls l.
Proof.
  unfold service_calls, confirmed, conflict.
  rewrite !List.filter_app, destroying_log_quiet by done.
  destruct ac; reflexivity.
Qed.

Lemma count_confirmed (p : event -> bool) (v : Z) (ac : bool) (al n : string)
    (e : exn) (l : list event) :
  (forall msg, p (EvLog msg) = false) ->
  count p (confirmed disp v ac al n e ++ l)
  = (count p ([EvCreate n (Some e)]
              ++ (if ac then [] else [EvInput (clobber_prompt n) "yes"]))
     + count p l)%nat.
Proof.
  intros Hp. unfold count, confirmed, conflict, create_error_log.
  rewrite !List.filter_app, destroying_log_quiet by done.
  rewrite !length_app. cbn [List.filter app]. rewrite Hp.
  destruct ac; simpl; destruct (p (EvCreate n (Some e))); simpl; lia.
Qed.

End CreateTestDb.

(** ** [_create_test_db]: conflict resolution *)

Section ConflictResolution.

Variable w : World.
Variable gname : gmap string string -> string.
Variable disp : string -> Z -> string -> string.

Lemma clobber_prompt_text (name : string) :
  clobber_prompt name
  = "Type 'yes' if you would like to try deleting the test database '"
    ++ name ++ "', or 'no' to cancel: ".
Proof. reflexivity. Qed.

(** C1. With [autoclobber=False] and [keepdb=False], when the first
    creation fails the error is logged and the prompt is shown once, with
    the exact text; on the answer [yes] the next service call is the
    drop of the test database, followed, when the drop succeeds, by a
    second creation; on any other answer the process exits with code 1
    and [_destroy_test_db] is not called. *)
Theorem C1_prompt_then_yes_or_exit (v : Z) (s : State) (e : exn) :
  let n := gname (settings_dict s) in
  let run := _create_test_db w gname disp v false false in
  let prompt :=
    "Type 'yes' if you would like to try deleting the test database '"
    ++ n ++ "', or 'no' to cancel: " in
  svc_create w (trace s) n = Some e ->
  exists answer rest,
    events_of run s = (conflict n e ++ EvInput prompt answer :: rest)%list
    /\ answer = console_input w (trace s ++ conflict n e) prompt
    /\ count is_input rest = 0%nat
    /\ (answer = "yes" ->
        (exists ed, service_calls rest = [EvDrop n (Some ed)]
                    /\ result_of run s = Exit 2)
        \/ (exists rc, service_calls rest = [EvDrop n None; EvCreate n rc]
                       /\ result_of run s
                          = match rc with None => Ret n | Some _ => Exit 2 end))
    /\ (answer <> "yes" ->
        result_of run s = Exit 1
        /\ count is_drop (events_of run s) = 0%nat).
Proof.
  intros n run prompt Hfail.
  destruct (_create_test_db_path w gname disp v false false s) as [Hpath _].
  fold n run in Hpath. change prompt with (clobber_prompt n).
  inversion Hpath as
    [ Hc Hout Hevs
    | e' Hc Hkd Hout Hevs
    | e' answer Hc _ _ Hans Hno Hout Hevs
    | e' ed Hc _ Haff Hd Hout Hevs
    | e' ec Hc _ Haff Hd Hc2 Hout Hevs
    | e' Hc _ Haff Hd Hc2 Hout Hevs ];
    try congruence;
    assert (e' = e) as -> by congruence.
  - exists answer, [EvLog "Tests cancelled."]. repeat split; try done.
  - destruct Haff as [?|Hyes]; [done|].
    exists "yes", (destroying_log disp v (alias s) n
                   ++ [EvDrop n (Some ed); recreate_error_log ed])%list.
    split; [reflexivity|].
    split; [done|].
    split; [unfold count; by rewrite List.filter_app, destroying_log_quiet|].
    split; [|done]. intros _. left. exists ed. split; [|done].
    unfold service_calls. by rewrite List.filter_app, destroying_log_quiet.
  - destruct Haff as [?|Hyes]; [done|].
    exists "yes", (destroying_log disp v (alias s) n
                   ++ [EvDrop n None; EvCreate n (Some ec); recreate_error_log ec])%list.
    split; [reflexivity|].
    split; [done|].
    split; [unfold count; by rewrite List.filter_app, destroying_log_quiet|].
    split; [|done]. intros _. right. exists (Some ec). split; [|done].
    unfold service_calls. by rewrite List.filter_app, destroying_log_quiet.
  - destruct Haff as [?|Hyes]; [done|].
    exists "yes", (destroying_log disp v (alias s) n
                   ++ [EvDrop n None; EvCreate n None])%list.
    split; [reflexivity|].
    split; [done|].
    split; [unfold count; by rewrite List.filter_app, destroying_log_quiet|].
    split; [|done]. intros _. right. exists None. split; [|done].
    unfold service_calls. by rewrite List.filter_app, destroying_log_quiet.
Qed.

(** C2. Whenever the first creation fails, the drop then succeeds and
    the second creation fails, the process exits with code 2 and there is
    no further service call: [_destroy_test_db] was called once and the
    creation attempted twice.  Such a run has [keepdb=False] and an
    affirmative disposition: autoclobber, or the answer [yes]. *)
Theorem C2_recreation_failure_is_fatal (v : Z) (ac kd : bool) (s : State)
    (e1 e2 : exn) (rest : list event) :
  let n := gname (settings_dict s) in
  let run := _create_test_db w gname disp v ac kd in
  service_calls (events_of run s)
  = ([EvCreate n (Some e1); EvDrop n None; EvCreate n (Some e2)] ++ rest)%list ->
  result_of run s = Exit 2
  /\ rest = []
  /\ count is_drop (events_of run s) = 1%nat
  /\ count is_create (events_of run s) = 2%nat
  /\ kd = false
  /\ (ac = true \/ In (EvInput (clobber_prompt n) "yes") (events_of run s)).
Proof.
  intros n run Hcalls.
  destruct (_create_test_db_path w gname disp v ac kd s) as [Hpath _].
  fold n run in Hpath.
  remember (result_of run s) as out eqn:Hout.
  remember (events_of run s) as evs eqn:Hevs.
  destruct Hpath as
    [ Hc
    | e' Hc Hkd
    | e' answer Hc Hkd Hac Hans Hno
    | e' ed Hc Hkd Haff Hd
    | e' ec Hc Hkd Haff Hd Hc2
    | e' Hc Hkd Haff Hd Hc2 ];
    try (rewrite service_calls_confirmed in Hcalls);
    cbn in Hcalls;
    try discriminate Hcalls.
  injection Hcalls as -> -> <-.
  repeat split; try done.
  - rewrite count_confirmed by done. by destruct ac.
  - rewrite count_confirmed by done. by destruct ac.
  - destruct ac; [by left|right]. unfold confirmed.
    apply in_or_app. left. apply in_or_app. right. apply in_or_app. left.
    by left.
Qed.


End ConflictResolution.

Lemma C1_witness :
  svc_create (spanner true "no") (trace sample_state)
    (django_test_db_name (settings_dict sample_state)) = Some already_exists
  /\ result_of
       (_create_test_db (spanner true "no") django_test_db_name
          django_display_str 1 false false) sample_state
     = Exit 1.
Proof.
  split; [vm_compute; reflexivity|].
  destruct (C1_prompt_then_yes_or_exit (spanner true "no") django_test_db_name
              django_display_str 1 sample_state already_exists)
    as (answer & rest & _ & Hans & _ & _ & Hno); [vm_compute; reflexivity|].
  apply Hno. rewrite Hans. vm_compute. discriminate.
Defined.

Lemma C2_witness :
  service_calls
    (events_of (_create_test_db (flaky "") django_test_db_name
                  django_display_str 1 true false) sample_state)
  = [EvCreate "test_db" (Some unavailable); EvDrop "test_db" None;
     EvCreate "test_db" (Some unavailable)]
  /\ result_of (_create_test_db (flaky "") django_test_db_name
                  django_display_str 1 true false) sample_state
     = Exit 2.
Proof.
  split; [vm_compute; reflexivity|].
  apply (C2_recreation_failure_is_fatal (flaky "") django_test_db_name
           django_display_str 1 true false sample_state
           unavailable unavailable []).
  vm_compute. reflexivity.
Defined.


(** ** Events that never happen *)

Section NeverCalled.

Variable w : World.
Variable gname : gmap string string -> string.
Variable disp : string -> Z -> string -> string.

Lemma mark_skips_never (p : event -> bool) :
  (forall c m x, p (EvSetattr c m x) = false) -> never p mark_skips.
Proof.
  intros Hp. unfold never, mark_skips, mark_skip, import_string, getattr, setattr.
  emits. apply emits_only_update; [done | apply Hp].
Qed.

Lemma _create_test_db_keepdb_never_drops (v : Z) (ac : bool) :
  never is_drop (_create_test_db w gname disp v ac true).
Proof.
  unfold never, _create_test_db, _execute_create_test_db, create_failed.
  emits.
Qed.

Lemma _create_test_db_autoclobber_never_prompts (v : Z) (kd : bool) :
  never is_input (_create_test_db w gname disp v true kd).
Proof.
  unfold never, _create_test_db, _execute_create_test_db, create_failed,
    ask_confirm, disposition, clobber, _destroy_test_db,
    _execute_create_test_db, log.
  emits.
Qed.

Lemma create_test_db_never (p : event -> bool) (v : Z) (ac ser kd : bool) :
  (forall msg, p (EvLog msg) = false) ->
  (forall c m x, p (EvSetattr c m x) = false) ->
  (forall r, p (EvClose r) = false) ->
  (forall a n, p (EvSetDatabasesName a n) = false) ->
  (forall n, p (EvSetSettingsDictName n) = false) ->
  (forall r, p (EvSerialize r) = false) ->
  (forall c, p (EvSetSerializedContents c) = false) ->
  (forall c d r, p (EvCallCommand c d r) = false) ->
  (forall r, p (EvEnsureConnection r) = false) ->
  never p (_create_test_db w gname disp v ac kd) ->
  never p (create_test_db w gname disp v ac ser kd).
Proof.
  intros Hlog Hattr Hclose Hdb Hsd Hser Hset Hcmd Hens Hcreate.
  unfold never, create_test_db, announce, connection_close, set_DATABASES_NAME,
    set_settings_dict_NAME, serialize_db_to_string,
    set_test_serialized_contents, call_command, ensure_connection, log.
  emits;
    first [ by apply mark_skips_never
          | exact Hcreate
          | apply emits_only_emit; auto
          | apply emits_only_update; [done | auto] ].
Qed.

(** C3. With [keepdb=True], [_destroy_test_db] is never called, by
    [_create_test_db] or by [create_test_db]; and when the creation fails,
    for whatever reason, [_create_test_db] returns the test database name
    after that one service call: nothing is logged, nobody is prompted, the
    process does not exit, and only the trace has changed. *)
Theorem C3_keepdb_swallows_failure (v : Z) (ac ser : bool) (s : State) :
  let n := gname (settings_dict s) in
  count is_drop (events_of (_create_test_db w gname disp v ac true) s) = 0%nat
  /\ count is_drop (events_of (create_test_db w gname disp v ac ser true) s) = 0%nat
  /\ forall e, svc_create w (trace s) n = Some e ->
       result_of (_create_test_db w gname disp v ac true) s = Ret n
       /\ events_of (_create_test_db w gname disp v ac true) s
          = [EvCreate n (Some e)]
       /\ state_after (_create_test_db w gname disp v ac true) s
          = with_trace s (trace s ++ [EvCreate n (Some e)]).
Proof.
  intros n. split; [|split].
  - apply never_count, _create_test_db_keepdb_never_drops.
  - apply never_count, create_test_db_never; try done.
    apply _create_test_db_keepdb_never_drops.
  - intros e Hfail.
    destruct (_create_test_db_path w gname disp v ac true s) as [Hpath Hst].
    fold n in Hpath.
    inversion Hpath as
      [ Hc Hout Hevs
      | e' Hc Hkd Hout Hevs
      | e' answer Hc Hkd _ Hans Hno Hout Hevs
      | e' ed Hc Hkd Haff Hd Hout Hevs
      | e' ec Hc Hkd Haff Hd Hc2 Hout Hevs
      | e' Hc Hkd Haff Hd Hc2 Hout Hevs ];
      try congruence.
    assert (e' = e) as -> by congruence.
    rewrite Hst, <- Hevs. done.
Qed.

(** C4. With [autoclobber=True] the builtin [input] is never called, by
    [_create_test_db] or by [create_test_db], whatever the outcome.  After
    a failed creation (and [keepdb=False]) the error is logged and, with
    nothing in between but the log line of the destruction, the old
    database is dropped and the creation requested again: when the drop
    fails the process exits with code 2; when it succeeds the second
    creation follows at once, and the method returns the name if that
    creation succeeds and exits with code 2 if it fails. *)
Theorem C4_autoclobber_never_prompts (v : Z) (ser kd : bool) (s : State) :
  let n := gname (settings_dict s) in
  count is_input (events_of (_create_test_db w gname disp v true kd) s) = 0%nat
  /\ count is_input (events_of (create_test_db w gname disp v true ser kd) s) = 0%nat
  /\ forall e, svc_create w (trace s) n = Some e -> kd = false ->
       let run := _create_test_db w gname disp v true kd in
       let before := (conflict n e ++ destroying_log disp v (alias s) n)%list in
       (exists ed,
          svc_drop w (trace s ++ before) n = Some ed
          /\ events_of run s
             = (before ++ [EvDrop n (Some ed); recreate_error_log ed])%list
          /\ result_of run s = Exit 2)
       \/ (exists rc,
             svc_drop w (trace s ++ before) n = None
             /\ svc_create w ((trace s ++ before) ++ [EvDrop n None]) n = rc
             /\ events_of run s
                = (before
                     ++ EvDrop n None :: EvCreate n rc
                     :: match rc with
                        | None => []
                        | Some ec => [recreate_error_log ec]
                        end)%list
             /\ result_of run s
                = match rc with None => Ret n | Some _ => Exit 2 end).
Proof.
  intros n. split; [|split].
  - apply never_count, _create_test_db_autoclobber_never_prompts.
  - apply never_count, create_test_db_never; try done.
    apply _create_test_db_autoclobber_never_prompts.
  - intros e Hfail -> run before.
    destruct (_create_test_db_path w gname disp v true false s) as [Hpath _].
    fold n run in Hpath.
    assert (Hbefore : confirmed disp v true (alias s) n e = before) by reflexivity.
    remember (result_of run s) as out eqn:Hout.
    remember (events_of run s) as evs eqn:Hevs.
    destruct Hpath as
      [ Hc
      | e' Hc Hkd
      | e' answer Hc Hkd Hac Hans Hno
      | e' ed Hc Hkd Haff Hd
      | e' ec Hc Hkd Haff Hd Hc2
      | e' Hc Hkd Haff Hd Hc2 ];
      try congruence;
      assert (e' = e) as -> by congruence;
      rewrite Hbefore in *.
    + left. by exists ed.
    + right. by exists (Some ec).
    + right. by exists None.
Qed.

End NeverCalled.

Lemma C3_witness :
  svc_create (spanner true "") (trace sample_state)
    (django_test_db_name (settings_dict sample_state)) = Some already_exists
  /\ result_of (_create_test_db (spanner true "") django_test_db_name
                  django_display_str 1 false true) sample_state
     = Ret "test_db".
Proof.
  split; [vm_compute; reflexivity|].
  destruct (C3_keepdb_swallows_failure (spanner true "") django_test_db_name
              django_display_str 1 false true sample_state)
    as (_ & _ & H).
  destruct (H already_exists) as (Hret & _); [vm_compute; reflexivity|].
  rewrite Hret. vm_compute. reflexivity.
Defined.

Lemma C4_witness :
  svc_create (spanner true "") (trace sample_state)
    (django_test_db_name (settings_dict sample_state)) = Some already_exists
  /\ events_of (_create_test_db (spanner true "") django_test_db_name
                  django_display_str 0 true false) sample_state
     = [EvCreate "test_db" (Some already_exists);
        create_error_log already_exists;
        EvDrop "test_db" None;
        EvCreate "test_db" None]
  /\ result_of (_create_test_db (spanner true "") django_test_db_name
                  django_display_str 0 true false) sample_state
     = Ret "test_db".
Proof.
  split; [vm_compute; reflexivity|].
  destruct (C4_autoclobber_never_prompts (spanner true "") django_test_db_name
              django_display_str 0 true false sample_state)
    as (_ & _ & H).
  destruct (H already_exists)
    as [(ed & Hd & _)|(rc & _ & Hrc & Hevs & Hres)];
    [vm_compute; reflexivity | reflexivity | |].
  - vm_compute in Hd. discriminate Hd.
  - vm_compute in Hrc. subst rc. split; [exact Hevs | exact Hres].
Defined.

(** ** [mark_skips], one entry at a time *)

Section MarkSkip.

Lemma mark_skip_disabled (x : string) (s : State) :
  app_of x ∉ INSTALLED_APPS s -> mark_skip x s = (Ret tt, s).
Proof.
  intros Hout. unfold mark_skip, app_of in *.
  destruct (rpartition_dot x) as [[c sep] mn].
  unfold bind, get. by rewrite decide_False.
Qed.

Lemma mark_skip_enabled (x : string) (s : State) (m : method) :
  app_of x ∈ INSTALLED_APPS s ->
  is_Some (rsplit_dot (test_case_of x)) ->
  attribute s (test_case_of x) (method_of x) = Some m ->
  mark_skip x s
  = (Ret tt,
     registered s (test_case_of x) (method_of x) (skip "unsupported by Spanner" m)).
Proof.
  intros Hin [hd Hdot] Hattr.
  unfold mark_skip, app_of, test_case_of, method_of, attribute in *.
  destruct (rpartition_dot x) as [[c sep] mn]. simpl in *.
  unfold bind at 1, get. rewrite decide_True by done.
  unfold bind at 1, import_string, bind at 1, get. rewrite Hdot.
  destruct (test_cases s !! c) as [cls|] eqn:Hc; [|done].
  unfold ret at 1. cbv beta iota.
  unfold bind at 1, getattr, bind at 1, get. rewrite Hc. simpl in *.
  rewrite Hattr. reflexivity.
Qed.

(** An enabled entry that does not resolve raises, and changes nothing. *)
Lemma mark_skip_unresolved (x : string) (s : State) :
  app_of x ∈ INSTALLED_APPS s ->
  rsplit_dot (test_case_of x) = None
  \/ attribute s (test_case_of x) (method_of x) = None ->
  exists e, mark_skip x s = (Raise e, s).
Proof.
  intros Hin Hbad.
  unfold mark_skip, app_of, test_case_of, method_of, attribute in *.
  destruct (rpartition_dot x) as [[c sep] mn]. simpl in *.
  unfold bind at 1, get. rewrite decide_True by done.
  unfold bind at 1, import_string, bind at 1, get.
  destruct (rsplit_dot c) as [hd|] eqn:Hdot; [|by eexists].
  destruct Hbad as [?|Hattr]; [done|].
  destruct (test_cases s !! c) as [cls|] eqn:Hc; [|by eexists].
  unfold ret at 1. cbv beta iota.
  unfold bind at 1, getattr, bind at 1, get. rewrite Hc. simpl in *.
  rewrite Hattr. by eexists.
Qed.

(** The three ways one entry can go. *)
Lemma mark_skip_cases (x : string) (s : State) :
  ((app_of x ∉ INSTALLED_APPS s) /\ mark_skip x s = (Ret tt, s))
  \/ ((app_of x ∈ INSTALLED_APPS s) /\ exists e, mark_skip x s = (Raise e, s))
  \/ ((app_of x ∈ INSTALLED_APPS s)
      /\ is_Some (rsplit_dot (test_case_of x))
      /\ exists m,
           attribute s (test_case_of x) (method_of x) = Some m
           /\ mark_skip x s
              = (Ret tt,
                 registered s (test_case_of x) (method_of x)
                   (skip "unsupported by Spanner" m))).
Proof.
  destruct (decide (app_of x ∈ INSTALLED_APPS s)) as [Hin|Hout].
  2:{ left. split; [done|]. by apply mark_skip_disabled. }
  right.
  destruct (rsplit_dot (test_case_of x)) as [hd|] eqn:Hdot.
  2:{ left. split; [done|]. apply mark_skip_unresolved; auto. }
  destruct (attribute s (test_case_of x) (method_of x)) as [m|] eqn:Hattr.
  2:{ left. split; [done|]. apply mark_skip_unresolved; auto. }
  right. split; [done|]. split; [by eexists|]. exists m. split; [done|].
  apply mark_skip_enabled; [done | by rewrite Hdot | done].
Qed.

(** [mark_skips] changes the test cases and the trace, nothing else, and
    emits only [setattr] events. *)
Lemma for_each_mark_skip_frame (l : list string) (s : State) :
  exists tc evs,
    snd (for_each l mark_skip s)
    = with_trace (with_test_cases s tc) (trace s ++ evs)
    /\ Forall (fun e => is_setattr e = true) evs.
Proof.
  revert s. induction l as [|x l IH]; intros s.
  - exists (test_cases s), []. split; [|done].
    destruct s; simpl. by rewrite app_nil_r.
  - cbn [for_each]. unfold bind.
    destruct (mark_skip_cases x s)
      as [[_ ->]|[[_ [e ->]]|(_ & _ & m & _ & ->)]].
    + apply IH.
    + exists (test_cases s), []. split; [|done].
      destruct s; simpl. by rewrite app_nil_r.
    + destruct (IH (registered s (test_case_of x) (method_of x)
                      (skip "unsupported by Spanner" m))) as (tc & evs & -> & Hall).
      exists tc, (EvSetattr (test_case_of x) (method_of x)
                    (skip "unsupported by Spanner" m) :: evs).
      split; [|by constructor].
      unfold registered. simpl. by rewrite <- app_assoc.
Qed.

Lemma mark_skips_frame (s : State) :
  exists tc evs,
    snd (mark_skips s) = with_trace (with_test_cases s tc) (trace s ++ evs)
    /\ Forall (fun e => is_setattr e = true) evs.
Proof. unfold mark_skips, bind, get. apply for_each_mark_skip_frame. Qed.

End MarkSkip.

(** ** Symbolic execution of [create_test_db] *)

Section CreateTestDbRun.

Variable w : World.
Variable gname : gmap string string -> string.
Variable disp : string -> Z -> string -> string.

Lemma bind_Ret_inv {A B : Type} (m : M A) (k : A -> M B) (s s' : State) (b : B) :
  bind m k s = (Ret b, s') ->
  exists a s1, m s = (Ret a, s1) /\ k a s1 = (Ret b, s').
Proof.
  unfold bind. destruct (m s) as [[a|e|c] s1]; intros H; try discriminate.
  by exists a, s1.
Qed.

Lemma run_announce (v : Z) (kd : bool) (n : string) (s : State) :
  announce disp v kd n s
  = (Ret tt, with_trace s (trace s ++ announce_events disp v kd (alias s) n)).
Proof.
  unfold announce, announce_events. destruct (v >=? 1).
  - reflexivity.
  - unfold ret. by rewrite app_nil_r, with_trace_id.
Qed.

Lemma connection_close_Ret (s s' : State) (u : unit) :
  connection_close w s = (Ret u, s') ->
  s' = with_trace s (trace s ++ [EvClose None]).
Proof.
  unfold connection_close, bind, get, emit. simpl.
  destruct (conn_close w (trace s)); simpl; intros H; by inversion H.
Qed.

Lemma set_DATABASES_NAME_Ret (n : string) (s s' : State) (u : unit) :
  set_DATABASES_NAME n s = (Ret u, s') ->
  exists d,
    DATABASES s !! alias s = Some d
    /\ s' = with_trace
              (with_DATABASES s (<[alias s := <["NAME" := n]> d]> (DATABASES s)))
              (trace s ++ [EvSetDatabasesName (alias s) n]).
Proof.
  unfold set_DATABASES_NAME, bind, get.
  destruct (DATABASES s !! alias s) as [d|]; simpl; intros H; inversion H.
  by exists d.
Qed.

Lemma serialize_db_to_string_Ret (s s' : State) (c : string) :
  serialize_db_to_string w s = (Ret c, s') ->
  s' = with_trace s (trace s ++ [EvSerialize (inr c)]).
Proof.
  unfold serialize_db_to_string, bind, get, emit. simpl.
  destruct (serializer w (trace s)); simpl; intros H; by inversion H.
Qed.

Lemma call_command_Ret (c d : string) (s s' : State) (u : unit) :
  call_command w c d s = (Ret u, s') ->
  s' = with_trace s (trace s ++ [EvCallCommand c d None]).
Proof.
  unfold call_command, bind, get, emit. simpl.
  destruct (command_runner w (trace s) c d); simpl; intros H; by inversion H.
Qed.

Lemma ensure_connection_Ret (s s' : State) (u : unit) :
  ensure_connection w s = (Ret u, s') ->
  s' = with_trace s (trace s ++ [EvEnsureConnection None]).
Proof.
  unfold ensure_connection, bind, get, emit. simpl.
  destruct (conn_ensure w (trace s)); simpl; intros H; by inversion H.
Qed.

Lemma get_Ret (s s0 s' : State) : get s = (Ret s0, s') -> s0 = s /\ s' = s.
Proof. unfold get. intros H. by inversion H. Qed.

Lemma skip_phase_Ret (s s1 : State) (u : unit) :
  (if decide (environ s !! "RUNNING_SPANNER_BACKEND_TESTS" = Some "1")
   then mark_skips else ret tt) s = (Ret u, s1) ->
  exists ev_skips,
    s1 = with_trace (with_test_cases s (test_cases s1)) (trace s ++ ev_skips)
    /\ Forall (fun e => is_setattr e = true) ev_skips
    /\ (if decide (environ s !! "RUNNING_SPANNER_BACKEND_TESTS" = Some "1")
        then mark_skips s = (Ret tt, s1) else s1 = s).
Proof.
  destruct u. destruct (decide _) as [Hflag|Hflag]; intros H.
  - destruct (mark_skips_frame s) as (tc & evs & Hs1 & Hall).
    rewrite H in Hs1. simpl in Hs1. exists evs. split; [|done].
    rewrite Hs1. reflexivity.
  - inversion H; subst s1. exists []. split; [|done].
    destruct s; simpl. by rewrite app_nil_r.
Qed.

Lemma create_test_db_returns (v : Z) (ac ser kd : bool) (s s' : State) (r : string) :
  create_test_db w gname disp v ac ser kd s = (Ret r, s') ->
  let n := gname (settings_dict s) in
  exists s1 ev_skips ev_create d contents,
    r = n
    /\ (if decide (environ s !! "RUNNING_SPANNER_BACKEND_TESTS" = Some "1")
        then mark_skips s = (Ret tt, s1) else s1 = s)
    /\ s1 = with_trace (with_test_cases s (test_cases s1)) (trace s ++ ev_skips)
    /\ Forall (fun e => is_setattr e = true) ev_skips
    /\ _create_test_db w gname disp v ac kd
         (with_trace s1 (trace s1 ++ announce_events disp v kd (alias s) n))
       = (Ret n,
          with_trace s1
            (trace s1 ++ announce_events disp v kd (alias s) n ++ ev_create))
    /\ DATABASES s !! alias s = Some d
    /\ s' = with_trace
              (with_serialized
                 (with_settings_dict
                    (with_DATABASES s1
                       (<[alias s := <["NAME" := n]> d]> (DATABASES s)))
                    (<["NAME" := n]> (settings_dict s)))
                 (if ser then Some contents else _test_serialized_contents s))
              (trace s ++ ev_skips ++ announce_events disp v kd (alias s) n
                 ++ ev_create ++ rename_events (alias s) n
                 ++ snapshot_events ser contents ++ finishing_events (alias s)).
Proof.
  intros H n. unfold create_test_db in H.
  apply bind_Ret_inv in H as (s0 & sa & Hget & H).
  apply get_Ret in Hget as [-> ->].
  apply bind_Ret_inv in H as (u1 & s1 & Hskips & H).
  apply skip_phase_Ret in Hskips as (ev_skips & Hs1 & Hall & Hphase).
  apply bind_Ret_inv in H as (s0 & sa & Hget & H).
  apply get_Ret in Hget as [-> ->].
  assert (Hsd : settings_dict s1 = settings_dict s) by (by rewrite Hs1).
  assert (Hal : alias s1 = alias s) by (by rewrite Hs1).
  assert (Hdb : DATABASES s1 = DATABASES s) by (by rewrite Hs1).
  assert (Hsc : _test_serialized_contents s1 = _test_serialized_contents s)
    by (by rewrite Hs1).
  assert (Htr : trace s1 = (trace s ++ ev_skips)%list) by (by rewrite Hs1).
  rewrite Hsd in H. fold n in H.
  apply bind_Ret_inv in H as (u2 & s2 & Hann & H).
  rewrite run_announce in Hann. inversion Hann; subst s2; clear Hann.
  rewrite Hal in H.
  apply bind_Ret_inv in H as (n' & s3 & Hcreate & H).
  destruct (_create_test_db_run w gname disp v ac kd
              (with_trace s1 (trace s1 ++ announce_events disp v kd (alias s) n)))
    as (out & ev_create & Hrun & Hpath).
  rewrite Hrun in Hcreate. inversion Hcreate; subst out s3; clear Hcreate.
  cbn [settings_dict with_trace] in Hpath. rewrite Hsd in Hpath. fold n in Hpath.
  assert (n' = n) as -> by (inversion Hpath; reflexivity).
  clear Hpath. cbn [trace with_trace] in Hrun.
  apply bind_Ret_inv in H as (u3 & s4 & Hclose & H).
  apply connection_close_Ret in Hclose as ->.
  apply bind_Ret_inv in H as (u4 & s5 & Hset & H).
  apply set_DATABASES_NAME_Ret in Hset as (d & Hd & ->).
  cbn [alias DATABASES trace with_trace with_DATABASES] in Hd, H.
  rewrite Hal, Hdb in Hd. rewrite Hal, Hdb in H.
  apply bind_Ret_inv in H as (u5 & s6 & Hset & H).
  unfold set_settings_dict_NAME, emit in Hset.
  inversion Hset; subst s6; clear Hset.
  cbn [settings_dict trace with_trace with_DATABASES with_settings_dict] in H.
  rewrite Hsd in H.
  apply bind_Ret_inv in H as (u6 & s7 & Hser & H).
  apply bind_Ret_inv in H as (s0 & sa & Hget & H).
  apply get_Ret in Hget as [-> ->].
  apply bind_Ret_inv in H as (u7 & s8 & Hcmd & H).
  apply call_command_Ret in Hcmd as ->.
  apply bind_Ret_inv in H as (u8 & s9 & Hens & H).
  apply ensure_connection_Ret in Hens as ->.
  unfold ret in H. inversion H; subst r s'; clear H.
  destruct ser.
  - apply bind_Ret_inv in Hser as (contents & s6 & Hser & Hset).
    apply serialize_db_to_string_Ret in Hser as ->.
    unfold set_test_serialized_contents, emit in Hset.
    inversion Hset; subst s7; clear Hset.
    exists s1, ev_skips, ev_create, d, contents.
    split; [done|]. split; [done|]. split; [done|]. split; [done|].
    split; [by rewrite Hrun, <- app_assoc|]. split; [done|].
    unfold rename_events, snapshot_events, finishing_events.
    cbn [alias trace with_trace with_DATABASES with_settings_dict with_serialized].
    rewrite Hal, Htr, <- !app_assoc. reflexivity.
  - unfold ret in Hser. inversion Hser; subst s7; clear Hser.
    exists s1, ev_skips, ev_create, d, "".
    split; [done|]. split; [done|]. split; [done|]. split; [done|].
    split; [by rewrite Hrun, <- app_assoc|]. split; [done|].
    unfold rename_events, snapshot_events, finishing_events.
    rewrite with_serialized_frame by exact Hsc.
    cbn [alias trace with_trace with_DATABASES with_settings_dict].
    rewrite Hal, Htr, <- !app_assoc. reflexivity.
Qed.


Lemma _create_test_db_emits_creation (v : Z) (ac kd : bool) :
  emits_only (fun e => is_creation e = true) (_create_test_db w gname disp v ac kd).
Proof.
  unfold _create_test_db, _execute_create_test_db, create_failed,
    ask_confirm, disposition, clobber, _destroy_test_db,
    _execute_create_test_db, input, log.
  emits.
Qed.

Lemma creation_events (v : Z) (ac kd : bool) (s : State) (out : outcome string)
    (evs : list event) :
  _create_test_db w gname disp v ac kd s = (out, with_trace s (trace s ++ evs)) ->
  Forall (fun e => is_creation e = true) evs
  /\ (0 < count is_create evs)%nat.
Proof.
  intros Hrun. split.
  - destruct (_create_test_db_emits_creation v ac kd s) as (evs' & Htr & Hall).
    rewrite Hrun in Htr. simpl in Htr. by apply app_inv_head in Htr as ->.
  - destruct (_create_test_db_run w gname disp v ac kd s)
      as (out' & evs' & Hrun' & Hpath).
    rewrite Hrun in Hrun'. inversion Hrun' as [[Hout Htr]].
    apply app_inv_head in Htr as <-. clear Hrun' Hout.
    destruct Hpath; try rewrite count_confirmed by done;
      unfold count, conflict; simpl; lia.
Qed.

Lemma count_none (p q : event -> bool) (evs : list event) :
  Forall (fun e => q e = true) evs ->
  (forall e, q e = true -> p e = false) ->
  count p evs = 0%nat.
Proof.
  intros Hall Hpq. unfold count.
  induction Hall as [|e evs He _ IH]; simpl; [done|].
  by rewrite (Hpq e He).
Qed.

Lemma precedes_app (p q : event -> bool) (l1 l2 : list event) :
  count q l1 = 0%nat -> count p l2 = 0%nat -> precedes p q (l1 ++ l2).
Proof.
  unfold count. intros Hq Hp i j e1 e2 Hi Hj Hp1 Hq2.
  apply length_zero_iff_nil in Hq, Hp.
  destruct (decide (i < length l1)%nat) as [Hlt|Hge].
  - destruct (decide (j < length l1)%nat) as [Hjlt|Hjge]; [|lia].
    rewrite lookup_app_l in Hj by done.
    assert (Hin : In e2 (List.filter q l1)).
    { apply List.filter_In. split; [|done].
      apply list_elem_of_In, list_elem_of_lookup. eauto. }
    rewrite Hq in Hin. destruct Hin.
  - rewrite lookup_app_r in Hi by lia.
    assert (Hin : In e1 (List.filter p l2)).
    { apply List.filter_In. split; [|done].
      apply list_elem_of_In, list_elem_of_lookup. eauto. }
    rewrite Hp in Hin. destruct Hin.
Qed.

(** The phases of a run of [create_test_db] that returns. *)
Lemma create_test_db_phases (v : Z) (ac ser kd : bool) (s : State) (r : string) :
  let run := create_test_db w gname disp v ac ser kd in
  let n := gname (settings_dict s) in
  result_of run s = Ret r ->
  exists ev_skips ev_create d contents,
    r = n
    /\ DATABASES s !! alias s = Some d
    /\ events_of run s
       = (ev_skips ++ announce_events disp v kd (alias s) n
            ++ ev_create ++ rename_events (alias s) n
            ++ snapshot_events ser contents ++ finishing_events (alias s))%list
    /\ Forall (fun e => is_setattr e = true) ev_skips
    /\ (if decide (environ s !! "RUNNING_SPANNER_BACKEND_TESTS" = Some "1")
        then result_of mark_skips s = Ret tt /\ events_of mark_skips s = ev_skips
        else ev_skips = [])
    /\ Forall (fun e => is_creation e = true) ev_create
    /\ (0 < count is_create ev_create)%nat
    /\ alias (state_after run s) = alias s
    /\ DATABASES (state_after run s)
       = <[alias s := <["NAME" := n]> d]> (DATABASES s)
    /\ settings_dict (state_after run s) = <["NAME" := n]> (settings_dict s)
    /\ _test_serialized_contents (state_after run s)
       = (if ser then Some contents else _test_serialized_contents s).
Proof.
  intros run n Hret.
  pose proof (run_pair run s) as Hrun. rewrite Hret in Hrun.
  apply create_test_db_returns in Hrun
    as (s1 & ev_skips & ev_create & d & contents
        & Hr & Hphase & Hs1 & Hskips & Hcreate & Hd & Hfinal).
  fold n in Hr, Hcreate, Hfinal.
  exists ev_skips, ev_create, d, contents.
  split; [done|]. split; [done|].
  split; [unfold events_of; fold (state_after run s);
          rewrite Hfinal; cbn [trace with_trace]; apply drop_app_length|].
  split; [done|].
  split.
  { destruct (decide _); [|subst s1].
    - unfold result_of, events_of. rewrite Hphase, Hs1. cbn [fst snd trace with_trace].
      by rewrite drop_app_length.
    - apply (f_equal trace) in Hs1. cbn [trace with_trace] in Hs1.
      rewrite <- (app_nil_r (trace s)) in Hs1 at 1.
      by apply app_inv_head in Hs1. }
  assert (Hcreate' :
    _create_test_db w gname disp v ac kd
      (with_trace s1 (trace s1 ++ announce_events disp v kd (alias s) n))
    = (Ret n,
       with_trace
         (with_trace s1 (trace s1 ++ announce_events disp v kd (alias s) n))
         (trace (with_trace s1 (trace s1 ++ announce_events disp v kd (alias s) n))
            ++ ev_create))).
  { rewrite Hcreate. cbn [trace with_trace]. by rewrite <- app_assoc. }
  apply creation_events in Hcreate' as [Hall Hpos].
  split; [done|]. split; [done|].
  rewrite Hfinal. by rewrite Hs1.
Qed.

End CreateTestDbRun.

(** ** [create_test_db] *)

Section CreateTestDbProperties.

Variable w : World.
Variable gname : gmap string string -> string.
Variable disp : string -> Z -> string -> string.

Lemma count_skips (p : event -> bool) (evs : list event) :
  Forall (fun e => is_setattr e = true) evs ->
  (forall c m x, p (EvSetattr c m x) = false) ->
  count p evs = 0%nat.
Proof.
  intros Hall Hp. apply count_none with (q := is_setattr); [done|].
  intros [] He; try discriminate He. apply Hp.
Qed.

Lemma count_creation (p : event -> bool) (evs : list event) :
  Forall (fun e => is_creation e = true) evs ->
  (forall msg, p (EvLog msg) = false) ->
  (forall n r, p (EvCreate n r) = false) ->
  (forall n r, p (EvDrop n r) = false) ->
  (forall q a, p (EvInput q a) = false) ->
  count p evs = 0%nat.
Proof.
  intros Hall Hlog Hcr Hdr Hin. apply count_none with (q := is_creation); [done|].
  intros [] He; try discriminate He; auto.
Qed.

Lemma count_announce (p : event -> bool) (v : Z) (kd : bool) (al n : string) :
  (forall msg, p (EvLog msg) = false) ->
  count p (announce_events disp v kd al n) = 0%nat.
Proof.
  intros Hp. unfold announce_events, count.
  destruct (v >=? 1); simpl; [|done]. by rewrite Hp.
Qed.

(** C5. When [create_test_db] returns, [serialize_db_to_string] was called
    once if [serialize] is true and not at all otherwise;
    [_test_serialized_contents] was assigned in the first case only, and
    then holds the string the serializer returned; with [serialize] false
    the attribute is what it was before the call. *)
Theorem C5_snapshot_iff_serialize (v : Z) (ac ser kd : bool) (s : State) (r : string) :
  let run := create_test_db w gname disp v ac ser kd in
  result_of run s = Ret r ->
  count is_serialize (events_of run s) = (if ser then 1 else 0)%nat
  /\ count is_set_serialized (events_of run s) = (if ser then 1 else 0)%nat
  /\ ((exists c, In (EvSetSerializedContents c) (events_of run s)) <-> ser = true)
  /\ (ser = true ->
      exists c, In (EvSerialize (inr c)) (events_of run s)
                /\ _test_serialized_contents (state_after run s) = Some c)
  /\ (ser = false ->
      _test_serialized_contents (state_after run s) = _test_serialized_contents s).
Proof.
  intros run Hret.
  destruct (create_test_db_phases w gname disp v ac ser kd s r Hret)
    as (ev_skips & ev_create & d & contents & _ & _ & Hevs & Hskips & _
        & Hcreate & _ & _ & _ & _ & Hsnap).
  fold run in Hevs, Hsnap. rewrite Hevs, Hsnap.
  assert (Hcount : forall p,
            (forall msg, p (EvLog msg) = false) ->
            (forall n r, p (EvCreate n r) = false) ->
            (forall n r, p (EvDrop n r) = false) ->
            (forall q a, p (EvInput q a) = false) ->
            (forall c m x, p (EvSetattr c m x) = false) ->
            (forall r, p (EvClose r) = false) ->
            (forall a n, p (EvSetDatabasesName a n) = false) ->
            (forall n, p (EvSetSettingsDictName n) = false) ->
            (forall c d r, p (EvCallCommand c d r) = false) ->
            (forall r, p (EvEnsureConnection r) = false) ->
            count p (ev_skips ++ announce_events disp v kd (alias s) (gname (settings_dict s))
                       ++ ev_create ++ rename_events (alias s) (gname (settings_dict s))
                       ++ snapshot_events ser contents ++ finishing_events (alias s))
            = count p (snapshot_events ser contents)).
  { intros p Hlog Hcr Hdr Hin Hattr Hcl Hdb Hsd Hcmd Hens.
    rewrite !count_app, (count_skips p ev_skips), count_announce,
      (count_creation p ev_create) by done.
    unfold count, rename_events, finishing_events. simpl.
    rewrite Hcl, Hdb, Hsd, Hcmd, Hens. simpl. lia. }
  split; [rewrite Hcount by done; by destruct ser|].
  split; [rewrite Hcount by done; by destruct ser|].
  split; [|split].
  - split.
    + intros [c Hin].
      pose proof (count_pos is_set_serialized _ _ Hin eq_refl) as Hpos.
      rewrite Hcount in Hpos by done. destruct ser; [done|].
      unfold count in Hpos. simpl in Hpos. lia.
    + intros ->. exists contents. rewrite !in_app_iff. do 4 right. left.
      simpl. auto.
  - intros ->. exists contents. split; [|done].
    rewrite !in_app_iff. do 4 right. left. simpl. auto.
  - by intros ->.
Qed.

(** C6. When [create_test_db] returns, on whichever path, the value is
    the name given by [_get_test_db_name] on the settings the call started
    with; [settings.DATABASES[alias]["NAME"]] and
    [connection.settings_dict["NAME"]] both hold that name; and the two
    assignments, the only ones of the run, come right after the connection
    was closed. *)
Theorem C6_name_updated_after_close
    (v : Z) (ac ser kd : bool) (s : State) (r : string) :
  let run := create_test_db w gname disp v ac ser kd in
  result_of run s = Ret r ->
  r = gname (settings_dict s)
  /\ alias (state_after run s) = alias s
  /\ (DATABASES (state_after run s) !! alias s)
       ≫= (fun d : gmap string string => d !! "NAME") = Some r
  /\ settings_dict (state_after run s) !! "NAME" = Some r
  /\ exists pre post,
       events_of run s
       = (pre ++ [EvClose None; EvSetDatabasesName (alias s) r;
                  EvSetSettingsDictName r] ++ post)%list
       /\ count is_set_name pre = 0%nat
       /\ count is_set_name post = 0%nat.
Proof.
  intros run Hret.
  destruct (create_test_db_phases w gname disp v ac ser kd s r Hret)
    as (ev_skips & ev_create & d & contents & -> & Hd & Hevs & Hskips & _
        & Hcreate & _ & Hal & Hdb & Hsd & _).
  fold run in Hevs, Hal, Hdb, Hsd.
  split; [done|]. split; [done|].
  split; [by rewrite Hdb, lookup_insert_eq; simpl; rewrite lookup_insert_eq|].
  split; [by rewrite Hsd, lookup_insert_eq|].
  exists (ev_skips ++ announce_events disp v kd (alias s) (gname (settings_dict s))
            ++ ev_create)%list,
         (snapshot_events ser contents ++ finishing_events (alias s))%list.
  split; [by rewrite Hevs, <- !app_assoc|].
  split.
  - by rewrite !count_app, (count_skips is_set_name ev_skips), count_announce,
      (count_creation is_set_name ev_create).
  - by destruct ser.
Qed.

(** C8 (amended). In a run of [create_test_db] that returns, the events
    come in this order: the [setattr]s of the skip registration (which
    runs only when the environment flag is set), the log line (at
    verbosity 1 and above), the events of [_create_test_db], the closing of the connection and the two
    assignments of the name, then the serialization and the assignment of
    the snapshot (when [serialize] is true), and last the
    [createcachetable] command and [ensure_connection].  The snapshot is
    taken before the cache table is provisioned. *)
Theorem C8_steps_in_order (v : Z) (ac ser kd : bool) (s : State) (r : string) :
  let run := create_test_db w gname disp v ac ser kd in
  let n := gname (settings_dict s) in
  result_of run s = Ret r ->
  exists ev_skips ev_create contents,
    events_of run s
    = (ev_skips ++ announce_events disp v kd (alias s) n
         ++ ev_create ++ rename_events (alias s) n
         ++ snapshot_events ser contents ++ finishing_events (alias s))%list
    /\ Forall (fun e => is_setattr e = true) ev_skips
    /\ (if decide (environ s !! "RUNNING_SPANNER_BACKEND_TESTS" = Some "1")
        then events_of mark_skips s = ev_skips else ev_skips = [])
    /\ Forall (fun e => is_creation e = true) ev_create
    /\ (0 < count is_create ev_create)%nat
    /\ precedes is_setattr is_creation (events_of run s)
    /\ precedes is_creation is_serialize (events_of run s)
    /\ precedes is_serialize is_call_command (events_of run s).
Proof.
  intros run n Hret.
  destruct (create_test_db_phases w gname disp v ac ser kd s r Hret)
    as (ev_skips & ev_create & d & contents & -> & Hd & Hevs & Hskips & Hphase
        & Hcreate & Hpos & _).
  fold run n in Hevs.
  exists ev_skips, ev_create, contents.
  split; [done|]. split; [done|].
  split; [destruct (decide _); [by destruct Hphase | done]|].
  split; [done|]. split; [done|].
  rewrite Hevs.
  split; [|split].
  - apply precedes_app.
    + by apply count_skips.
    + rewrite !count_app, count_announce by done.
      rewrite (count_creation is_setattr ev_create) by done. by destruct ser.
  - rewrite !app_assoc, <- (app_assoc _ (snapshot_events ser contents)).
    apply precedes_app.
    + rewrite !count_app, (count_skips is_serialize ev_skips), count_announce,
        (count_creation is_serialize ev_create) by done. done.
    + by destruct ser.
  - rewrite !app_assoc. apply precedes_app; [|done].
    rewrite !count_app, (count_skips is_call_command ev_skips), count_announce,
      (count_creation is_call_command ev_create) by done. by destruct ser.
Qed.

End CreateTestDbProperties.

Lemma C5_witness :
  result_of (create_test_db (spanner true "yes") django_test_db_name
               django_display_str 2 false true false) sample_state
  = Ret "test_db"
  /\ count is_serialize
       (events_of (create_test_db (spanner true "yes") django_test_db_name
                     django_display_str 2 false true false) sample_state)
     = 1%nat.
Proof.
  split; [vm_compute; reflexivity|].
  apply (C5_snapshot_iff_serialize (spanner true "yes") django_test_db_name
           django_display_str 2 false true false sample_state "test_db").
  vm_compute. reflexivity.
Defined.

Lemma C6_witness :
  result_of (create_test_db (spanner true "yes") django_test_db_name
               django_display_str 2 false true false) sample_state
  = Ret "test_db"
  /\ settings_dict
       (state_after (create_test_db (spanner true "yes") django_test_db_name
                       django_display_str 2 false true false) sample_state)
       !! "NAME"
     = Some "test_db".
Proof.
  split; [vm_compute; reflexivity|].
  apply (C6_name_updated_after_close (spanner true "yes") django_test_db_name
           django_display_str 2 false true false sample_state "test_db").
  vm_compute. reflexivity.
Defined.

Lemma C8_witness :
  result_of (create_test_db (spanner false "") django_test_db_name
               django_display_str 1 false true false) sample_state
  = Ret "test_db"
  /\ precedes is_serialize is_call_command
       (events_of (create_test_db (spanner false "") django_test_db_name
                     django_display_str 1 false true false) sample_state).
Proof.
  split; [vm_compute; reflexivity|].
  destruct (C8_steps_in_order (spanner false "") django_test_db_name
              django_display_str 1 false true false sample_state "test_db")
    as (ev_skips & ev_create & contents & _ & _ & _ & _ & _ & _ & _ & H);
    [vm_compute; reflexivity | exact H].
Defined.

(** C8 as stated fails: on a fresh service, with [serialize=True], the
    run returns and the [createcachetable] command comes after the
    serialization, not before it. *)
Lemma C8_counterexample :
  result_of (create_test_db (spanner false "") django_test_db_name
               django_display_str 1 false true false) sample_state
  = Ret "test_db"
  /\ events_of (create_test_db (spanner false "") django_test_db_name
                  django_display_str 1 false true false) sample_state
     = [EvSetattr "queries.tests.Queries1Tests" "test_ticket9411"
          (SkipWrapper "unsupported by Spanner" (Original "test_ticket9411"));
        EvLog "Creating test database for alias 'default'...";
        EvCreate "test_db" None;
        EvClose None;
        EvSetDatabasesName "default" "test_db";
        EvSetSettingsDictName "test_db";
        EvSerialize (inr "[]");
        EvSetSerializedContents "[]";
        EvCallCommand "createcachetable" "default" None;
        EvEnsureConnection None]
  /\ ~ precedes is_call_command is_serialize
         (events_of (create_test_db (spanner false "") django_test_db_name
                       django_display_str 1 false true false) sample_state).
Proof.
  assert (Hevs :
    events_of (create_test_db (spanner false "") django_test_db_name
                 django_display_str 1 false true false) sample_state
    = [EvSetattr "queries.tests.Queries1Tests" "test_ticket9411"
         (SkipWrapper "unsupported by Spanner" (Original "test_ticket9411"));
       EvLog "Creating test database for alias 'default'...";
       EvCreate "test_db" None;
       EvClose None;
       EvSetDatabasesName "default" "test_db";
       EvSetSettingsDictName "test_db";
       EvSerialize (inr "[]");
       EvSetSerializedContents "[]";
       EvCallCommand "createcachetable" "default" None;
       EvEnsureConnection None]) by (vm_compute; reflexivity).
  split; [vm_compute; reflexivity|]. split; [exact Hevs|].
  rewrite Hevs. intros H.
  specialize (H 8%nat 6%nat _ _ eq_refl eq_refl eq_refl eq_refl). lia.
Qed.

(** ** [mark_skips]: which attributes change, and how *)

Section MarkSkips.

Lemma rsplit_dot_join (x h t : string) :
  rsplit_dot x = Some (h, t) -> x = h ++ "." ++ t.
Proof.
  revert h t. induction x as [|c x IH]; intros h t; simpl; [done|].
  destruct (rsplit_dot x) as [[h' t']|].
  - intros Heq. injection Heq as <- <-. simpl. by rewrite (IH h' t').
  - destruct (Ascii.eqb_spec c ".") as [->|]; [|done].
    intros Heq. by injection Heq as <- <-.
Qed.

(** A skip entry whose test case imports is its test case, a dot, and its
    method: two such entries naming the same attribute are the same
    entry. *)
Lemma entry_join (x : string) :
  is_Some (rsplit_dot (test_case_of x)) ->
  x = test_case_of x ++ "." ++ method_of x.
Proof.
  unfold test_case_of, method_of, rpartition_dot.
  destruct (rsplit_dot x) as [[h t]|] eqn:Hx; simpl.
  - intros _. by apply rsplit_dot_join.
  - by intros [? ?].
Qed.

Lemma entry_determined (x y : string) :
  is_Some (rsplit_dot (test_case_of y)) ->
  test_case_of x = test_case_of y -> method_of x = method_of y -> x = y.
Proof.
  intros Hy Hc Hm. rewrite (entry_join y Hy), <- Hc, <- Hm.
  apply entry_join. by rewrite Hc.
Qed.

Lemma attribute_registered (s : State) (c mn : string) (m0 m : method)
    (c' mn' : string) :
  attribute s c mn = Some m0 ->
  attribute (registered s c mn m) c' mn'
  = if decide (c' = c /\ mn' = mn) then Some m else attribute s c' mn'.
Proof.
  unfold attribute, registered. cbn [test_cases with_trace with_test_cases].
  intros Hattr. rewrite lookup_alter.
  destruct (decide (c = c')) as [<-|Hc].
  - destruct (test_cases s !! c) as [cls|]; [|done]. simpl in *.
    destruct (decide (mn' = mn)) as [->|Hmn].
    + rewrite decide_True by done. by rewrite lookup_insert_eq.
    + rewrite decide_False by (intros [_ ?]; congruence).
      by rewrite lookup_insert_ne.
  - by rewrite decide_False by (intros [? _]; congruence).
Qed.

(** Along the loop an attribute only gains wrappers. *)
Lemma for_each_mark_skip_grows (l : list string) (s s' : State)
    (out : outcome unit) (c mn : string) (m : method) :
  for_each l mark_skip s = (out, s') ->
  attribute s c mn = Some m ->
  exists m', attribute s' c mn = Some m'
             /\ (wrap_depth m <= wrap_depth m')%nat
             /\ (forall m0, m = SkipWrapper "unsupported by Spanner" m0 ->
                 exists m1, m' = SkipWrapper "unsupported by Spanner" m1).
Proof.
  revert s m. induction l as [|x l IH]; intros s m; cbn [for_each].
  - intros [= <- <-] Hattr. exists m. eauto.
  - unfold bind.
    destruct (mark_skip_cases x s)
      as [[_ ->]|[[_ [e ->]]|(_ & _ & mx & Hx & ->)]].
    + apply IH.
    + intros [= <- <-] Hattr. exists m. eauto.
    + intros Hrun Hattr.
      pose proof (attribute_registered s (test_case_of x) (method_of x) mx
                    (skip "unsupported by Spanner" mx) c mn Hx) as Hreg.
      destruct (decide (c = test_case_of x /\ mn = method_of x)) as [[-> ->]|Hne].
      * assert (mx = m) as -> by congruence.
        destruct (IH _ _ Hrun Hreg) as (m' & Hm' & Hle & Hw).
        exists m'. split; [done|]. split; [simpl in Hle; lia|].
        intros m0 _. by apply (Hw m).
      * rewrite Hattr in Hreg. by apply (IH _ _ Hrun Hreg).
Qed.

(** An attribute changes only if an entry with an enabled application
    names it. *)
Lemma for_each_mark_skip_frame_attr (l : list string) (s s' : State)
    (out : outcome unit) (c mn : string) :
  for_each l mark_skip s = (out, s') ->
  (forall y, y ∈ l -> app_of y ∈ INSTALLED_APPS s ->
             is_Some (rsplit_dot (test_case_of y)) ->
             ~ (test_case_of y = c /\ method_of y = mn)) ->
  attribute s' c mn = attribute s c mn.
Proof.
  revert s. induction l as [|x l IH]; intros s; cbn [for_each].
  - by intros [= <- <-] _.
  - unfold bind. intros Hrun Hother.
    destruct (mark_skip_cases x s)
      as [[_ Hx]|[[_ [e Hx]]|(Hin & Hdot & mx & Hattr & Hx)]];
      rewrite Hx in Hrun.
    + apply (IH _ Hrun). intros y Hy. apply Hother. by right.
    + by injection Hrun as <- <-.
    + rewrite (IH _ Hrun).
      * rewrite (attribute_registered _ _ _ mx) by done.
        rewrite decide_False; [done|].
        intros [-> ->]. by apply (Hother x); [left| | |].
      * intros y Hy. apply Hother. by right.
Qed.

(** When the loop completes, every entry with an enabled application
    resolved, and its attribute is a skip wrapper. *)
Lemma for_each_mark_skip_registers (l : list string) (s s' : State) (x : string) :
  for_each l mark_skip s = (Ret tt, s') ->
  x ∈ l -> app_of x ∈ INSTALLED_APPS s ->
  is_Some (rsplit_dot (test_case_of x))
  /\ exists m0 m1,
       attribute s (test_case_of x) (method_of x) = Some m0
       /\ attribute s' (test_case_of x) (method_of x)
          = Some (SkipWrapper "unsupported by Spanner" m1)
       /\ (wrap_depth m0 < wrap_depth (SkipWrapper "unsupported by Spanner" m1))%nat.
Proof.
  revert s. induction l as [|y l IH]; intros s; cbn [for_each].
  - intros _ Hx. by apply elem_of_nil in Hx.
  - unfold bind. intros Hrun Hx Hin.
    destruct (mark_skip_cases y s)
      as [[Hout Hy]|[[_ [e Hy]]|(_ & Hdot & my & Hattr & Hy)]];
      rewrite Hy in Hrun; [| done |].
    + apply elem_of_cons in Hx as [->|Hx]; [done|]. by apply IH.
    + pose proof (attribute_registered s (test_case_of y) (method_of y) my
                    (skip "unsupported by Spanner" my)
                    (test_case_of x) (method_of x) Hattr) as Hreg.
      apply elem_of_cons in Hx as [->|Hx].
      * rewrite decide_True in Hreg by done.
        destruct (for_each_mark_skip_grows _ _ _ _ _ _ _ Hrun Hreg)
          as (m' & Hm' & Hle & Hw).
        destruct (Hw my eq_refl) as [m1 ->].
        split; [done|]. exists my, m1. split; [done|]. split; [done|].
        simpl in *. lia.
      * destruct (IH _ Hrun Hx Hin) as (Hd & m0 & m1 & H0 & H1 & Hlt).
        split; [done|].
        rewrite Hreg in H0. case_decide as Hsame.
        -- destruct Hsame as [Hc Hm]. rewrite Hc, Hm.
           exists my, m1. split; [done|]. split; [by rewrite <- Hc, <- Hm|].
           injection H0 as <-. simpl in *. lia.
        -- by exists m0, m1.
Qed.

(** Over attributes that are already skip wrappers the loop changes no
    behaviour. *)
Lemma for_each_mark_skip_behaviour (l : list string) (s s' : State)
    (out : outcome unit) :
  for_each l mark_skip s = (out, s') ->
  (forall y m, y ∈ l -> app_of y ∈ INSTALLED_APPS s ->
               attribute s (test_case_of y) (method_of y) = Some m ->
               exists m0, m = SkipWrapper "unsupported by Spanner" m0) ->
  forall c mn, call_method <$> attribute s' c mn = call_method <$> attribute s c mn.
Proof.
  revert s. induction l as [|x l IH]; intros s; cbn [for_each].
  - by intros [= <- <-] _.
  - unfold bind. intros Hrun Hwrapped c mn.
    destruct (mark_skip_cases x s)
      as [[_ Hx]|[[_ [e Hx]]|(Hin & Hdot & mx & Hattr & Hx)]];
      rewrite Hx in Hrun.
    + apply (IH _ Hrun). intros y m Hy. apply Hwrapped. by right.
    + by injection Hrun as <- <-.
    + destruct (Hwrapped x mx) as [m0 ->]; [by left | done | done |].
      rewrite (IH _ Hrun).
      * rewrite (attribute_registered _ _ _ _ _ _ _ Hattr).
        case_decide as Hsame; [|done].
        destruct Hsame as [-> ->]. by rewrite Hattr.
      * intros y m Hy Hyin.
        rewrite (attribute_registered _ _ _ _ _ _ _ Hattr).
        case_decide; [intros [= <-]; by eexists|].
        apply Hwrapped; [by right | done].
Qed.

(** The loop completes when every enabled entry resolves. *)
Lemma for_each_mark_skip_completes (l : list string) (s : State) :
  (forall y, y ∈ l -> app_of y ∈ INSTALLED_APPS s ->
             is_Some (rsplit_dot (test_case_of y))
             /\ is_Some (attribute s (test_case_of y) (method_of y))) ->
  exists s', for_each l mark_skip s = (Ret tt, s').
Proof.
  revert s. induction l as [|x l IH]; intros s Hres; cbn [for_each].
  - by exists s.
  - unfold bind.
    destruct (decide (app_of x ∈ INSTALLED_APPS s)) as [Hin|Hout].
    + destruct (Hres x) as [Hdot [mx Hattr]]; [by left | done |].
      rewrite (mark_skip_enabled x s mx) by done.
      apply IH. intros y Hy Hyin.
      destruct (Hres y) as [Hd [my Hmy]]; [by right | done |].
      split; [done|].
      rewrite (attribute_registered _ _ _ _ _ _ _ Hattr). by case_decide.
    + rewrite mark_skip_disabled by done.
      apply IH. intros y Hy. apply Hres. by right.
Qed.

Lemma mark_skips_twice (s s1 : State) :
  mark_skips s = (Ret tt, s1) ->
  (mark_skips ;; mark_skips) s = mark_skips s1
  /\ skip_tests s1 = skip_tests s
  /\ INSTALLED_APPS s1 = INSTALLED_APPS s.
Proof.
  intros Hrun. unfold bind at 1. rewrite Hrun. split; [done|].
  destruct (mark_skips_frame s) as (tc & evs & Hs1 & _).
  rewrite Hrun in Hs1. simpl in Hs1. by rewrite Hs1.
Qed.

(** C9. For an entry whose application (the part before its first dot) is
    not in [INSTALLED_APPS], the loop body returns at once, without error
    and without touching the state, and the attribute the entry names is
    the same after the whole of [mark_skips] as before.  For an entry whose
    application is enabled and whose test case and method resolve, the
    attribute is replaced by the [unittest.skip] wrapper of the method, and
    calling it reports the skip (unsupported by Spanner) where the original
    would have executed; this is still so when [mark_skips] returns. *)
Theorem C9_registration_follows_installed_apps (s : State) (x : string) :
  ((app_of x ∉ INSTALLED_APPS s) ->
     mark_skip x s = (Ret tt, s)
     /\ attribute (state_after mark_skips s) (test_case_of x) (method_of x)
        = attribute s (test_case_of x) (method_of x))
  /\ (forall m,
        app_of x ∈ INSTALLED_APPS s ->
        result_of (import_string (test_case_of x)) s = Ret (test_case_of x) ->
        attribute s (test_case_of x) (method_of x) = Some m ->
        result_of (mark_skip x) s = Ret tt
        /\ attribute (state_after (mark_skip x) s) (test_case_of x) (method_of x)
           = Some (SkipWrapper "unsupported by Spanner" m)
        /\ call_method (SkipWrapper "unsupported by Spanner" m)
           = SkipTest "unsupported by Spanner")
  /\ (x ∈ skip_tests s ->
      app_of x ∈ INSTALLED_APPS s ->
      result_of mark_skips s = Ret tt ->
      exists m,
        attribute (state_after mark_skips s) (test_case_of x) (method_of x)
        = Some (SkipWrapper "unsupported by Spanner" m)
        /\ call_method (SkipWrapper "unsupported by Spanner" m)
           = SkipTest "unsupported by Spanner").
Proof.
  split; [|split].
  - intros Hout. split; [by apply mark_skip_disabled|].
    unfold state_after, mark_skips, bind, get.
    apply (for_each_mark_skip_frame_attr (skip_tests s) s _
             (fst (for_each (skip_tests s) mark_skip s))).
    + by destruct (for_each (skip_tests s) mark_skip s).
    + intros y _ Hy Hdot [Hc Hm]. apply Hout.
      by rewrite (entry_determined x y Hdot).
  - intros m Hin Himport Hattr.
    assert (Hdot : is_Some (rsplit_dot (test_case_of x))).
    { unfold result_of, import_string, bind, get in Himport.
      destruct (rsplit_dot (test_case_of x)); [by eexists | done]. }
    unfold result_of, state_after. rewrite (mark_skip_enabled x s m) by done.
    split; [done|]. split; [|done]. cbn [snd].
    rewrite (attribute_registered _ _ _ _ _ _ _ Hattr). by rewrite decide_True.
  - intros Hx Hin Hret. pose proof (run_pair mark_skips s) as Hrun.
    rewrite Hret in Hrun. unfold mark_skips at 1, bind, get in Hrun.
    destruct (for_each_mark_skip_registers _ _ _ x Hrun Hx Hin)
      as (_ & m0 & m1 & _ & H1 & _).
    by exists m1.
Qed.

(** C7 (amended). When [mark_skips] has returned, a second invocation
    returns as well and wraps every registered method again: after two
    invocations the class attribute sits under strictly more skip
    wrappers than after one, so it is not the attribute a single
    invocation leaves.  What does not change is the behaviour of every
    attribute when invoked: a method registered once or twice reports the
    skip (unsupported by Spanner). *)
Theorem C7_second_registration_wraps_again (s : State) :
  let s1 := state_after mark_skips s in
  let s2 := state_after (mark_skips ;; mark_skips) s in
  result_of mark_skips s = Ret tt ->
  result_of (mark_skips ;; mark_skips) s = Ret tt
  /\ (forall c mn,
        call_method <$> attribute s2 c mn = call_method <$> attribute s1 c mn)
  /\ (forall x, x ∈ skip_tests s -> app_of x ∈ INSTALLED_APPS s ->
        exists m1 m2,
          attribute s1 (test_case_of x) (method_of x) = Some m1
          /\ attribute s2 (test_case_of x) (method_of x) = Some m2
          /\ (wrap_depth m1 < wrap_depth m2)%nat
          /\ call_method m1 = SkipTest "unsupported by Spanner"
          /\ call_method m2 = SkipTest "unsupported by Spanner").
Proof.
  intros s1 s2 Hret. pose proof (run_pair mark_skips s) as Hrun.
  rewrite Hret in Hrun. fold s1 in Hrun.
  destruct (mark_skips_twice s s1 Hrun) as (Htwice & Hskips & Happs).
  assert (Hloop1 : for_each (skip_tests s) mark_skip s = (Ret tt, s1)) by exact Hrun.
  assert (Hfirst : forall y, y ∈ skip_tests s -> app_of y ∈ INSTALLED_APPS s ->
            is_Some (rsplit_dot (test_case_of y))
            /\ exists m, attribute s1 (test_case_of y) (method_of y)
                         = Some (SkipWrapper "unsupported by Spanner" m)).
  { intros y Hy Hin.
    destruct (for_each_mark_skip_registers _ _ _ y Hloop1 Hy Hin)
      as (Hdot & m0 & m1 & _ & H1 & _). eauto. }
  destruct (for_each_mark_skip_completes (skip_tests s) s1) as [s2' Hloop2].
  { intros y Hy Hin. rewrite Happs in Hin.
    destruct (Hfirst y Hy Hin) as [Hdot [m Hm]]. split; [done|]. by eexists. }
  assert (Hrun2 : (mark_skips ;; mark_skips) s = (Ret tt, s2')).
  { rewrite Htwice. unfold mark_skips, bind, get. by rewrite Hskips. }
  assert (s2 = s2') as -> by (unfold s2, state_after; by rewrite Hrun2).
  split; [unfold result_of; by rewrite Hrun2|].
  split.
  - apply (for_each_mark_skip_behaviour _ _ _ _ Hloop2).
    intros y m Hy Hin Hattr. rewrite Happs in Hin.
    destruct (Hfirst y Hy Hin) as [_ [m0 Hm0]].
    exists m0. congruence.
  - intros x Hx Hin.
    assert (Hin1 : app_of x ∈ INSTALLED_APPS s1) by (by rewrite Happs).
    destruct (for_each_mark_skip_registers _ _ _ x Hloop2 Hx Hin1)
      as (_ & m0 & m1 & H0 & H1 & Hlt).
    exists m0, (SkipWrapper "unsupported by Spanner" m1).
    split; [done|]. split; [done|]. split; [done|]. split; [|done].
    destruct (Hfirst x Hx Hin) as [_ [m Hm]].
    assert (m0 = SkipWrapper "unsupported by Spanner" m) as -> by congruence.
    done.
Qed.

End MarkSkips.

Lemma C9_witness :
  (app_of "admin_views.tests.AdminViewBasicTest.test_date_hierarchy"
     ∉ INSTALLED_APPS sample_state)
  /\ mark_skip "admin_views.tests.AdminViewBasicTest.test_date_hierarchy" sample_state
     = (Ret tt, sample_state)
  /\ "queries.tests.Queries1Tests.test_ticket9411" ∈ skip_tests sample_state
  /\ (app_of "queries.tests.Queries1Tests.test_ticket9411"
        ∈ INSTALLED_APPS sample_state)
  /\ attribute
       (state_after (mark_skip "queries.tests.Queries1Tests.test_ticket9411")
          sample_state)
       "queries.tests.Queries1Tests" "test_ticket9411"
     = Some (SkipWrapper "unsupported by Spanner" (Original "test_ticket9411"))
  /\ exists m,
       attribute (state_after mark_skips sample_state)
         "queries.tests.Queries1Tests" "test_ticket9411"
       = Some (SkipWrapper "unsupported by Spanner" m).
Proof.
  assert (Hout : app_of "admin_views.tests.AdminViewBasicTest.test_date_hierarchy"
                   ∉ INSTALLED_APPS sample_state)
    by (eapply bool_decide_unpack; vm_compute; exact I).
  assert (Hin : app_of "queries.tests.Queries1Tests.test_ticket9411"
                  ∈ INSTALLED_APPS sample_state)
    by (eapply bool_decide_unpack; vm_compute; exact I).
  assert (Hx : "queries.tests.Queries1Tests.test_ticket9411" ∈ skip_tests sample_state)
    by (eapply bool_decide_unpack; vm_compute; exact I).
  destruct (C9_registration_follows_installed_apps sample_state
              "admin_views.tests.AdminViewBasicTest.test_date_hierarchy")
    as (Hdisabled & _ & _).
  destruct (C9_registration_follows_installed_apps sample_state
              "queries.tests.Queries1Tests.test_ticket9411")
    as (_ & Henabled & Hloop).
  split; [exact Hout|]. split; [exact (proj1 (Hdisabled Hout))|].
  split; [exact Hx|]. split; [exact Hin|].
  split.
  - destruct (Henabled (Original "test_ticket9411")) as (_ & Hattr & _);
      [exact Hin | vm_compute; reflexivity | vm_compute; reflexivity |].
    exact Hattr.
  - destruct Hloop as (m & Hm & _);
      [exact Hx | exact Hin | vm_compute; reflexivity |].
    exists m. exact Hm.
Defined.

Lemma C7_witness :
  result_of mark_skips sample_state = Ret tt
  /\ result_of (mark_skips ;; mark_skips) sample_state = Ret tt.
Proof.
  split; [vm_compute; reflexivity|].
  apply (C7_second_registration_wraps_again sample_state).
  vm_compute. reflexivity.
Defined.

(** C7 as stated fails: after a second [mark_skips] the method is wrapped
    twice, and the class attribute differs from the one a single
    invocation leaves. *)
Lemma C7_counterexample :
  attribute (state_after mark_skips sample_state)
    (test_case_of "queries.tests.Queries1Tests.test_ticket9411")
    (method_of "queries.tests.Queries1Tests.test_ticket9411")
  = Some (SkipWrapper "unsupported by Spanner" (Original "test_ticket9411"))
  /\ attribute (state_after (mark_skips ;; mark_skips) sample_state)
       (test_case_of "queries.tests.Queries1Tests.test_ticket9411")
       (method_of "queries.tests.Queries1Tests.test_ticket9411")
     = Some (SkipWrapper "unsupported by Spanner"
               (SkipWrapper "unsupported by Spanner" (Original "test_ticket9411")))
  /\ attribute (state_after (mark_skips ;; mark_skips) sample_state)
       (test_case_of "queries.tests.Queries1Tests.test_ticket9411")
       (method_of "queries.tests.Queries1Tests.test_ticket9411")
     <> attribute (state_after mark_skips sample_state)
          (test_case_of "queries.tests.Queries1Tests.test_ticket9411")
          (method_of "queries.tests.Queries1Tests.test_ticket9411").
Proof.
  assert (H1 :
    attribute (state_after mark_skips sample_state)
      (test_case_of "queries.tests.Queries1Tests.test_ticket9411")
      (method_of "queries.tests.Queries1Tests.test_ticket9411")
    = Some (SkipWrapper "unsupported by Spanner" (Original "test_ticket9411")))
    by (vm_compute; reflexivity).
  assert (H2 :
    attribute (state_after (mark_skips ;; mark_skips) sample_state)
      (test_case_of "queries.tests.Queries1Tests.test_ticket9411")
      (method_of "queries.tests.Queries1Tests.test_ticket9411")
    = Some (SkipWrapper "unsupported by Spanner"
              (SkipWrapper "unsupported by Spanner" (Original "test_ticket9411"))))
    by (vm_compute; reflexivity).
  split; [exact H1|]. split; [exact H2|].
  rewrite H1, H2. discriminate.
Qed.

(** * Further properties of the module *)

(** ** Exit codes, and what a run leaves alone *)

Section Composition.

Context {A B : Type}.

Lemma exits_within_ret (P : Z -> Prop) (a : A) : exits_within P (ret a).
Proof. intros s c H. discriminate H. Qed.

Lemma exits_within_raise (P : Z -> Prop) (e : exn) : exits_within P (@raise A e).
Proof. intros s c H. discriminate H. Qed.

Lemma exits_within_exit (P : Z -> Prop) (c : Z) : P c -> exits_within P (@sys_exit A c).
Proof. intros Hc s c' H. by injection H as <-. Qed.

Lemma exits_within_emit (P : Z -> Prop) (e : event) : exits_within P (emit e).
Proof. intros s c H. discriminate H. Qed.

Lemma exits_within_update (P : Z -> Prop) (f : State -> State) (e : event) :
  exits_within P (update f e).
Proof. intros s c H. discriminate H. Qed.

Lemma exits_within_of_result (P : Z -> Prop) (r : option exn) :
  exits_within P (of_result r).
Proof. intros s c H. destruct r; discriminate H. Qed.

Lemma exits_within_bind (P : Z -> Prop) (m : M A) (k : A -> M B) :
  exits_within P m -> (forall a, exits_within P (k a)) ->
  exits_within P (bind m k).
Proof.
  intros Hm Hk s c. unfold bind. specialize (Hm s).
  destruct (m s) as [[a|e|c'] s1]; simpl in *.
  - apply Hk.
  - discriminate.
  - intros H. apply Hm. by injection H as ->.
Qed.

Lemma exits_within_bind_ret (P : Z -> Prop) (a : A) (k : A -> M B) :
  exits_within P (k a) -> exits_within P (bind (ret a) k).
Proof. intros Hk s c. unfold bind, ret. apply Hk. Qed.

Lemma exits_within_get (P : Z -> Prop) (k : State -> M B) :
  (forall s, exits_within P (k s)) -> exits_within P (bind get k).
Proof. intros Hk s c. unfold bind, get. apply Hk. Qed.

Lemma exits_within_try_except (P : Z -> Prop) (body : M A) (handler : exn -> M A) :
  exits_within P body -> (forall e, exits_within P (handler e)) ->
  exits_within P (try_except body handler).
Proof.
  intros Hm Hh s c. unfold try_except. specialize (Hm s).
  destruct (body s) as [[a|e|c'] s1]; simpl in *.
  - discriminate.
  - apply Hh.
  - exact (Hm c).
Qed.

Lemma keeps_ret {X : Type} (f : State -> X) (a : A) : keeps f (ret a).
Proof. by intros s. Qed.

Lemma keeps_raise {X : Type} (f : State -> X) (e : exn) : keeps f (@raise A e).
Proof. by intros s. Qed.

Lemma keeps_exit {X : Type} (f : State -> X) (c : Z) : keeps f (@sys_exit A c).
Proof. by intros s. Qed.

Lemma keeps_of_result {X : Type} (f : State -> X) (r : option exn) :
  keeps f (of_result r).
Proof. intros s. by destruct r. Qed.

Lemma keeps_update {X : Type} (f : State -> X) (g : State -> State) (e : event) :
  (forall s tr, f (with_trace (g s) tr) = f s) -> keeps f (update g e).
Proof. intros Hf s. apply Hf. Qed.

Lemma keeps_emit {X : Type} (f : State -> X) (e : event) :
  (forall s tr, f (with_trace s tr) = f s) -> keeps f (emit e).
Proof. intros Hf s. apply Hf. Qed.

Lemma keeps_bind {X : Type} (f : State -> X) (m : M A) (k : A -> M B) :
  keeps f m -> (forall a, keeps f (k a)) -> keeps f (bind m k).
Proof.
  intros Hm Hk s. unfold bind. specialize (Hm s).
  destruct (m s) as [[a|e|c] s1]; simpl in *; [|done..].
  by rewrite Hk.
Qed.

Lemma keeps_get {X : Type} (f : State -> X) (k : State -> M B) :
  (forall s, keeps f (k s)) -> keeps f (bind get k).
Proof. intros Hk s. unfold bind, get. apply Hk. Qed.

Lemma keeps_try_except {X : Type} (f : State -> X) (body : M A)
    (handler : exn -> M A) :
  keeps f body -> (forall e, keeps f (handler e)) ->
  keeps f (try_except body handler).
Proof.
  intros Hm Hh s. unfold try_except. specialize (Hm s).
  destruct (body s) as [[a|e|c] s1]; simpl in *; [done| |done].
  by rewrite Hh.
Qed.

End Composition.

Lemma exits_within_for_each {A : Type} (P : Z -> Prop) (l : list A) (body : A -> M unit) :
  (forall x, exits_within P (body x)) -> exits_within P (for_each l body).
Proof.
  intros Hbody. induction l as [|x l IH]; cbn [for_each].
  - intros s c H. discriminate H.
  - apply exits_within_bind; [apply Hbody | intros _; exact IH].
Qed.

Lemma keeps_for_each {A X : Type} (f : State -> X) (l : list A) (body : A -> M unit) :
  (forall x, keeps f (body x)) -> keeps f (for_each l body).
Proof.
  intros Hbody. induction l as [|x l IH]; cbn [for_each].
  - by intros s.
  - apply keeps_bind; [apply Hbody | intros _; exact IH].
Qed.


Ltac exits_step :=
  lazymatch goal with
  | |- exits_within _ (ret _) => apply exits_within_ret
  | |- exits_within _ (raise _) => apply exits_within_raise
  | |- exits_within _ (sys_exit _) => apply exits_within_exit
  | |- exits_within _ (of_result _) => apply exits_within_of_result
  | |- exits_within _ (emit _) => apply exits_within_emit
  | |- exits_within _ (update _ _) => apply exits_within_update
  | |- exits_within _ (bind get _) => apply exits_within_get; intros ?
  | |- exits_within _ (bind (ret _) _) => apply exits_within_bind_ret; cbv beta iota
  | |- exits_within _ (bind _ _) => apply exits_within_bind; [|intros ?]
  | |- exits_within _ (try_except _ _) => apply exits_within_try_except; [|intros ?]
  | |- exits_within _ (for_each _ _) => apply exits_within_for_each; intros ?
  | |- exits_within _ (if negb true then _ else _) => cbn [negb]; cbv iota
  | |- exits_within _ (if true then _ else _) => cbv iota
  | |- exits_within _ (if ?b then _ else _) => destruct b
  | |- exits_within _ (match ?x with _ => _ end) => destruct x
  end.

Ltac exits := repeat exits_step.

Ltac keeps_step :=
  lazymatch goal with
  | |- keeps _ (ret _) => apply keeps_ret
  | |- keeps _ (raise _) => apply keeps_raise
  | |- keeps _ (sys_exit _) => apply keeps_exit
  | |- keeps _ (of_result _) => apply keeps_of_result
  | |- keeps _ (emit _) => apply keeps_emit; intros ? ?; reflexivity
  | |- keeps _ (update _ _) => apply keeps_update; intros ? ?; reflexivity
  | |- keeps _ (bind get _) => apply keeps_get; intros ?
  | |- keeps _ (bind _ _) => apply keeps_bind; [|intros ?]
  | |- keeps _ (try_except _ _) => apply keeps_try_except; [|intros ?]
  | |- keeps _ (for_each _ _) => apply keeps_for_each; intros ?
  | |- keeps _ (if ?b then _ else _) => destruct b
  | |- keeps _ (match ?x with _ => _ end) => destruct x
  end.

Ltac keeps_all := repeat keeps_step.

Section Exits.

Variable w : World.
Variable gname : gmap string string -> string.
Variable disp : string -> Z -> string -> string.

Lemma _create_test_db_exits (P : Z -> Prop) (v : Z) (ac kd : bool) :
  (kd = false -> P 2) -> (kd = false -> ac = false -> P 1) ->
  exits_within P (_create_test_db w gname disp v ac kd).
Proof.
  intros H2 H1.
  unfold _create_test_db, _execute_create_test_db, create_failed,
    ask_confirm, disposition, clobber, _destroy_test_db,
    _execute_create_test_db, input, log.
  destruct kd, ac; cbn [negb]; cbv beta iota; exits; auto.
Qed.

Lemma mark_skips_exits (P : Z -> Prop) : exits_within P mark_skips.
Proof.
  unfold mark_skips, mark_skip, import_string, getattr, setattr. exits.
Qed.

Lemma create_test_db_exits (P : Z -> Prop) (v : Z) (ac ser kd : bool) :
  exits_within P (_create_test_db w gname disp v ac kd) ->
  exits_within P (create_test_db w gname disp v ac ser kd).
Proof.
  intros Hcreate.
  unfold create_test_db, announce, connection_close, set_DATABASES_NAME,
    set_settings_dict_NAME, serialize_db_to_string,
    set_test_serialized_contents, call_command, ensure_connection, log.
  exits; first [apply mark_skips_exits | exact Hcreate].
Qed.

(** X1. [create_test_db] ends the process only with code 1 or 2, never
    when [keepdb] is true, only with code 2 when [autoclobber] is true. *)
Theorem X1_exit_codes (v : Z) (ac ser kd : bool) (s : State) (c : Z) :
  result_of (create_test_db w gname disp v ac ser kd) s = Exit c ->
  (c = 1 \/ c = 2) /\ kd = false /\ (ac = true -> c = 2).
Proof.
  intros Hexit.
  apply (create_test_db_exits
           (fun c => (c = 1 \/ c = 2) /\ kd = false /\ (ac = true -> c = 2))
           v ac ser kd) with (s := s); [|exact Hexit].
  apply _create_test_db_exits.
  - intros ->. auto.
  - intros -> ->. split; [auto|]. split; [done|]. discriminate.
Qed.

End Exits.

Lemma X1_witness :
  result_of (create_test_db (spanner true "no") django_test_db_name
               django_display_str 1 false true false) sample_state
  = Exit 1
  /\ (1 = 1 \/ 1 = 2).
Proof.
  split; [vm_compute; reflexivity|].
  apply (X1_exit_codes (spanner true "no") django_test_db_name
           django_display_str 1 false true false sample_state 1).
  vm_compute. reflexivity.
Defined.

(** ** Where [create_test_db] can stop *)

Section Stops.

Variable w : World.
Variable gname : gmap string string -> string.
Variable disp : string -> Z -> string -> string.

Lemma bind_Exit_inv {A B : Type} (m : M A) (k : A -> M B) (s s' : State) (c : Z) :
  bind m k s = (Exit c, s') ->
  m s = (Exit c, s') \/ exists a s1, m s = (Ret a, s1) /\ k a s1 = (Exit c, s').
Proof.
  unfold bind. destruct (m s) as [[a|e|c'] s1]; intros H.
  - right. by exists a, s1.
  - discriminate H.
  - left. by injection H as -> ->.
Qed.

(** What follows [_create_test_db] in [create_test_db] never ends the
    process. *)
Lemma finishing_never_exits (n : string) (ser : bool) :
  exits_within (fun _ => False)
    (connection_close w ;;
     set_DATABASES_NAME n ;;
     set_settings_dict_NAME n ;;
     (if ser then
        contents <- serialize_db_to_string w ;;
        set_test_serialized_contents contents
      else ret tt) ;;
     s <- get ;;
     call_command w "createcachetable" (alias s) ;;
     ensure_connection w ;;
     ret n).
Proof.
  unfold connection_close, set_DATABASES_NAME, set_settings_dict_NAME,
    serialize_db_to_string, set_test_serialized_contents, call_command,
    ensure_connection.
  exits.
Qed.

(** A run of [create_test_db] that ends the process does so inside
    [_create_test_db]. *)
Lemma create_test_db_exit_run (v : Z) (ac ser kd : bool) (s s' : State) (c : Z) :
  create_test_db w gname disp v ac ser kd s = (Exit c, s') ->
  let n := gname (settings_dict s) in
  exists tc ev_skips ev_create,
    Forall (fun e => is_setattr e = true) ev_skips
    /\ (environ s !! "RUNNING_SPANNER_BACKEND_TESTS" <> Some "1" ->
        tc = test_cases s /\ ev_skips = [])
    /\ create_path w disp v ac kd (alias s) n
         (trace s ++ ev_skips ++ announce_events disp v kd (alias s) n)
         (Exit c) ev_create
    /\ s' = with_trace (with_test_cases s tc)
              (trace s ++ ev_skips ++ announce_events disp v kd (alias s) n
                 ++ ev_create).
Proof.
  intros H n. unfold create_test_db in H.
  apply bind_Exit_inv in H as [H|(s0 & sa & Hget & H)]; [discriminate H|].
  apply get_Ret in Hget as [-> ->].
  apply bind_Exit_inv in H as [H|(u1 & s1 & Hskips & H)].
  { exfalso. destruct (decide _); [|discriminate H].
    apply (f_equal fst) in H.
    by apply (mark_skips_exits (fun _ => False) s c) in H. }
  pose proof Hskips as Hphase.
  apply skip_phase_Ret in Hskips as (ev_skips & Hs1 & Hall & Hflag).
  apply bind_Exit_inv in H as [H|(s0 & sa & Hget & H)]; [discriminate H|].
  apply get_Ret in Hget as [-> ->].
  assert (Hsd : settings_dict s1 = settings_dict s) by (by rewrite Hs1).
  assert (Hal : alias s1 = alias s) by (by rewrite Hs1).
  assert (Htr : trace s1 = (trace s ++ ev_skips)%list) by (by rewrite Hs1).
  rewrite Hsd in H. fold n in H.
  apply bind_Exit_inv in H as [H|(u2 & s2 & Hann & H)];
    [rewrite run_announce in H; discriminate H|].
  rewrite run_announce in Hann. inversion Hann; subst s2; clear Hann.
  rewrite Hal in H.
  destruct (_create_test_db_run w gname disp v ac kd
              (with_trace s1 (trace s1 ++ announce_events disp v kd (alias s) n)))
    as (out & ev_create & Hrun & Hpath).
  cbn [settings_dict alias trace with_trace] in Hpath, Hrun.
  rewrite Hsd, Hal in Hpath. fold n in Hpath.
  apply bind_Exit_inv in H as [H|(n' & s3 & Hcreate & H)].
  2:{ exfalso.
      apply (f_equal fst) in H.
      by apply (finishing_never_exits n ser s3 c) in H. }
  rewrite Hrun in H. inversion H; subst out s'; clear H.
  exists (test_cases s1), ev_skips, ev_create.
  split; [done|]. split.
  { intros Hoff. destruct (decide _) as [Hon|_]; [done|]. subst s1.
    split; [done|].
    apply (f_equal trace) in Hs1. cbn [trace with_trace] in Hs1.
    rewrite <- (app_nil_r (trace s)) in Hs1 at 1.
    by apply app_inv_head in Hs1. }
  split; [rewrite app_assoc, <- Htr; exact Hpath|].
  change (with_trace s1
            ((trace s1 ++ announce_events disp v kd (alias s) n) ++ ev_create)
          = with_trace (with_test_cases s (test_cases s1))
              (trace s ++ ev_skips ++ announce_events disp v kd (alias s) n
                 ++ ev_create)).
  rewrite Htr, <- !app_assoc. rewrite Hs1 at 1. reflexivity.
Qed.

Lemma creation_path_events (v : Z) (ac kd : bool) (al n : string)
    (tr : list event) (out : outcome string) (evs : list event) :
  create_path w disp v ac kd al n tr out evs ->
  Forall (fun e => is_creation e = true) evs.
Proof.
  assert (Hlog : Forall (fun e => is_creation e = true) (destroying_log disp v al n)).
  { unfold destroying_log. destruct (v >=? 1); by repeat constructor. }
  intros Hpath. destruct Hpath; unfold confirmed, conflict;
    repeat (apply Forall_app; split); try done;
    try (destruct ac); by repeat constructor.
Qed.

(** X2. When [create_test_db] ends the process, the settings and the
    connection are as the call found them: neither [NAME] was assigned,
    no snapshot was stored, and the run consists of skip registrations, log
    lines, service calls and the prompt only (the connection was not
    closed, nothing was serialized, no command was run). *)
Theorem X2_exit_changes_no_setting (v : Z) (ac ser kd : bool) (s : State) (c : Z) :
  let run := create_test_db w gname disp v ac ser kd in
  result_of run s = Exit c ->
  DATABASES (state_after run s) = DATABASES s
  /\ settings_dict (state_after run s) = settings_dict s
  /\ _test_serialized_contents (state_after run s) = _test_serialized_contents s
  /\ Forall (fun e => is_setattr e || is_creation e = true) (events_of run s).
Proof.
  intros run Hexit. pose proof (run_pair run s) as Hrun. rewrite Hexit in Hrun.
  apply create_test_db_exit_run in Hrun
    as (tc & ev_skips & ev_create & Hskips & _ & Hpath & Hs').
  unfold events_of. fold (state_after run s). rewrite Hs'.
  split; [done|]. split; [done|]. split; [done|].
  cbn [trace with_trace]. rewrite drop_app_length.
  apply creation_path_events in Hpath.
  repeat (apply Forall_app; split).
  - eapply Forall_impl; [exact Hskips|]. by intros e ->.
  - unfold announce_events. destruct (v >=? 1); by repeat constructor.
  - eapply Forall_impl; [exact Hpath|]. intros e ->. by rewrite orb_true_r.
Qed.

(** X3. Every fatal path is reported before the process ends: when
    [create_test_db] exits, the last event of the run is a log line.  With
    code 1 it is the cancellation notice, right after a prompt answered
    with something other than [yes], and nothing was dropped.  With code 2
    it is the message of the error that the drop, or the second creation
    after a successful drop, has just raised. *)
Theorem X3_exit_is_reported (v : Z) (ac ser kd : bool) (s : State) (c : Z) :
  let run := create_test_db w gname disp v ac ser kd in
  let n := gname (settings_dict s) in
  result_of run s = Exit c ->
  (c = 1
   /\ (exists pre answer,
         events_of run s
         = (pre ++ [EvInput (clobber_prompt n) answer; EvLog "Tests cancelled."])%list
         /\ answer <> "yes")
   /\ count is_drop (events_of run s) = 0%nat)
  \/ (c = 2
      /\ exists pre e,
           events_of run s
           = (pre ++ [EvDrop n (Some e);
                      EvLog ("Got an error recreating the test database: "
                             ++ exn_str e)])%list
           \/ events_of run s
              = (pre ++ [EvDrop n None; EvCreate n (Some e);
                         EvLog ("Got an error recreating the test database: "
                                ++ exn_str e)])%list).
Proof.
  intros run n Hexit. pose proof (run_pair run s) as Hrun. rewrite Hexit in Hrun.
  apply create_test_db_exit_run in Hrun
    as (tc & ev_skips & ev_create & Hskips & _ & Hpath & Hs').
  fold n in Hpath, Hs'.
  unfold events_of. fold (state_after run s). rewrite Hs'.
  cbn [trace with_trace]. rewrite drop_app_length.
  remember (Exit c) as out eqn:Hout.
  destruct Hpath as
    [ Hc
    | e' Hc Hkd
    | e' answer Hc Hkd Hac Hans Hno
    | e' ed Hc Hkd Haff Hd
    | e' ec Hc Hkd Haff Hd Hc2
    | e' Hc Hkd Haff Hd Hc2 ];
    try discriminate Hout; injection Hout as <-.
  - left. split; [done|]. split.
    + exists (ev_skips ++ announce_events disp v kd (alias s) n ++ conflict n e')%list,
        answer.
      split; [by rewrite <- !app_assoc|done].
    + rewrite !count_app, (count_skips is_drop ev_skips), count_announce by done.
      reflexivity.
  - right. split; [done|].
    exists (ev_skips ++ announce_events disp v kd (alias s) n
              ++ confirmed disp v ac (alias s) n e')%list, ed.
    left. by rewrite <- !app_assoc.
  - right. split; [done|].
    exists (ev_skips ++ announce_events disp v kd (alias s) n
              ++ confirmed disp v ac (alias s) n e')%list, ec.
    right. by rewrite <- !app_assoc.
Qed.

End Stops.

Lemma X2_witness :
  result_of (create_test_db (spanner true "no") django_test_db_name
               django_display_str 1 false true false) sample_state
  = Exit 1
  /\ settings_dict
       (state_after (create_test_db (spanner true "no") django_test_db_name
                       django_display_str 1 false true false) sample_state)
     = settings_dict sample_state.
Proof.
  split; [vm_compute; reflexivity|].
  apply (X2_exit_changes_no_setting (spanner true "no") django_test_db_name
           django_display_str 1 false true false sample_state 1).
  vm_compute. reflexivity.
Defined.

Lemma X3_witness :
  result_of (create_test_db (spanner true "no") django_test_db_name
               django_display_str 1 false true false) sample_state
  = Exit 1
  /\ exists pre answer,
       events_of (create_test_db (spanner true "no") django_test_db_name
                    django_display_str 1 false true false) sample_state
       = (pre ++ [EvInput (clobber_prompt "test_db") answer;
                  EvLog "Tests cancelled."])%list
       /\ answer <> "yes".
Proof.
  split; [vm_compute; reflexivity|].
  destruct (X3_exit_is_reported (spanner true "no") django_test_db_name
              django_display_str 1 false true false sample_state 1)
    as [(_ & Hcancel & _)|[Htwo _]].
  - vm_compute. reflexivity.
  - exact Hcancel.
  - discriminate Htwo.
Defined.

(** ** How often the service and the console are called *)

Section Bounds.

Variable w : World.
Variable gname : gmap string string -> string.
Variable disp : string -> Z -> string -> string.

Lemma emits_at_most_before {A B : Type} (p : event -> bool) (k : nat)
    (m : M A) (f : A -> M B) :
  never p m -> (forall a, emits_at_most p k (f a)) ->
  emits_at_most p k (bind m f).
Proof.
  intros Hm Hf s. unfold bind. destruct (Hm s) as (evs & Htr & Hall).
  assert (Hzero : count p evs = 0%nat).
  { clear Htr. unfold count. induction Hall as [|e evs He _ IH]; simpl; [done|].
    by rewrite He. }
  destruct (m s) as [[a|e|c] s1]; simpl in Htr.
  - destruct (Hf a s1) as (evs' & Htr' & Hle). exists (evs ++ evs')%list.
    rewrite Htr', Htr, <- app_assoc, count_app. split; [done|]. lia.
  - exists evs. split; [done|]. lia.
  - exists evs. split; [done|]. lia.
Qed.

Lemma emits_at_most_after {A B : Type} (p : event -> bool) (k : nat)
    (m : M A) (f : A -> M B) :
  emits_at_most p k m -> (forall a, never p (f a)) ->
  emits_at_most p k (bind m f).
Proof.
  intros Hm Hf s. unfold bind. destruct (Hm s) as (evs & Htr & Hle).
  destruct (m s) as [[a|e|c] s1]; simpl in Htr.
  - destruct (Hf a s1) as (evs' & Htr' & Hall). exists (evs ++ evs')%list.
    assert (Hzero : count p evs' = 0%nat).
    { clear Htr'. unfold count.
      induction Hall as [|e evs' He _ IH]; simpl; [done|]. by rewrite He. }
    rewrite Htr', Htr, <- app_assoc, count_app. split; [done|]. lia.
  - by exists evs.
  - by exists evs.
Qed.

Lemma emits_at_most_get {B : Type} (p : event -> bool) (k : nat)
    (f : State -> M B) :
  (forall s, emits_at_most p k (f s)) -> emits_at_most p k (bind get f).
Proof. intros Hf s. unfold bind, get. apply Hf. Qed.

Lemma create_path_counts (v : Z) (ac kd : bool) (al n : string)
    (tr : list event) (out : outcome string) (evs : list event) :
  create_path w disp v ac kd al n tr out evs ->
  (count is_create evs <= 2)%nat
  /\ (count is_drop evs <= 1)%nat
  /\ (count is_input evs <= 1)%nat.
Proof.
  intros Hpath.
  destruct Hpath; rewrite ?count_confirmed by done;
    unfold count, conflict; try destruct ac; simpl; lia.
Qed.

Lemma _create_test_db_at_most (p : event -> bool) (k : nat) (v : Z) (ac kd : bool) :
  (forall al n tr out evs,
      create_path w disp v ac kd al n tr out evs -> (count p evs <= k)%nat) ->
  emits_at_most p k (_create_test_db w gname disp v ac kd).
Proof.
  intros Hk s.
  destruct (_create_test_db_run w gname disp v ac kd s) as (out & evs & Hrun & Hpath).
  exists evs. rewrite Hrun. split; [done|]. by eapply Hk.
Qed.

Lemma create_test_db_at_most (p : event -> bool) (k : nat)
    (v : Z) (ac ser kd : bool) :
  (forall msg, p (EvLog msg) = false) ->
  (forall c m x, p (EvSetattr c m x) = false) ->
  (forall r, p (EvClose r) = false) ->
  (forall a n, p (EvSetDatabasesName a n) = false) ->
  (forall n, p (EvSetSettingsDictName n) = false) ->
  (forall r, p (EvSerialize r) = false) ->
  (forall c, p (EvSetSerializedContents c) = false) ->
  (forall c d r, p (EvCallCommand c d r) = false) ->
  (forall r, p (EvEnsureConnection r) = false) ->
  emits_at_most p k (_create_test_db w gname disp v ac kd) ->
  emits_at_most p k (create_test_db w gname disp v ac ser kd).
Proof.
  intros Hlog Hattr Hclose Hdb Hsd Hser Hset Hcmd Hens Hcreate.
  unfold create_test_db.
  apply emits_at_most_get. intros s0. apply emits_at_most_before.
  { destruct (decide _); [by apply mark_skips_never | apply emits_only_ret]. }
  intros _. apply emits_at_most_get. intros s1. apply emits_at_most_before.
  { unfold never, announce, log. emits; apply emits_only_emit; auto. }
  intros _. apply emits_at_most_after; [exact Hcreate|].
  intros _.
  unfold never, connection_close, set_DATABASES_NAME, set_settings_dict_NAME,
    serialize_db_to_string, set_test_serialized_contents, call_command,
    ensure_connection.
  emits;
    first [ apply emits_only_emit; auto
          | apply emits_only_update; [done | auto] ].
Qed.

(** X4. Whatever the options, the service and the console, one call of
    [create_test_db] requests at most two creations and one drop, and
    prompts at most once: the destroy-and-recreate route is taken at most
    once and nothing is retried.  The same bounds hold for
    [_create_test_db] alone. *)
Theorem X4_calls_are_bounded (v : Z) (ac ser kd : bool) (s : State) :
  let run := create_test_db w gname disp v ac ser kd in
  let inner := _create_test_db w gname disp v ac kd in
  ((count is_create (events_of run s) <= 2)%nat
   /\ (count is_drop (events_of run s) <= 1)%nat
   /\ (count is_input (events_of run s) <= 1)%nat)
  /\ ((count is_create (events_of inner s) <= 2)%nat
      /\ (count is_drop (events_of inner s) <= 1)%nat
      /\ (count is_input (events_of inner s) <= 1)%nat).
Proof.
  intros run inner.
  assert (Hinner : forall p k,
            (forall al n tr out evs,
                create_path w disp v ac kd al n tr out evs -> (count p evs <= k)%nat) ->
            emits_at_most p k inner).
  { intros p k Hk. by apply _create_test_db_at_most. }
  assert (Hbound : forall (A : Type) (m : M A) p k,
            emits_at_most p k m -> (count p (events_of m s) <= k)%nat).
  { intros A m p k Hm. destruct (Hm s) as (evs & Htr & Hle).
    unfold events_of. by rewrite Htr, drop_app_length. }
  assert (Hc : emits_at_most is_create 2 inner)
    by (apply Hinner; intros; by eapply create_path_counts).
  assert (Hd : emits_at_most is_drop 1 inner)
    by (apply Hinner; intros; by eapply create_path_counts).
  assert (Hi : emits_at_most is_input 1 inner)
    by (apply Hinner; intros; by eapply create_path_counts).
  split; (split; [|split]); apply Hbound; try done;
    by apply create_test_db_at_most.
Qed.

End Bounds.

(** ** What a return, a success and a failed drop mean *)

Section Outcomes.

Variable w : World.
Variable gname : gmap string string -> string.
Variable disp : string -> Z -> string -> string.

(** The path [_create_test_db] took inside a run of [create_test_db] that
    returned. *)
Lemma returned_path (v : Z) (ac ser kd : bool) (s : State) (r : string) :
  let run := create_test_db w gname disp v ac ser kd in
  result_of run s = Ret r ->
  exists tr ev_skips ev_create contents,
    r = gname (settings_dict s)
    /\ create_path w disp v ac kd (alias s) r tr (Ret r) ev_create
    /\ Forall (fun e => is_setattr e = true) ev_skips
    /\ events_of run s
       = (ev_skips ++ announce_events disp v kd (alias s) r
            ++ ev_create ++ rename_events (alias s) r
            ++ snapshot_events ser contents ++ finishing_events (alias s))%list.
Proof.
  intros run Hret. pose proof (run_pair run s) as Hrun. rewrite Hret in Hrun.
  apply create_test_db_returns in Hrun
    as (s1 & ev_skips & ev_create & d & contents
        & -> & _ & Hs1 & Hskips & Hcreate & _ & Hfinal).
  set (n := gname (settings_dict s)) in *.
  assert (Hsd : settings_dict s1 = settings_dict s) by (by rewrite Hs1).
  assert (Hal : alias s1 = alias s) by (by rewrite Hs1).
  destruct (_create_test_db_run w gname disp v ac kd
              (with_trace s1 (trace s1 ++ announce_events disp v kd (alias s) n)))
    as (out & evs & Hrun & Hpath).
  cbn [settings_dict alias trace with_trace] in Hpath, Hrun.
  rewrite Hsd, Hal in Hpath. fold n in Hpath.
  rewrite Hcreate in Hrun. inversion Hrun as [[Hout Htr]].
  rewrite <- app_assoc in Htr. do 2 apply app_inv_head in Htr. subst evs out.
  exists (trace s1 ++ announce_events disp v kd (alias s) n)%list,
    ev_skips, ev_create, contents.
  split; [done|]. split; [done|]. split; [done|].
  unfold events_of. fold (state_after run s). rewrite Hfinal.
  cbn [trace with_trace]. apply drop_app_length.
Qed.

Lemma service_calls_app (l1 l2 : list event) :
  service_calls (l1 ++ l2) = (service_calls l1 ++ service_calls l2)%list.
Proof. unfold service_calls. apply List.filter_app. Qed.

Lemma service_calls_none (q : event -> bool) (evs : list event) :
  Forall (fun e => q e = true) evs ->
  (forall e, q e = true -> is_create e || is_drop e = false) ->
  service_calls evs = [].
Proof.
  intros Hall Hq. unfold service_calls.
  induction Hall as [|e evs He _ IH]; simpl; [done|]. by rewrite (Hq e He).
Qed.

(** X5. With [keepdb=False], [create_test_db] returns only after the
    service has created the test database in this very call: the last
    service call of the run is a creation of the returned name that
    succeeded.  (With [keepdb=True] it also returns after a creation that
    failed.) *)
Theorem X5_return_means_created (v : Z) (ac ser : bool) (s : State) (r : string) :
  let run := create_test_db w gname disp v ac ser false in
  result_of run s = Ret r ->
  exists calls, service_calls (events_of run s) = (calls ++ [EvCreate r None])%list.
Proof.
  intros run Hret.
  destruct (returned_path v ac ser false s r Hret)
    as (tr & ev_skips & ev_create & contents & _ & Hpath & Hskips & Hevs).
  unfold run. rewrite Hevs, !service_calls_app.
  rewrite (service_calls_none is_setattr ev_skips) by (done || by intros []).
  assert (Hann : service_calls (announce_events disp v false (alias s) r) = []).
  { unfold announce_events. by destruct (v >=? 1). }
  assert (Hsnap : service_calls (snapshot_events ser contents) = [])
    by (by destruct ser).
  rewrite Hann, Hsnap. cbn [app rename_events finishing_events service_calls
    List.filter is_create is_drop orb]. rewrite app_nil_r.
  remember (Ret r) as out eqn:Hout.
  destruct Hpath as
    [ Hc
    | e' Hc Hkd
    | e' answer Hc Hkd Hac Hans Hno
    | e' ed Hc Hkd Haff Hd
    | e' ec Hc Hkd Haff Hd Hc2
    | e' Hc Hkd Haff Hd Hc2 ];
    try discriminate.
  - by exists [].
  - rewrite service_calls_confirmed.
    by exists [EvCreate r (Some e'); EvDrop r None].
Qed.

(** X6. When the first creation succeeds, [_create_test_db] returns the
    name and that creation is all it did: whatever the verbosity,
    [autoclobber] and [keepdb], nothing is logged, nobody is prompted and
    nothing is dropped. *)
Theorem X6_success_is_silent (v : Z) (ac kd : bool) (s : State) :
  let n := gname (settings_dict s) in
  let run := _create_test_db w gname disp v ac kd in
  svc_create w (trace s) n = None ->
  result_of run s = Ret n
  /\ events_of run s = [EvCreate n None]
  /\ state_after run s = with_trace s (trace s ++ [EvCreate n None]).
Proof.
  intros n run Hok.
  destruct (_create_test_db_path w gname disp v ac kd s) as [Hpath Hst].
  fold n run in Hpath, Hst. rewrite Hst.
  remember (result_of run s) as out eqn:Hout.
  remember (events_of run s) as evs eqn:Hevs.
  destruct Hpath; try congruence. done.
Qed.

(** X7. A drop that fails is fatal as well: when the first creation
    fails and the drop of the old database raises, the process exits with
    code 2 without a second creation attempt, and the last event is the
    log line carrying the message of the drop's error. *)
Theorem X7_failed_drop_is_fatal (v : Z) (ac kd : bool) (s : State)
    (e ed : exn) (rest : list event) :
  let n := gname (settings_dict s) in
  let run := _create_test_db w gname disp v ac kd in
  service_calls (events_of run s)
  = ([EvCreate n (Some e); EvDrop n (Some ed)] ++ rest)%list ->
  result_of run s = Exit 2
  /\ rest = []
  /\ count is_create (events_of run s) = 1%nat
  /\ last (events_of run s)
     = Some (EvLog ("Got an error recreating the test database: " ++ exn_str ed)).
Proof.
  intros n run Hcalls.
  destruct (_create_test_db_path w gname disp v ac kd s) as [Hpath _].
  fold n run in Hpath.
  remember (result_of run s) as out eqn:Hout.
  remember (events_of run s) as evs eqn:Hevs.
  destruct Hpath as
    [ Hc
    | e' Hc Hkd
    | e' answer Hc Hkd Hac Hans Hno
    | e' ed' Hc Hkd Haff Hd
    | e' ec Hc Hkd Haff Hd Hc2
    | e' Hc Hkd Haff Hd Hc2 ];
    try (rewrite service_calls_confirmed in Hcalls);
    cbn in Hcalls;
    try discriminate Hcalls.
  injection Hcalls as -> -> <-.
  split; [done|]. split; [done|]. split.
  - rewrite count_confirmed by done. by destruct ac.
  - by rewrite last_app.
Qed.

End Outcomes.

Lemma X5_witness :
  result_of (create_test_db (spanner true "yes") django_test_db_name
               django_display_str 1 false true false) sample_state
  = Ret "test_db"
  /\ exists calls,
       service_calls
         (events_of (create_test_db (spanner true "yes") django_test_db_name
                       django_display_str 1 false true false) sample_state)
       = (calls ++ [EvCreate "test_db" None])%list.
Proof.
  split; [vm_compute; reflexivity|].
  apply (X5_return_means_created (spanner true "yes") django_test_db_name
           django_display_str 1 false true sample_state "test_db").
  vm_compute. reflexivity.
Defined.

Lemma X6_witness :
  svc_create (spanner false "") (trace sample_state)
    (django_test_db_name (settings_dict sample_state)) = None
  /\ events_of (_create_test_db (spanner false "") django_test_db_name
                  django_display_str 2 false false) sample_state
     = [EvCreate "test_db" None].
Proof.
  split; [vm_compute; reflexivity|].
  apply (X6_success_is_silent (spanner false "") django_test_db_name
           django_display_str 2 false false sample_state).
  vm_compute. reflexivity.
Defined.

Lemma X7_witness :
  service_calls
    (events_of (_create_test_db (locked "yes") django_test_db_name
                  django_display_str 1 false false) sample_state)
  = [EvCreate "test_db" (Some already_exists); EvDrop "test_db" (Some forbidden)]
  /\ result_of (_create_test_db (locked "yes") django_test_db_name
                  django_display_str 1 false false) sample_state
     = Exit 2.
Proof.
  split; [vm_compute; reflexivity|].
  apply (X7_failed_drop_is_fatal (locked "yes") django_test_db_name
           django_display_str 1 false false sample_state
           already_exists forbidden []).
  vm_compute. reflexivity.
Defined.

(** ** Exceptions that leave [create_test_db] *)

Section Raises.

Variable w : World.
Variable gname : gmap string string -> string.
Variable disp : string -> Z -> string -> string.

Lemma bind_Raise_inv {A B : Type} (m : M A) (k : A -> M B) (s s' : State) (e : exn) :
  bind m k s = (Raise e, s') ->
  m s = (Raise e, s') \/ exists a s1, m s = (Ret a, s1) /\ k a s1 = (Raise e, s').
Proof.
  unfold bind. destruct (m s) as [[a|e'|c] s1]; intros H.
  - right. by exists a, s1.
  - left. by injection H as -> ->.
  - discriminate H.
Qed.

(** The five places where the steps after [_create_test_db] can raise,
    with the state each leaves. *)
Lemma finishing_raise (n : string) (ser : bool) (s s' : State) (e : exn) :
  (connection_close w ;;
   set_DATABASES_NAME n ;;
   set_settings_dict_NAME n ;;
   (if ser then
      contents <- serialize_db_to_string w ;;
      set_test_serialized_contents contents
    else ret tt) ;;
   s0 <- get ;;
   call_command w "createcachetable" (alias s0) ;;
   ensure_connection w ;;
   ret n) s = (Raise e, s') ->
  s' = with_trace s (trace s ++ [EvClose (Some e)])
  \/ (DATABASES s !! alias s = None /\ e = Exn KeyError ("'" ++ alias s ++ "'")
      /\ s' = with_trace s (trace s ++ [EvClose None]))
  \/ exists d,
       DATABASES s !! alias s = Some d
       /\ ((ser = true
            /\ s' = with_trace (renamed s d n)
                      (trace s ++ rename_events (alias s) n
                         ++ [EvSerialize (inl e)]))
           \/ exists contents,
                s' = with_trace
                       (with_serialized (renamed s d n)
                          (if ser then Some contents
                           else _test_serialized_contents s))
                       (trace s ++ rename_events (alias s) n
                          ++ snapshot_events ser contents
                          ++ [EvCallCommand "createcachetable" (alias s) (Some e)])
                \/ s' = with_trace
                          (with_serialized (renamed s d n)
                             (if ser then Some contents
                              else _test_serialized_contents s))
                          (trace s ++ rename_events (alias s) n
                             ++ snapshot_events ser contents
                             ++ [EvCallCommand "createcachetable" (alias s) None;
                                 EvEnsureConnection (Some e)])).
Proof.
  intros H.
  apply bind_Raise_inv in H as [H|(u1 & s1 & Hclose & H)].
  { left. unfold connection_close, bind, get, emit in H. simpl in H.
    destruct (conn_close w (trace s)); simpl in H; inversion H. done. }
  apply connection_close_Ret in Hclose as ->. right.
  apply bind_Raise_inv in H as [H|(u2 & s2 & Hset & H)].
  { left. unfold set_DATABASES_NAME, bind, get in H.
    cbn [DATABASES alias with_trace] in H.
    destruct (DATABASES s !! alias s) as [d|]; [discriminate H|].
    unfold raise in H. by inversion H. }
  apply set_DATABASES_NAME_Ret in Hset as (d & Hd & ->).
  cbn [DATABASES alias trace with_trace with_DATABASES] in Hd, H.
  right. exists d. split; [done|].
  apply bind_Raise_inv in H as [H|(u3 & s3 & Hset & H)]; [discriminate H|].
  unfold set_settings_dict_NAME, update, emit in Hset.
  inversion Hset; subst s3; clear Hset.
  cbn [settings_dict trace with_trace with_DATABASES with_settings_dict] in H.
  apply bind_Raise_inv in H as [H|(u4 & s4 & Hser & H)].
  { left. destruct ser; [|discriminate H]. split; [done|].
    apply bind_Raise_inv in H as [H|(c & s4 & _ & H)]; [|discriminate H].
    unfold serialize_db_to_string, bind, get, emit in H. simpl in H.
    destruct (serializer w _); simpl in H; inversion H.
    unfold renamed, rename_events. cbn [trace with_trace].
    by rewrite <- !app_assoc. }
  right.
  assert (Hs4 : exists contents,
    s4 = with_trace
           (with_serialized (renamed s d n)
              (if ser then Some contents else _test_serialized_contents s))
           (trace s ++ rename_events (alias s) n ++ snapshot_events ser contents)).
  { destruct ser.
    - apply bind_Ret_inv in Hser as (contents & s5 & Hser & Hset).
      apply serialize_db_to_string_Ret in Hser as ->.
      unfold set_test_serialized_contents, update, emit in Hset.
      inversion Hset; subst s4; clear Hset. exists contents.
      unfold renamed, rename_events, snapshot_events.
      cbn [trace with_trace with_serialized]. by rewrite <- !app_assoc.
    - unfold ret in Hser. inversion Hser; subst s4; clear Hser. exists "".
      rewrite with_serialized_frame by done.
      unfold renamed, rename_events, snapshot_events.
      cbn [trace with_trace]. by rewrite <- !app_assoc. }
  destruct Hs4 as [contents ->]. exists contents.
  apply bind_Raise_inv in H as [H|(s0 & sa & Hget & H)]; [discriminate H|].
  apply get_Ret in Hget as [-> ->].
  cbn [alias with_trace with_serialized renamed with_settings_dict with_DATABASES] in H.
  apply bind_Raise_inv in H as [H|(u5 & s5 & Hcmd & H)].
  { left. unfold call_command, bind, get, emit in H. simpl in H.
    destruct (command_runner w _ _ _); simpl in H; inversion H.
    by rewrite <- !app_assoc. }
  right. apply call_command_Ret in Hcmd as ->.
  apply bind_Raise_inv in H as [H|(u6 & s6 & _ & H)]; [|discriminate H].
  unfold ensure_connection, bind, get, emit in H. simpl in H.
  destruct (conn_ensure w _); simpl in H; inversion H.
  by rewrite <- !app_assoc.
Qed.

(** On a console that delivers its line, a run of [create_test_db] that
    raises does so in the skip registration, or after [_create_test_db]
    has returned. *)
Lemma create_test_db_raise_run (v : Z) (ac ser kd : bool) (s s' : State) (e : exn) :
  create_test_db w gname disp v ac ser kd s = (Raise e, s') ->
  let n := gname (settings_dict s) in
  (environ s !! "RUNNING_SPANNER_BACKEND_TESTS" = Some "1"
   /\ mark_skips s = (Raise e, s'))
  \/ exists tc ev_skips ev_create,
       Forall (fun e => is_setattr e = true) ev_skips
       /\ Forall (fun e => is_creation e = true) ev_create
       /\ (0 < count is_create ev_create)%nat
       /\ (connection_close w ;;
           set_DATABASES_NAME n ;;
           set_settings_dict_NAME n ;;
           (if ser then
              contents <- serialize_db_to_string w ;;
              set_test_serialized_contents contents
            else ret tt) ;;
           s0 <- get ;;
           call_command w "createcachetable" (alias s0) ;;
           ensure_connection w ;;
           ret n)
            (with_trace (with_test_cases s tc)
               (trace s ++ ev_skips ++ announce_events disp v kd (alias s) n
                  ++ ev_create))
          = (Raise e, s')
       /\ exists tr, create_path w disp v ac kd (alias s) n tr (Ret n) ev_create.
Proof.
  intros H n. unfold create_test_db in H.
  apply bind_Raise_inv in H as [H|(s0 & sa & Hget & H)]; [discriminate H|].
  apply get_Ret in Hget as [-> ->].
  apply bind_Raise_inv in H as [H|(u1 & s1 & Hskips & H)].
  { left. destruct (decide _); [done | discriminate H]. }
  right.
  apply skip_phase_Ret in Hskips as (ev_skips & Hs1 & Hall & _).
  apply bind_Raise_inv in H as [H|(s0 & sa & Hget & H)]; [discriminate H|].
  apply get_Ret in Hget as [-> ->].
  assert (Hsd : settings_dict s1 = settings_dict s) by (by rewrite Hs1).
  assert (Hal : alias s1 = alias s) by (by rewrite Hs1).
  assert (Htr : trace s1 = (trace s ++ ev_skips)%list) by (by rewrite Hs1).
  rewrite Hsd in H. fold n in H.
  apply bind_Raise_inv in H as [H|(u2 & s2 & Hann & H)];
    [rewrite run_announce in H; discriminate H|].
  rewrite run_announce in Hann. inversion Hann; subst s2; clear Hann.
  rewrite Hal in H.
  destruct (_create_test_db_run w gname disp v ac kd
              (with_trace s1 (trace s1 ++ announce_events disp v kd (alias s) n)))
    as (out & ev_create & Hrun & Hpath).
  pose proof (creation_events w gname disp v ac kd _ _ _ Hrun) as [Hcre Hpos].
  cbn [settings_dict alias trace with_trace] in Hpath, Hrun.
  apply bind_Raise_inv in H as [H|(n' & s3 & Hcreate & H)].
  { exfalso. rewrite Hrun in H. inversion H; subst out. inversion Hpath. }
  rewrite Hrun in Hcreate. inversion Hcreate; subst out s3; clear Hcreate.
  assert (n' = n) as ->.
  { rewrite Hsd in Hpath. fold n in Hpath. by inversion Hpath. }
  rewrite Hsd, Hal in Hpath. fold n in Hpath.
  exists (test_cases s1), ev_skips, ev_create.
  split; [done|]. split; [done|]. split; [done|].
  split; [|by eexists].
  assert (Hst :
    with_trace
      (with_trace s1 (trace s1 ++ announce_events disp v kd (alias s) n))
      ((trace s1 ++ announce_events disp v kd (alias s) n) ++ ev_create)
    = with_trace (with_test_cases s (test_cases s1))
        (trace s ++ ev_skips ++ announce_events disp v kd (alias s) n
           ++ ev_create)).
  { change (with_trace s1
              ((trace s1 ++ announce_events disp v kd (alias s) n) ++ ev_create)
            = with_trace (with_test_cases s (test_cases s1))
                (trace s ++ ev_skips ++ announce_events disp v kd (alias s) n
                   ++ ev_create)).
    rewrite Htr, <- !app_assoc. rewrite Hs1 at 1. reflexivity. }
  rewrite Hst in H. exact H.
Qed.

(** X8. Where an exception that leaves [create_test_db] comes from.  When
    no creation was requested in the run, it is the exception of the skip
    registration: the flag is set, [mark_skips] raised it, and nothing
    happened but [setattr]s.  When a creation was requested and the
    prompt is out of play (with autoclobber, with keepdb, or once a
    creation has succeeded in this run), it is the exception raised by
    the last call of the run: [connection.close()], the subscript
    [settings.DATABASES[alias]] for an unknown alias (a [KeyError], right
    after a successful close), the serializer, the [createcachetable]
    command, or [ensure_connection()].  A prompt that is reached and
    fails to deliver a line is the case left aside. *)
Theorem X8_where_exceptions_come_from
    (v : Z) (ac ser kd : bool) (s : State) (e : exn) :
  let run := create_test_db w gname disp v ac ser kd in
  let n := gname (settings_dict s) in
  result_of run s = Raise e ->
  (count is_create (events_of run s) = 0%nat ->
   environ s !! "RUNNING_SPANNER_BACKEND_TESTS" = Some "1"
   /\ result_of mark_skips s = Raise e
   /\ state_after run s = state_after mark_skips s
   /\ Forall (fun e => is_setattr e = true) (events_of run s))
  /\ ((0 < count is_create (events_of run s))%nat ->
      ac = true \/ kd = true \/ In (EvCreate n None) (events_of run s) ->
      last (events_of run s) = Some (EvClose (Some e))
      \/ (last (events_of run s) = Some (EvClose None)
          /\ DATABASES s !! alias s = None
          /\ exn_kind e = KeyError)
      \/ (last (events_of run s) = Some (EvSerialize (inl e)) /\ ser = true)
      \/ last (events_of run s)
         = Some (EvCallCommand "createcachetable" (alias s) (Some e))
      \/ last (events_of run s) = Some (EvEnsureConnection (Some e))).
Proof.
  intros run n Hraise. pose proof (run_pair run s) as Hrun. rewrite Hraise in Hrun.
  apply create_test_db_raise_run in Hrun
    as [[Hflag Hskips]|(tc & ev_skips & ev_create & Hall & Hcre & Hpos & Hfin & _)].
  - assert (Hevs : Forall (fun e => is_setattr e = true) (events_of run s)).
    { unfold events_of. fold (state_after run s).
      destruct (mark_skips_frame s) as (tc & evs & Hs' & Hevs).
      rewrite Hskips in Hs'. cbn [snd] in Hs'. rewrite Hs'.
      cbn [trace with_trace]. by rewrite drop_app_length. }
    split.
    + intros _. split; [done|].
      unfold result_of. unfold state_after at 2. rewrite Hskips. by cbn [fst snd].
    + intros Hsome. rewrite (count_skips is_create) in Hsome by done. lia.
  - fold n in Hfin.
    set (pre := (ev_skips ++ announce_events disp v kd (alias s) n ++ ev_create)%list) in *.
    assert (Hpre : (0 < count is_create pre)%nat).
    { unfold pre. rewrite !count_app. lia. }
    apply finishing_raise in Hfin.
    cbn [DATABASES alias trace with_trace with_test_cases] in Hfin.
    unfold events_of. fold (state_after run s).
    destruct Hfin as [->|[(Hnone & -> & ->)|(d & Hd & [[-> ->]|(c & [->| ->])])]];
      cbn [trace with_trace with_serialized renamed with_settings_dict
           with_DATABASES];
      rewrite <- ?app_assoc, drop_app_length;
      (split; [rewrite count_app; lia | intros _ _]).
    + left. by rewrite !last_app.
    + right. left. split; [by rewrite !last_app | done].
    + right. right. left. split; [by rewrite !last_app | done].
    + do 3 right. left. by rewrite !last_app.
    + do 4 right. by rewrite !last_app.
Qed.

Lemma count_set_name_before (v : Z) (kd : bool) (al n : string)
    (ev_skips ev_create tail : list event) :
  Forall (fun e => is_setattr e = true) ev_skips ->
  Forall (fun e => is_creation e = true) ev_create ->
  count is_set_name
    (ev_skips ++ announce_events disp v kd al n ++ ev_create ++ tail)
  = count is_set_name tail.
Proof.
  intros Hskips Hcre.
  by rewrite !count_app, (count_skips is_set_name ev_skips), (count_announce disp),
    (count_creation is_set_name ev_create).
Qed.

(** X9. The two settings are renamed together or not at all.  After any
    run of [create_test_db], whether it returned, raised or ended the
    process, either [settings.DATABASES] and [connection.settings_dict]
    are what they were and no assignment was made, or
    [settings.DATABASES[alias]["NAME"]] and
    [connection.settings_dict["NAME"]] both hold the test database name
    and each was assigned once. *)
Theorem X9_names_assigned_together (v : Z) (ac ser kd : bool) (s : State) :
  let run := create_test_db w gname disp v ac ser kd in
  let n := gname (settings_dict s) in
  (DATABASES (state_after run s) = DATABASES s
   /\ settings_dict (state_after run s) = settings_dict s
   /\ count is_set_name (events_of run s) = 0%nat)
  \/ (exists d,
        DATABASES s !! alias s = Some d
        /\ DATABASES (state_after run s)
           = <[alias s := <["NAME" := n]> d]> (DATABASES s)
        /\ settings_dict (state_after run s) = <["NAME" := n]> (settings_dict s)
        /\ count is_set_name (events_of run s) = 2%nat).
Proof.
  intros run n. destruct (result_of run s) as [r|e|c] eqn:Hres.
  - right.
    destruct (create_test_db_phases w gname disp v ac ser kd s r Hres)
      as (ev_skips & ev_create & d & contents & _ & Hd & Hevs & Hskips & _
          & Hcre & _ & _ & Hdb & Hsd & _).
    fold run n in Hevs, Hdb, Hsd. exists d.
    split; [done|]. split; [done|]. split; [done|].
    rewrite Hevs, count_set_name_before by done. by destruct ser.
  - pose proof (run_pair run s) as Hrun. rewrite Hres in Hrun.
    apply create_test_db_raise_run in Hrun
      as [[Hflag Hskips]|(tc & ev_skips & ev_create & Hall & Hcre & _ & Hfin & _)].
    + left. unfold events_of. fold (state_after run s).
      destruct (mark_skips_frame s) as (tc & evs & Hs' & Hevs).
      rewrite Hskips in Hs'. cbn [snd] in Hs'. rewrite Hs'.
      cbn [trace with_trace]. rewrite drop_app_length.
      split; [done|]. split; [done|]. by apply count_skips.
    + fold n in Hfin. apply finishing_raise in Hfin.
      cbn [DATABASES alias trace with_trace with_test_cases
           _test_serialized_contents] in Hfin.
      unfold events_of. fold (state_after run s).
      destruct Hfin as [->|[(Hnone & _ & ->)|(d & Hd & [[_ ->]|(c & [->| ->])])]];
        cbn [trace with_trace with_serialized renamed with_settings_dict
             with_DATABASES DATABASES settings_dict];
        rewrite <- ?app_assoc, drop_app_length, count_set_name_before by done.
      * by left.
      * by left.
      * right. by exists d.
      * right. exists d. split; [done|]. split; [done|]. split; [done|].
        by destruct ser.
      * right. exists d. split; [done|]. split; [done|]. split; [done|].
        by destruct ser.
  - left. pose proof (run_pair run s) as Hrun. rewrite Hres in Hrun.
    apply create_test_db_exit_run in Hrun
      as (tc & ev_skips & ev_create & Hskips & _ & Hpath & Hs').
    apply creation_path_events in Hpath.
    unfold events_of. fold (state_after run s). rewrite Hs'.
    cbn [trace with_trace]. rewrite drop_app_length.
    split; [done|]. split; [done|].
    rewrite <- (app_nil_r ev_create). by rewrite count_set_name_before.
Qed.

Lemma count_after_creation (p : event -> bool) (v : Z) (kd : bool) (al n : string)
    (ev_skips ev_create tail : list event) :
  Forall (fun e => is_setattr e = true) ev_skips ->
  Forall (fun e => is_creation e = true) ev_create ->
  (forall c m x, p (EvSetattr c m x) = false) ->
  (forall msg, p (EvLog msg) = false) ->
  (forall d r, p (EvCreate d r) = false) ->
  (forall d r, p (EvDrop d r) = false) ->
  (forall q a, p (EvInput q a) = false) ->
  count p (ev_skips ++ announce_events disp v kd al n ++ ev_create ++ tail)
  = count p tail.
Proof.
  intros Hskips Hcre Hattr Hlog Hcr Hdr Hin.
  by rewrite !count_app, (count_skips p ev_skips), (count_announce disp),
    (count_creation p ev_create).
Qed.

(** X10. When the serializer raises, its exception is the one that leaves
    [create_test_db]; by then both settings carry the test database name,
    but no snapshot is stored ([_test_serialized_contents] keeps its
    previous value) and the [createcachetable] command is never run. *)
Theorem X10_failed_serialization (v : Z) (ac ser kd : bool) (s : State) (e : exn) :
  let run := create_test_db w gname disp v ac ser kd in
  let n := gname (settings_dict s) in
  In (EvSerialize (inl e)) (events_of run s) ->
  result_of run s = Raise e
  /\ ser = true
  /\ last (events_of run s) = Some (EvSerialize (inl e))
  /\ _test_serialized_contents (state_after run s) = _test_serialized_contents s
  /\ settings_dict (state_after run s) !! "NAME" = Some n
  /\ count is_call_command (events_of run s) = 0%nat.
Proof.
  intros run n Hin.
  set (p := fun ev => match ev with EvSerialize (inl _) => true | _ => false end).
  pose proof (count_pos p _ _ Hin eq_refl) as Hpos.
  destruct (result_of run s) as [r|e'|c] eqn:Hres.
  - exfalso.
    destruct (create_test_db_phases w gname disp v ac ser kd s r Hres)
      as (ev_skips & ev_create & d & contents & _ & _ & Hevs & Hskips & _
          & Hcre & _).
    fold run n in Hevs. rewrite Hevs, count_after_creation in Hpos by done.
    destruct ser; unfold count in Hpos; simpl in Hpos; lia.
  - pose proof (run_pair run s) as Hrun. rewrite Hres in Hrun.
    apply create_test_db_raise_run in Hrun
      as [[Hflag Hskips]|(tc & ev_skips & ev_create & Hall & Hcre & _ & Hfin & _)].
    + exfalso. revert Hpos. unfold events_of. fold (state_after run s).
      destruct (mark_skips_frame s) as (tc & evs & Hs' & Hevs).
      rewrite Hskips in Hs'. cbn [snd] in Hs'. rewrite Hs'.
      cbn [trace with_trace]. rewrite drop_app_length, (count_skips p evs) by done.
      lia.
    + fold n in Hfin. apply finishing_raise in Hfin.
      cbn [DATABASES alias trace with_trace with_test_cases
           _test_serialized_contents] in Hfin.
      revert Hin Hpos. unfold events_of. fold (state_after run s).
      destruct Hfin as [->|[(Hnone & _ & ->)|(d & Hd & [[-> ->]|(c & [->| ->])])]];
        cbn [trace with_trace with_serialized renamed with_settings_dict
             with_DATABASES settings_dict _test_serialized_contents];
        rewrite <- ?app_assoc, drop_app_length;
        intros Hin; rewrite !count_after_creation by done; intros Hpos;
        try (exfalso; destruct ser; unfold count in Hpos; simpl in Hpos; lia).
      assert (e' = e) as ->.
      { rewrite !in_app_iff in Hin.
        assert (Hno : forall l, Forall (fun e => is_setattr e || is_creation e = true) l ->
                                ~ In (EvSerialize (inl e)) l).
        { intros l Hl Hx. rewrite Forall_forall in Hl.
          apply list_elem_of_In, Hl in Hx. discriminate Hx. }
        destruct Hin as [Hx|[Hx|[Hx|[Hx|Hx]]]].
        - exfalso. apply (Hno ev_skips); [|done].
          eapply Forall_impl; [exact Hall|]. by intros x ->.
        - exfalso. apply (Hno (announce_events disp v kd (alias s) n)); [|done].
          unfold announce_events. destruct (v >=? 1); by repeat constructor.
        - exfalso. apply (Hno ev_create); [|done].
          eapply Forall_impl; [exact Hcre|]. intros x ->. by rewrite orb_true_r.
        - simpl in Hx. by destruct Hx as [?|[?|[?|[]]]].
        - simpl in Hx. destruct Hx as [Hx|[]]. by injection Hx as ->. }
      split; [done|]. split; [done|].
      split; [by rewrite !last_app|]. split; [done|].
      split; [by rewrite lookup_insert_eq|].
      reflexivity.
  - exfalso. pose proof (run_pair run s) as Hrun. rewrite Hres in Hrun.
    apply create_test_db_exit_run in Hrun
      as (tc & ev_skips & ev_create & Hskips & _ & Hpath & Hs').
    apply creation_path_events in Hpath.
    revert Hpos. unfold events_of. fold (state_after run s). rewrite Hs'.
    cbn [trace with_trace]. rewrite drop_app_length.
    rewrite <- (app_nil_r ev_create), count_after_creation by done.
    unfold count. simpl. lia.
Qed.

End Raises.

Lemma X8_witness :
  result_of (create_test_db broken_serializer django_test_db_name
               django_display_str 0 false true false) sample_state
  = Raise unserializable
  /\ In (EvCreate "test_db" None)
       (events_of (create_test_db broken_serializer django_test_db_name
                     django_display_str 0 false true false) sample_state)
  /\ last (events_of (create_test_db broken_serializer django_test_db_name
                        django_display_str 0 false true false) sample_state)
     = Some (EvSerialize (inl unserializable)).
Proof.
  assert (Hin :
    In (EvCreate "test_db" None)
      (events_of (create_test_db broken_serializer django_test_db_name
                    django_display_str 0 false true false) sample_state)).
  { vm_compute. right. left. reflexivity. }
  split; [vm_compute; reflexivity|]. split; [exact Hin|].
  destruct (X8_where_exceptions_come_from broken_serializer django_test_db_name
              django_display_str 0 false true false sample_state unserializable)
    as [_ Hlast]; [vm_compute; reflexivity|].
  destruct Hlast as [H|[(H & _)|[(H & _)|[H|H]]]];
    [ vm_compute; lia
    | right; right; exact Hin
    | vm_compute in H; discriminate H
    | vm_compute in H; discriminate H
    | exact H
    | vm_compute in H; discriminate H
    | vm_compute in H; discriminate H ].
Defined.

Lemma X10_witness :
  In (EvSerialize (inl unserializable))
    (events_of (create_test_db broken_serializer django_test_db_name
                  django_display_str 0 false true false) sample_state)
  /\ _test_serialized_contents
       (state_after (create_test_db broken_serializer django_test_db_name
                       django_display_str 0 false true false) sample_state)
     = None.
Proof.
  assert (Hin :
    In (EvSerialize (inl unserializable))
      (events_of (create_test_db broken_serializer django_test_db_name
                    django_display_str 0 false true false) sample_state)).
  { vm_compute. do 5 right. left. reflexivity. }
  split; [exact Hin|].
  apply (X10_failed_serialization broken_serializer django_test_db_name
           django_display_str 0 false true false sample_state unserializable Hin).
Defined.

(** ** [mark_skips]: when it completes, and what it preserves *)

Section Registration.

Lemma rsplit_dot_contains (x : string) :
  is_Some (rsplit_dot x) <-> contains_dot x = true.
Proof.
  induction x as [|c x IH]; simpl.
  - split; [by intros [? ?] | done].
  - destruct (rsplit_dot x) as [[h t]|].
    + split; [intros _|by eexists].
      rewrite (proj1 IH) by (by eexists). by rewrite orb_true_r.
    + destruct (Ascii.eqb c "."); simpl; [by split; [|eexists]|].
      rewrite <- IH. split; by intros [? ?].
Qed.

(** X11. [mark_skips] completes exactly when every skip entry of an
    installed application names an existing attribute of an importable
    test case (a dotted path): one entry that does not resolve makes the
    whole registration fail, and entries of applications that are not
    installed never do. *)
Theorem X11_mark_skips_completes_iff (s : State) :
  result_of mark_skips s = Ret tt
  <-> forall x, x ∈ skip_tests s -> app_of x ∈ INSTALLED_APPS s ->
        contains_dot (test_case_of x) = true
        /\ is_Some (attribute s (test_case_of x) (method_of x)).
Proof.
  split.
  - intros Hret x Hx Hin. pose proof (run_pair mark_skips s) as Hrun.
    rewrite Hret in Hrun. unfold mark_skips at 1, bind, get in Hrun.
    destruct (for_each_mark_skip_registers _ _ _ x Hrun Hx Hin)
      as (Hdot & m0 & m1 & H0 & _).
    split; [by apply rsplit_dot_contains | by eexists].
  - intros Hres.
    destruct (for_each_mark_skip_completes (skip_tests s) s) as [s' Hrun].
    { intros y Hy Hin. destruct (Hres y Hy Hin) as [Hdot Hattr].
      split; [by apply rsplit_dot_contains | done]. }
    unfold result_of, mark_skips, bind, get. by rewrite Hrun.
Qed.

Lemma for_each_mark_skip_originals (l : list string) (s s' : State)
    (out : outcome unit) :
  for_each l mark_skip s = (out, s') ->
  dom (test_cases s') = dom (test_cases s)
  /\ forall c mn,
       original_of <$> attribute s' c mn = original_of <$> attribute s c mn.
Proof.
  revert s. induction l as [|x l IH]; intros s; cbn [for_each].
  - intros H. by injection H as _ <-.
  - unfold bind.
    destruct (mark_skip_cases x s)
      as [[_ ->]|[[_ [e ->]]|(_ & _ & mx & Hattr & ->)]].
    + apply IH.
    + intros H. by injection H as _ <-.
    + intros Hrun. destruct (IH _ Hrun) as [Hdom Horig]. split.
      * rewrite Hdom. unfold registered.
        cbn [test_cases with_trace with_test_cases]. apply dom_alter_L.
      * intros c mn. rewrite Horig, (attribute_registered _ _ _ _ _ _ _ Hattr).
        case_decide as Hsame; [|done].
        destruct Hsame as [-> ->]. by rewrite Hattr.
Qed.

(** X12. [mark_skips] only wraps.  Whatever its outcome, the test cases
    and the attributes are the same ones after it as before, and under
    its wrappers every method is still the function it was. *)
Theorem X12_mark_skips_keeps_originals (s : State) (c mn : string) :
  dom (test_cases (state_after mark_skips s)) = dom (test_cases s)
  /\ original_of <$> attribute (state_after mark_skips s) c mn
     = original_of <$> attribute s c mn.
Proof.
  unfold state_after, mark_skips, bind, get.
  destruct (for_each_mark_skip_originals (skip_tests s) s
              (snd (for_each (skip_tests s) mark_skip s))
              (fst (for_each (skip_tests s) mark_skip s))) as [Hdom Horig].
  - by destruct (for_each (skip_tests s) mark_skip s).
  - auto.
Qed.

End Registration.

Lemma X11_witness :
  result_of mark_skips sample_state = Ret tt
  /\ contains_dot (test_case_of "queries.tests.Queries1Tests.test_ticket9411") = true.
Proof.
  split; [vm_compute; reflexivity|].
  destruct (X11_mark_skips_completes_iff sample_state) as [Hif _].
  apply (Hif ltac:(vm_compute; reflexivity)
           "queries.tests.Queries1Tests.test_ticket9411").
  - eapply bool_decide_unpack. vm_compute. exact I.
  - eapply bool_decide_unpack. vm_compute. exact I.
Defined.

(** ** The parts of a skip entry *)

Section EntryParts.

Lemma rsplit_dot_None (x : string) :
  rsplit_dot x = None <-> contains_dot x = false.
Proof.
  rewrite eq_None_not_Some, rsplit_dot_contains. by destruct (contains_dot x).
Qed.

Lemma rsplit_dot_tail (x h t : string) :
  rsplit_dot x = Some (h, t) -> contains_dot t = false.
Proof.
  revert h t. induction x as [|c x IH]; intros h t; simpl; [done|].
  destruct (rsplit_dot x) as [[h' t']|] eqn:Hx.
  - intros Heq. injection Heq as <- <-. by apply (IH h').
  - destruct (Ascii.eqb c "."); [|done].
    intros Heq. injection Heq as <- <-. by apply rsplit_dot_None.
Qed.

Lemma split_dot_head_no_dot (x : string) : contains_dot (split_dot_head x) = false.
Proof.
  induction x as [|c x IH]; simpl; [done|].
  destruct (Ascii.eqb c ".") eqn:Hc; simpl; [done|]. by rewrite Hc.
Qed.

Lemma split_dot_head_whole (x : string) :
  contains_dot x = false -> split_dot_head x = x.
Proof.
  induction x as [|c x IH]; simpl; [done|].
  destruct (Ascii.eqb c "."); simpl; [done|]. intros Hx. by rewrite IH.
Qed.

Lemma split_dot_head_join (h t : string) :
  split_dot_head (h ++ "." ++ t) = split_dot_head h.
Proof.
  induction h as [|c h IH]; simpl; [done|].
  destruct (Ascii.eqb c "."); [done|]. by rewrite <- IH.
Qed.

(** X14. The three names [mark_skips] derives from a skip entry.  The
    test case, the separator and the method put together are the entry;
    neither the method nor the application contains a dot.  For an entry
    with a dot, the separator is a dot and the application checked against
    [INSTALLED_APPS] is the first segment of the test case that gets
    imported.  For an entry without a dot, the test case is empty and the
    method and the application are both the whole entry. *)
Theorem X14_parts_of_an_entry (x : string) :
  test_case_of x ++ separator_of x ++ method_of x = x
  /\ contains_dot (method_of x) = false
  /\ contains_dot (app_of x) = false
  /\ (contains_dot x = true ->
      separator_of x = "." /\ app_of x = app_of (test_case_of x))
  /\ (contains_dot x = false ->
      test_case_of x = "" /\ separator_of x = "" /\ method_of x = x
      /\ app_of x = x).
Proof.
  unfold test_case_of, separator_of, method_of, app_of, rpartition_dot.
  destruct (rsplit_dot x) as [[h t]|] eqn:Hx; cbn [fst snd].
  - pose proof (rsplit_dot_join x h t Hx) as Hjoin.
    split; [done|]. split; [by apply (rsplit_dot_tail x h)|].
    split; [apply split_dot_head_no_dot|]. split.
    + intros _. split; [done|]. rewrite Hjoin at 1. apply split_dot_head_join.
    + intros Hno. apply rsplit_dot_None in Hno. congruence.
  - apply rsplit_dot_None in Hx.
    split; [done|]. split; [done|].
    split; [apply split_dot_head_no_dot|]. split.
    + intros Hyes. congruence.
    + intros _. by rewrite split_dot_head_whole.
Qed.

End EntryParts.

Lemma X14_witness :
  contains_dot "queries.tests.Queries1Tests.test_ticket9411" = true
  /\ contains_dot "test_ticket9411" = false
  /\ app_of "queries.tests.Queries1Tests.test_ticket9411"
     = app_of (test_case_of "queries.tests.Queries1Tests.test_ticket9411")
  /\ app_of "test_ticket9411" = "test_ticket9411".
Proof.
  split; [reflexivity|]. split; [reflexivity|]. split.
  - apply (X14_parts_of_an_entry "queries.tests.Queries1Tests.test_ticket9411").
    reflexivity.
  - apply (X14_parts_of_an_entry "test_ticket9411"). reflexivity.
Defined.

(** ** What [create_test_db] never modifies *)

Section Frame.

Variable w : World.
Variable gname : gmap string string -> string.
Variable disp : string -> Z -> string -> string.

Ltac unfold_create_test_db :=
  unfold create_test_db, mark_skips, mark_skip, import_string, getattr, setattr,
    announce, _create_test_db, _execute_create_test_db, create_failed,
    ask_confirm, disposition, clobber, _destroy_test_db,
    _execute_create_test_db, input, connection_close, set_DATABASES_NAME,
    set_settings_dict_NAME, serialize_db_to_string,
    set_test_serialized_contents, call_command, ensure_connection, log.

Lemma create_test_db_keeps_environ (v : Z) (ac ser kd : bool) :
  keeps environ (create_test_db w gname disp v ac ser kd).
Proof. unfold_create_test_db. keeps_all. Qed.

Lemma create_test_db_keeps_INSTALLED_APPS (v : Z) (ac ser kd : bool) :
  keeps INSTALLED_APPS (create_test_db w gname disp v ac ser kd).
Proof. unfold_create_test_db. keeps_all. Qed.

Lemma create_test_db_keeps_skip_tests (v : Z) (ac ser kd : bool) :
  keeps skip_tests (create_test_db w gname disp v ac ser kd).
Proof. unfold_create_test_db. keeps_all. Qed.

Lemma create_test_db_keeps_alias (v : Z) (ac ser kd : bool) :
  keeps alias (create_test_db w gname disp v ac ser kd).
Proof. unfold_create_test_db. keeps_all. Qed.

Lemma bind_get_run {B : Type} (k : State -> M B) (s : State) :
  bind get k s = k s s.
Proof. reflexivity. Qed.

Lemma bind_ret_run {A B : Type} (a : A) (k : A -> M B) (s : State) :
  bind (ret a) k s = k a s.
Proof. reflexivity. Qed.

(** With the flag off, [create_test_db] is what follows the skip
    registration. *)
Lemma create_test_db_flag_off (v : Z) (ac ser kd : bool) (s : State) :
  environ s !! "RUNNING_SPANNER_BACKEND_TESTS" <> Some "1" ->
  create_test_db w gname disp v ac ser kd s
  = (s0 <- get ;;
     announce disp v kd (gname (settings_dict s0)) ;;
     _create_test_db w gname disp v ac kd ;;
     connection_close w ;;
     set_DATABASES_NAME (gname (settings_dict s0)) ;;
     set_settings_dict_NAME (gname (settings_dict s0)) ;;
     (if ser then
        contents <- serialize_db_to_string w ;;
        set_test_serialized_contents contents
      else ret tt) ;;
     s1 <- get ;;
     call_command w "createcachetable" (alias s1) ;;
     ensure_connection w ;;
     ret (gname (settings_dict s0))) s.
Proof.
  intros Hoff. unfold create_test_db.
  rewrite bind_get_run, decide_False by done. by rewrite bind_ret_run.
Qed.

(** X15. [create_test_db] never changes the environment, the installed
    applications, the list of skip entries or the connection alias,
    whatever its outcome; and unless [RUNNING_SPANNER_BACKEND_TESTS] is
    exactly ["1"] it leaves every test case untouched and performs no
    [setattr]. *)
Theorem X15_what_is_left_alone (v : Z) (ac ser kd : bool) (s : State) :
  let run := create_test_db w gname disp v ac ser kd in
  environ (state_after run s) = environ s
  /\ INSTALLED_APPS (state_after run s) = INSTALLED_APPS s
  /\ skip_tests (state_after run s) = skip_tests s
  /\ alias (state_after run s) = alias s
  /\ (environ s !! "RUNNING_SPANNER_BACKEND_TESTS" <> Some "1" ->
      test_cases (state_after run s) = test_cases s
      /\ count is_setattr (events_of run s) = 0%nat).
Proof.
  intros run.
  split; [apply create_test_db_keeps_environ|].
  split; [apply create_test_db_keeps_INSTALLED_APPS|].
  split; [apply create_test_db_keeps_skip_tests|].
  split; [apply create_test_db_keeps_alias|].
  intros Hoff. unfold events_of, state_after, run.
  rewrite create_test_db_flag_off by done.
  match goal with
  | |- test_cases (snd (?m s)) = _ /\ _ =>
      assert (Hkeeps : keeps test_cases m);
      [|assert (Hnever : never is_setattr m)]
  end.
  - unfold announce, _create_test_db, _execute_create_test_db, create_failed,
      ask_confirm, disposition, clobber, _destroy_test_db,
      _execute_create_test_db, input, connection_close, set_DATABASES_NAME,
      set_settings_dict_NAME, serialize_db_to_string,
      set_test_serialized_contents, call_command, ensure_connection, log.
    keeps_all.
  - unfold never, announce, _create_test_db, _execute_create_test_db,
      create_failed, ask_confirm, disposition, clobber, _destroy_test_db,
      _execute_create_test_db, input, connection_close, set_DATABASES_NAME,
      set_settings_dict_NAME, serialize_db_to_string,
      set_test_serialized_contents, call_command, ensure_connection, log.
    emits.
  - split; [apply Hkeeps|]. apply (never_count is_setattr _ s Hnever).
Qed.

(** X16. A second call works on the renamed connection: when
    [create_test_db] has returned [r], a further call that returns gives
    the name [_get_test_db_name] derives from the settings in which
    [NAME] is [r], not the name derived from the original settings. *)
Theorem X16_second_call_derives_from_first
    (v v' : Z) (ac ser kd ac' ser' kd' : bool) (s : State) (r r' : string) :
  let first := create_test_db w gname disp v ac ser kd in
  let second := create_test_db w gname disp v' ac' ser' kd' in
  result_of first s = Ret r ->
  result_of second (state_after first s) = Ret r' ->
  r' = gname (<["NAME" := r]> (settings_dict s))
  /\ settings_dict (state_after second (state_after first s)) !! "NAME" = Some r'.
Proof.
  intros first second H1 H2.
  destruct (create_test_db_phases w gname disp v ac ser kd s r H1)
    as (_ & _ & _ & _ & -> & _ & _ & _ & _ & _ & _ & _ & _ & Hsd & _).
  destruct (create_test_db_phases w gname disp v' ac' ser' kd' _ r' H2)
    as (_ & _ & _ & _ & -> & _ & _ & _ & _ & _ & _ & _ & _ & Hsd' & _).
  fold first in Hsd, Hsd'. fold second in Hsd'.
  rewrite Hsd'. rewrite Hsd. split; [done|]. by rewrite lookup_insert_eq.
Qed.

End Frame.

Lemma X15_witness :
  environ unflagged_state !! "RUNNING_SPANNER_BACKEND_TESTS" <> Some "1"
  /\ test_cases
       (state_after (create_test_db (spanner false "") django_test_db_name
                       django_display_str 1 false true false) unflagged_state)
     = test_cases unflagged_state.
Proof.
  assert (Hoff : environ unflagged_state !! "RUNNING_SPANNER_BACKEND_TESTS"
                 <> Some "1") by (vm_compute; discriminate).
  split; [exact Hoff|].
  destruct (X15_what_is_left_alone (spanner false "") django_test_db_name
              django_display_str 1 false true false unflagged_state)
    as (_ & _ & _ & _ & H).
  exact (proj1 (H Hoff)).
Defined.

Lemma X16_witness :
  result_of (create_test_db (spanner false "") django_test_db_name
               django_display_str 1 false true false) sample_state
  = Ret "test_db"
  /\ result_of (create_test_db (spanner false "") django_test_db_name
                  django_display_str 1 false true false)
       (state_after (create_test_db (spanner false "") django_test_db_name
                       django_display_str 1 false true false) sample_state)
     = Ret "test_test_db"
  /\ "test_test_db" = django_test_db_name (<["NAME" := "test_db"]> (settings_dict sample_state)).
Proof.
  split; [vm_compute; reflexivity|]. split; [vm_compute; reflexivity|].
  apply (X16_second_call_derives_from_first (spanner false "") django_test_db_name
           django_display_str 1 1 false true false false true false
           sample_state "test_db" "test_test_db");
    vm_compute; reflexivity.
Defined.

(** ** How many wrappers one pass adds *)

Section WrapCount.

Lemma for_each_mark_skip_depth (l : list string) (s s' : State)
    (c mn : string) (m : method) :
  for_each l mark_skip s = (Ret tt, s') ->
  attribute s c mn = Some m ->
  exists m',
    attribute s' c mn = Some m'
    /\ (wrap_depth m
        + length (filter (fun y => app_of y ∈ INSTALLED_APPS s
                                   /\ test_case_of y = c /\ method_of y = mn) l)
        <= wrap_depth m')%nat.
Proof.
  revert s m. induction l as [|x l IH]; intros s m; cbn [for_each].
  - intros H Hattr. injection H as <-. exists m. split; [done|]. simpl. lia.
  - unfold bind. intros Hrun Hattr.
    destruct (mark_skip_cases x s)
      as [[Hout Hx]|[[_ [e Hx]]|(Hin & _ & mx & Hmx & Hx)]];
      rewrite Hx in Hrun; [| discriminate Hrun |].
    + destruct (IH _ _ Hrun Hattr) as (m' & Hm' & Hd). exists m'.
      split; [done|]. rewrite filter_cons_False; [done|]. by intros [? _].
    + pose proof (attribute_registered s (test_case_of x) (method_of x) mx
                    (skip "unsupported by Spanner" mx) c mn Hmx) as Hreg.
      destruct (decide (c = test_case_of x /\ mn = method_of x)) as [[-> ->]|Hne].
      * assert (mx = m) as -> by congruence.
        destruct (IH _ _ Hrun Hreg) as (m' & Hm' & Hd). exists m'.
        split; [done|]. rewrite filter_cons_True by done.
        simpl in *. lia.
      * rewrite Hattr in Hreg.
        destruct (IH _ _ Hrun Hreg) as (m' & Hm' & Hd). exists m'.
        split; [done|]. rewrite filter_cons_False; [done|].
        intros (_ & Hc & Hm). by apply Hne.
Qed.

(** X13. One pass of [mark_skips] wraps a method at least once for every
    occurrence of its entry in [skip_tests]: the loop has no memory of
    the entries it has handled, so an entry listed twice leaves the method
    under two more wrappers after a single pass. *)
Theorem X13_a_wrapper_per_occurrence (s : State) (x : string) :
  result_of mark_skips s = Ret tt ->
  x ∈ skip_tests s ->
  app_of x ∈ INSTALLED_APPS s ->
  exists m0 m1,
    attribute s (test_case_of x) (method_of x) = Some m0
    /\ attribute (state_after mark_skips s) (test_case_of x) (method_of x) = Some m1
    /\ (wrap_depth m0 + length (filter (fun y => y = x) (skip_tests s))
        <= wrap_depth m1)%nat.
Proof.
  intros Hret Hx Hin. pose proof (run_pair mark_skips s) as Hrun.
  rewrite Hret in Hrun. unfold mark_skips at 1, bind, get in Hrun.
  destruct (for_each_mark_skip_registers _ _ _ x Hrun Hx Hin)
    as (Hdot & m0 & _ & H0 & _).
  destruct (for_each_mark_skip_depth _ _ _ _ _ _ Hrun H0) as (m1 & H1 & Hd).
  exists m0, m1. split; [done|]. split; [done|].
  etrans; [|exact Hd]. apply Nat.add_le_mono_l, Nat.eq_le_incl. f_equal.
  apply list_filter_iff. intros y. split.
  - by intros ->.
  - intros (_ & Hc & Hm). by apply entry_determined.
Qed.

End WrapCount.

Lemma X13_witness :
  result_of mark_skips twice_listed_state = Ret tt
  /\ exists m1,
       attribute (state_after mark_skips twice_listed_state)
         (test_case_of "queries.tests.Queries1Tests.test_ticket9411")
         (method_of "queries.tests.Queries1Tests.test_ticket9411") = Some m1
       /\ (2 <= wrap_depth m1)%nat.
Proof.
  assert (Hret : result_of mark_skips twice_listed_state = Ret tt)
    by (vm_compute; reflexivity).
  split; [exact Hret|].
  destruct (X13_a_wrapper_per_occurrence twice_listed_state
              "queries.tests.Queries1Tests.test_ticket9411" Hret)
    as (m0 & m1 & _ & H1 & Hd).
  - eapply bool_decide_unpack. vm_compute. exact I.
  - eapply bool_decide_unpack. vm_compute. exact I.
  - exists m1. split; [exact H1|].
    eapply Nat.le_trans; [|exact Hd].
    etransitivity; [|apply Nat.le_add_l]. vm_compute. 
    apply le_n.
Defined.

(** ** One database name per call *)

Section OneName.

Variable w : World.
Variable gname : gmap string string -> string.
Variable disp : string -> Z -> string -> string.

Ltac concerns_one :=
  let H := fresh in
  split; [intros ? H; simpl in H; congruence | intros ? ? H; congruence].

Ltac concerns_list :=
  repeat (apply List.Forall_cons; [concerns_one|]); try apply List.Forall_nil.

Lemma concerns_all (n : string) (q : event -> bool) (evs : list event) :
  Forall (fun e => q e = true) evs ->
  (forall e, q e = true -> concerns n e) ->
  Forall (concerns n) evs.
Proof. intros Hall Hq. eapply Forall_impl; [exact Hall|]. exact Hq. Qed.

Lemma concerns_skips (n : string) (evs : list event) :
  Forall (fun e => is_setattr e = true) evs -> Forall (concerns n) evs.
Proof.
  intros Hall. apply (concerns_all n is_setattr); [done|].
  intros [] He; try discriminate He. concerns_one.
Qed.

Lemma concerns_announce (n : string) (v : Z) (kd : bool) (al : string) :
  Forall (concerns n) (announce_events disp v kd al n).
Proof.
  unfold announce_events. destruct (v >=? 1); concerns_list.
Qed.

Lemma create_path_concerns (v : Z) (ac kd : bool) (al n : string)
    (tr : list event) (out : outcome string) (evs : list event) :
  create_path w disp v ac kd al n tr out evs -> Forall (concerns n) evs.
Proof.
  assert (Hlog : Forall (concerns n) (destroying_log disp v al n)).
  { unfold destroying_log. destruct (v >=? 1); concerns_list. }
  intros Hpath.
  destruct Hpath;
    unfold confirmed, conflict, create_error_log, recreate_error_log;
    rewrite ?Forall_app; repeat split; try exact Hlog;
    try (destruct ac); concerns_list.
Qed.

(** X17. One call, one database: in any run of [create_test_db],
    whatever its outcome, every creation, every drop and both assignments
    of [NAME] name the database [_get_test_db_name] gave for the settings
    the call started with, and the prompt asks about that database. *)
Theorem X17_one_name_throughout (v : Z) (ac ser kd : bool) (s : State) :
  Forall (concerns (gname (settings_dict s)))
    (events_of (create_test_db w gname disp v ac ser kd) s).
Proof.
  set (run := create_test_db w gname disp v ac ser kd).
  set (n := gname (settings_dict s)).
  destruct (result_of run s) as [r|e|c] eqn:Hres.
  - destruct (returned_path w gname disp v ac ser kd s r Hres)
      as (tr & ev_skips & ev_create & contents & -> & Hpath & Hskips & Hevs).
    fold run n in Hevs, Hpath. rewrite Hevs.
    repeat (apply Forall_app; split).
    + by apply concerns_skips.
    + apply concerns_announce.
    + by apply create_path_concerns in Hpath.
    + unfold rename_events. concerns_list.
    + destruct ser; unfold snapshot_events; concerns_list.
    + unfold finishing_events. concerns_list.
  - pose proof (run_pair run s) as Hrun. rewrite Hres in Hrun.
    apply create_test_db_raise_run in Hrun
      as [[Hflag Hskips]|(tc & ev_skips & ev_create & Hall & _ & _ & Hfin
                          & tr & Hpath)].
    + unfold events_of. fold (state_after run s).
      destruct (mark_skips_frame s) as (tc & evs & Hs' & Hevs).
      rewrite Hskips in Hs'. cbn [snd] in Hs'. rewrite Hs'.
      cbn [trace with_trace]. rewrite drop_app_length. by apply concerns_skips.
    + fold n in Hfin, Hpath. apply finishing_raise in Hfin.
      apply create_path_concerns in Hpath.
      cbn [DATABASES alias trace with_trace with_test_cases
           _test_serialized_contents] in Hfin.
      unfold events_of. fold (state_after run s).
      destruct Hfin as [->|[(Hnone & _ & ->)|(d & Hd & [[_ ->]|(c & [->| ->])])]];
        cbn [trace with_trace with_serialized renamed with_settings_dict
             with_DATABASES];
        rewrite <- ?app_assoc, drop_app_length;
        rewrite ?Forall_app; repeat split;
        try (by apply concerns_skips); try apply concerns_announce;
        try exact Hpath;
        try (destruct ser); unfold rename_events, snapshot_events; concerns_list.
  - pose proof (run_pair run s) as Hrun. rewrite Hres in Hrun.
    apply create_test_db_exit_run in Hrun
      as (tc & ev_skips & ev_create & Hskips & _ & Hpath & Hs').
    fold n in Hpath, Hs'. apply create_path_concerns in Hpath.
    unfold events_of. fold (state_after run s). rewrite Hs'.
    cbn [trace with_trace]. rewrite drop_app_length.
    repeat (apply Forall_app; split);
      [by apply concerns_skips | apply concerns_announce | done].
Qed.

End OneName.
